(** * Recipe-sharing client: store, views and relational schema

    A shallow embedding of the client-side store (the zustand store of
    [@/store/main]), of the view handlers that read and write it (saved
    recipes, recipe view, recipe submission, browse, search results) and of
    the two schema tables whose constraints the views rely on; then of the
    handlers that edit the recipe form, of the password-reset view and of
    the foreign keys of the whole schema.

    Conventions.
    - A JavaScript string is a [string]; its characters stand for code
      units below 256, so the white space removed by [trim] is the set
      TAB, LF, VT, FF, CR, SPACE and NBSP.
    - Identifiers, page numbers and star ratings are integers ([Z]); the
      numbers typed into the recipe form and the averages sent by the
      server are rationals ([Q]).  The values of the numeric filters, which
      the code only prints, are kept as the text that [String] gives them
      ([JsNumber.t]), so that 3.5, 1e+21 and NaN are among them.
    - [null] and [undefined] are [None].
    - An awaited HTTP request is an input of the action that awaits it: the
      action receives the outcome of the request and is atomic otherwise.
    - [setTimeout] callbacks are kept in a queue next to the store, with the
      time at which they are due (milliseconds). *)

From Stdlib Require Import ZArith List String Ascii Bool Lia QArith.
Import ListNotations.
Open Scope string_scope.
Open Scope list_scope.
Open Scope Z_scope.

(** ** JavaScript values *)

Module Js.

(** Truthiness of a string: the empty string is falsy. *)
Definition truthy (s : string) : bool :=
  match s with
  | EmptyString => false
  | String _ _ => true
  end.

(** Truthiness of [string | null | undefined]. *)
Definition truthy_opt (o : option string) : bool :=
  match o with
  | Some s => truthy s
  | None => false
  end.

(** [a || b] where [a] may be missing and [b] is a string. *)
Definition or_else (a : option string) (b : string) : string :=
  match a with
  | Some s => if truthy s then s else b
  | None => b
  end.

(** [a || b] on two strings. *)
Definition or_str (a b : string) : string :=
  if truthy a then a else b.

Definition is_white_space (c : ascii) : bool :=
  let n := N_of_ascii c in
  ((9 <=? n) && (n <=? 13) || (n =? 32) || (n =? 160))%N.

Fixpoint trimStart (s : string) : string :=
  match s with
  | EmptyString => EmptyString
  | String c s' => if is_white_space c then trimStart s' else s
  end.

Fixpoint trimEnd (s : string) : string :=
  match s with
  | EmptyString => EmptyString
  | String c s' =>
      match trimEnd s' with
      | EmptyString => if is_white_space c then EmptyString
                       else String c EmptyString
      | t => String c t
      end
  end.

(** [String.prototype.trim]. *)
Definition trim (s : string) : string := trimEnd (trimStart s).

(** Every character of [s] is white space (the empty string included). *)
Fixpoint only_white_space (s : string) : bool :=
  match s with
  | EmptyString => true
  | String c s' => is_white_space c && only_white_space s'
  end.

(** Decimal digits of a positive number, most significant first; the
    fuel is the number of binary digits, which bounds the decimal ones. *)
Fixpoint digits (fuel : nat) (n : N) (acc : string) : string :=
  match fuel with
  | O => acc
  | S fuel' =>
      let d := ascii_of_N (48 + N.modulo n 10) in
      let q := N.div n 10 in
      if (q =? 0)%N then String d acc else digits fuel' q (String d acc)
  end.

(** [String(n)] for a whole number [n] of absolute value up to 2^53 - 1:
    its decimal notation.  (Beyond that a JavaScript number prints the
    digits of its shortest notation, and from 10^21 on an exponent.) *)
Definition String_of (n : Z) : string :=
  match n with
  | Z0 => "0"
  | Zpos p => digits (S (N.to_nat (N.log2 (Npos p)))) (Npos p) ""
  | Zneg p => String "-" (digits (S (N.to_nat (N.log2 (Npos p)))) (Npos p) "")
  end.

(** [xs.join(',')]. *)
Fixpoint join (sep : string) (xs : list string) : string :=
  match xs with
  | [] => ""
  | [x] => x
  | x :: rest => (x ++ sep ++ join sep rest)%string
  end.

End Js.

(** ** JavaScript numbers that are only printed

    A filter value is a number that the code compares with [null] and
    passes to [String], and does nothing else with.  Such a number is kept
    as the text that [String] gives it: "30", "3.5", "1e+21", "NaN". *)

Module JsNumber.

Record t : Type := mk {
  text : string
}.

(** [Number.isSafeInteger(n)] for a whole number [n]. *)
Definition safe_integer (n : Z) : Prop := Z.abs n <= 2 ^ 53 - 1.

(** The number [n], a safe integer. *)
Definition of_Z (n : Z) : t := mk (Js.String_of n).

End JsNumber.

(** ** URLSearchParams

    An ordered list of name/value pairs: [append] adds at the end, [set]
    overwrites the first pair of that name and drops the later ones (or
    appends when there is none), [delete] drops every pair of that name,
    [get] reads the first one. *)

Module URLSearchParams.

Definition t : Type := list (string * string).

Definition empty : t := [].

Definition append (k v : string) (p : t) : t := p ++ [(k, v)].

Definition delete (k : string) (p : t) : t :=
  filter (fun kv => negb (String.eqb (fst kv) k)) p.

Definition get (k : string) (p : t) : option string :=
  match find (fun kv => String.eqb (fst kv) k) p with
  | Some kv => Some (snd kv)
  | None => None
  end.

Definition has (k : string) (p : t) : bool :=
  existsb (fun kv => String.eqb (fst kv) k) p.

Fixpoint set (k v : string) (p : t) : t :=
  match p with
  | [] => [(k, v)]
  | (k', v') :: rest =>
      if String.eqb k' k then (k, v) :: delete k rest
      else (k', v') :: set k v rest
  end.

(** [getAll]: every value of that name, in order. *)
Definition getAll (k : string) (p : t) : list string :=
  map snd (filter (fun kv => String.eqb (fst kv) k) p).

End URLSearchParams.

(** ** The store's data types *)

Module UserSummary.
Record t : Type := mk {
  user_id : Z;
  username : string;
  profile_picture_url : option string
}.
End UserSummary.

Module UserProfile.
(** [UserProfile extends UserSummary]. *)
Record t : Type := mk {
  user_id : Z;
  username : string;
  profile_picture_url : option string;
  email : string;
  first_name : option string;
  last_name : option string
}.
End UserProfile.

Module IngredientDetail.
Record t : Type := mk {
  quantity : Q;
  unit : option string;
  name : string;
  order : Z
}.
End IngredientDetail.

Module InstructionDetail.
Record t : Type := mk {
  step_number : Z;
  description : string
}.
End InstructionDetail.

Module RecipeComment.
Record t : Type := mk {
  comment_id : Z;
  user : UserSummary.t;
  comment_text : string;
  created_at : string
}.
End RecipeComment.

Inductive Difficulty : Type := Easy | Medium | Hard.

Module RecipeDetail.
(** [is_recipe_saved] is not declared by the interface; [saveRecipe] and
    [unsaveRecipe] add it to the object. *)
Record t : Type := mk {
  recipe_id : Z;
  title : string;
  description : string;
  cover_photo_url : string;
  prep_time_minutes : Z;
  cook_time_minutes : Z;
  servings : Z;
  difficulty_level : Difficulty;
  nutri_net_carbs_grams_per_serving : option Q;
  nutri_protein_grams_per_serving : option Q;
  nutri_fat_grams_per_serving : option Q;
  notes_tips : option string;
  average_rating : option Q;
  rating_count : Z;
  submitter : UserSummary.t;
  tags : list string;
  ingredients : list IngredientDetail.t;
  instructions : list InstructionDetail.t;
  comments : list RecipeComment.t;
  is_recipe_saved : option bool
}.

Definition set_rating (avg : option Q) (count : Z) (r : t) : t :=
  mk (recipe_id r) (title r) (description r) (cover_photo_url r)
     (prep_time_minutes r) (cook_time_minutes r) (servings r)
     (difficulty_level r) (nutri_net_carbs_grams_per_serving r)
     (nutri_protein_grams_per_serving r) (nutri_fat_grams_per_serving r)
     (notes_tips r) avg count (submitter r) (tags r) (ingredients r)
     (instructions r) (comments r) (is_recipe_saved r).

Definition set_comments (cs : list RecipeComment.t) (r : t) : t :=
  mk (recipe_id r) (title r) (description r) (cover_photo_url r)
     (prep_time_minutes r) (cook_time_minutes r) (servings r)
     (difficulty_level r) (nutri_net_carbs_grams_per_serving r)
     (nutri_protein_grams_per_serving r) (nutri_fat_grams_per_serving r)
     (notes_tips r) (average_rating r) (rating_count r) (submitter r)
     (tags r) (ingredients r) (instructions r) cs (is_recipe_saved r).

Definition set_is_recipe_saved (b : bool) (r : t) : t :=
  mk (recipe_id r) (title r) (description r) (cover_photo_url r)
     (prep_time_minutes r) (cook_time_minutes r) (servings r)
     (difficulty_level r) (nutri_net_carbs_grams_per_serving r)
     (nutri_protein_grams_per_serving r) (nutri_fat_grams_per_serving r)
     (notes_tips r) (average_rating r) (rating_count r) (submitter r)
     (tags r) (ingredients r) (instructions r) (comments r) (Some b).
End RecipeDetail.

Module RecipeSummary.
Record t : Type := mk {
  recipe_id : Z;
  title : string;
  description : string;
  cover_photo_url : string;
  prep_time_minutes : Z;
  cook_time_minutes : Z;
  difficulty_level : Difficulty;
  average_rating : option Q;
  user_id : Z;
  username : string;
  tags : list string;
  saved_at : option string
}.

Definition set_saved_at (v : option string) (r : t) : t :=
  mk (recipe_id r) (title r) (description r) (cover_photo_url r)
     (prep_time_minutes r) (cook_time_minutes r) (difficulty_level r)
     (average_rating r) (user_id r) (username r) (tags r) v.
End RecipeSummary.

Module PaginationInfo.
Record t : Type := mk {
  total_items : Z;
  total_pages : Z;
  current_page : Z;
  items_per_page : Z
}.

Definition set_current_page (p : Z) (i : t) : t :=
  mk (total_items i) (total_pages i) p (items_per_page i).
End PaginationInfo.

Module PaginatedRecipesResponse.
Record t : Type := mk {
  recipes : list RecipeSummary.t;
  pagination : PaginationInfo.t
}.
End PaginatedRecipesResponse.

Module FilterParams.
Record t : Type := mk {
  tags : list string;
  difficulty : list string;
  max_prep_time : option JsNumber.t;
  max_cook_time : option JsNumber.t;
  min_rating : option JsNumber.t
}.

(** A [Partial<FilterParams>]: an absent key is [None]; a key that is
    present holds a value of the field's type ([null] included). *)
Record partial : Type := mkPartial {
  p_tags : option (list string);
  p_difficulty : option (list string);
  p_max_prep_time : option (option JsNumber.t);
  p_max_cook_time : option (option JsNumber.t);
  p_min_rating : option (option JsNumber.t)
}.

Definition to_partial (f : t) : partial :=
  mkPartial (Some (tags f)) (Some (difficulty f)) (Some (max_prep_time f))
            (Some (max_cook_time f)) (Some (min_rating f)).

Definition pick {A : Type} (o : option A) (d : A) : A :=
  match o with Some v => v | None => d end.

(** [{ ...f, ...p }]. *)
Definition spread (f : t) (p : partial) : t :=
  mk (pick (p_tags p) (tags f)) (pick (p_difficulty p) (difficulty f))
     (pick (p_max_prep_time p) (max_prep_time f))
     (pick (p_max_cook_time p) (max_cook_time f))
     (pick (p_min_rating p) (min_rating f)).

Definition default : t := mk [] [] None None None.
End FilterParams.

Inductive NotificationType : Type := success | error | info.

Module Notification.
Record t : Type := mk {
  message : string;
  type : NotificationType
}.
End Notification.

(** ** The store *)

Module Store.

Record AppState : Type := mkAppState {
  is_authenticated : bool;
  access_token : option string;
  user_profile_summary : option UserSummary.t;
  auth_error : option string;
  loading_auth : bool;
  paginated_recipes : PaginatedRecipesResponse.t;
  current_recipe_details : option RecipeDetail.t;
  recipe_fetch_error : option string;
  recipe_loading : bool;
  filter_params : FilterParams.t;
  sort_order : string;
  search_query : string;
  current_user_profile : option UserProfile.t;
  saved_recipes : list RecipeSummary.t;
  saved_recipes_loading : bool;
  profile_fetch_error : option string;
  public_user_profile : option UserProfile.t;
  modal_open : option string;
  notification : option Notification.t
}.

Definition set_is_authenticated (v : bool) (s : AppState) : AppState :=
  {| is_authenticated := v; access_token := access_token s;
     user_profile_summary := user_profile_summary s;
     auth_error := auth_error s; loading_auth := loading_auth s;
     paginated_recipes := paginated_recipes s;
     current_recipe_details := current_recipe_details s;
     recipe_fetch_error := recipe_fetch_error s;
     recipe_loading := recipe_loading s; filter_params := filter_params s;
     sort_order := sort_order s; search_query := search_query s;
     current_user_profile := current_user_profile s;
     saved_recipes := saved_recipes s;
     saved_recipes_loading := saved_recipes_loading s;
     profile_fetch_error := profile_fetch_error s;
     public_user_profile := public_user_profile s;
     modal_open := modal_open s; notification := notification s |}.

Definition set_access_token (v : option string) (s : AppState) : AppState :=
  {| is_authenticated := is_authenticated s; access_token := v;
     user_profile_summary := user_profile_summary s;
     auth_error := auth_error s; loading_auth := loading_auth s;
     paginated_recipes := paginated_recipes s;
     current_recipe_details := current_recipe_details s;
     recipe_fetch_error := recipe_fetch_error s;
     recipe_loading := recipe_loading s; filter_params := filter_params s;
     sort_order := sort_order s; search_query := search_query s;
     current_user_profile := current_user_profile s;
     saved_recipes := saved_recipes s;
     saved_recipes_loading := saved_recipes_loading s;
     profile_fetch_error := profile_fetch_error s;
     public_user_profile := public_user_profile s;
     modal_open := modal_open s; notification := notification s |}.

Definition set_user_profile_summary (v : option UserSummary.t) (s : AppState) : AppState :=
  {| is_authenticated := is_authenticated s; access_token := access_token s;
     user_profile_summary := v; auth_error := auth_error s;
     loading_auth := loading_auth s;
     paginated_recipes := paginated_recipes s;
     current_recipe_details := current_recipe_details s;
     recipe_fetch_error := recipe_fetch_error s;
     recipe_loading := recipe_loading s; filter_params := filter_params s;
     sort_order := sort_order s; search_query := search_query s;
     current_user_profile := current_user_profile s;
     saved_recipes := saved_recipes s;
     saved_recipes_loading := saved_recipes_loading s;
     profile_fetch_error := profile_fetch_error s;
     public_user_profile := public_user_profile s;
     modal_open := modal_open s; notification := notification s |}.

Definition set_auth_error (v : option string) (s : AppState) : AppState :=
  {| is_authenticated := is_authenticated s; access_token := access_token s;
     user_profile_summary := user_profile_summary s; auth_error := v;
     loading_auth := loading_auth s;
     paginated_recipes := paginated_recipes s;
     current_recipe_details := current_recipe_details s;
     recipe_fetch_error := recipe_fetch_error s;
     recipe_loading := recipe_loading s; filter_params := filter_params s;
     sort_order := sort_order s; search_query := search_query s;
     current_user_profile := current_user_profile s;
     saved_recipes := saved_recipes s;
     saved_recipes_loading := saved_recipes_loading s;
     profile_fetch_error := profile_fetch_error s;
     public_user_profile := public_user_profile s;
     modal_open := modal_open s; notification := notification s |}.

Definition set_loading_auth (v : bool) (s : AppState) : AppState :=
  {| is_authenticated := is_authenticated s; access_token := access_token s;
     user_profile_summary := user_profile_summary s;
     auth_error := auth_error s; loading_auth := v;
     paginated_recipes := paginated_recipes s;
     current_recipe_details := current_recipe_details s;
     recipe_fetch_error := recipe_fetch_error s;
     recipe_loading := recipe_loading s; filter_params := filter_params s;
     sort_order := sort_order s; search_query := search_query s;
     current_user_profile := current_user_profile s;
     saved_recipes := saved_recipes s;
     saved_recipes_loading := saved_recipes_loading s;
     profile_fetch_error := profile_fetch_error s;
     public_user_profile := public_user_profile s;
     modal_open := modal_open s; notification := notification s |}.

Definition set_paginated_recipes (v : PaginatedRecipesResponse.t) (s : AppState) : AppState :=
  {| is_authenticated := is_authenticated s; access_token := access_token s;
     user_profile_summary := user_profile_summary s;
     auth_error := auth_error s; loading_auth := loading_auth s;
     paginated_recipes := v;
     current_recipe_details := current_recipe_details s;
     recipe_fetch_error := recipe_fetch_error s;
     recipe_loading := recipe_loading s; filter_params := filter_params s;
     sort_order := sort_order s; search_query := search_query s;
     current_user_profile := current_user_profile s;
     saved_recipes := saved_recipes s;
     saved_recipes_loading := saved_recipes_loading s;
     profile_fetch_error := profile_fetch_error s;
     public_user_profile := public_user_profile s;
     modal_open := modal_open s; notification := notification s |}.

Definition set_current_recipe_details (v : option RecipeDetail.t) (s : AppState) : AppState :=
  {| is_authenticated := is_authenticated s; access_token := access_token s;
     user_profile_summary := user_profile_summary s;
     auth_error := auth_error s; loading_auth := loading_auth s;
     paginated_recipes := paginated_recipes s; current_recipe_details := v;
     recipe_fetch_error := recipe_fetch_error s;
     recipe_loading := recipe_loading s; filter_params := filter_params s;
     sort_order := sort_order s; search_query := search_query s;
     current_user_profile := current_user_profile s;
     saved_recipes := saved_recipes s;
     saved_recipes_loading := saved_recipes_loading s;
     profile_fetch_error := profile_fetch_error s;
     public_user_profile := public_user_profile s;
     modal_open := modal_open s; notification := notification s |}.

Definition set_recipe_fetch_error (v : option string) (s : AppState) : AppState :=
  {| is_authenticated := is_authenticated s; access_token := access_token s;
     user_profile_summary := user_profile_summary s;
     auth_error := auth_error s; loading_auth := loading_auth s;
     paginated_recipes := paginated_recipes s;
     current_recipe_details := current_recipe_details s;
     recipe_fetch_error := v; recipe_loading := recipe_loading s;
     filter_params := filter_params s; sort_order := sort_order s;
     search_query := search_query s;
     current_user_profile := current_user_profile s;
     saved_recipes := saved_recipes s;
     saved_recipes_loading := saved_recipes_loading s;
     profile_fetch_error := profile_fetch_error s;
     public_user_profile := public_user_profile s;
     modal_open := modal_open s; notification := notification s |}.

Definition set_recipe_loading (v : bool) (s : AppState) : AppState :=
  {| is_authenticated := is_authenticated s; access_token := access_token s;
     user_profile_summary := user_profile_summary s;
     auth_error := auth_error s; loading_auth := loading_auth s;
     paginated_recipes := paginated_recipes s;
     current_recipe_details := current_recipe_details s;
     recipe_fetch_error := recipe_fetch_error s; recipe_loading := v;
     filter_params := filter_params s; sort_order := sort_order s;
     search_query := search_query s;
     current_user_profile := current_user_profile s;
     saved_recipes := saved_recipes s;
     saved_recipes_loading := saved_recipes_loading s;
     profile_fetch_error := profile_fetch_error s;
     public_user_profile := public_user_profile s;
     modal_open := modal_open s; notification := notification s |}.

Definition set_filter_params (v : FilterParams.t) (s : AppState) : AppState :=
  {| is_authenticated := is_authenticated s; access_token := access_token s;
     user_profile_summary := user_profile_summary s;
     auth_error := auth_error s; loading_auth := loading_auth s;
     paginated_recipes := paginated_recipes s;
     current_recipe_details := current_recipe_details s;
     recipe_fetch_error := recipe_fetch_error s;
     recipe_loading := recipe_loading s; filter_params := v;
     sort_order := sort_order s; search_query := search_query s;
     current_user_profile := current_user_profile s;
     saved_recipes := saved_recipes s;
     saved_recipes_loading := saved_recipes_loading s;
     profile_fetch_error := profile_fetch_error s;
     public_user_profile := public_user_profile s;
     modal_open := modal_open s; notification := notification s |}.

Definition set_sort_order (v : string) (s : AppState) : AppState :=
  {| is_authenticated := is_authenticated s; access_token := access_token s;
     user_profile_summary := user_profile_summary s;
     auth_error := auth_error s; loading_auth := loading_auth s;
     paginated_recipes := paginated_recipes s;
     current_recipe_details := current_recipe_details s;
     recipe_fetch_error := recipe_fetch_error s;
     recipe_loading := recipe_loading s; filter_params := filter_params s;
     sort_order := v; search_query := search_query s;
     current_user_profile := current_user_profile s;
     saved_recipes := saved_recipes s;
     saved_recipes_loading := saved_recipes_loading s;
     profile_fetch_error := profile_fetch_error s;
     public_user_profile := public_user_profile s;
     modal_open := modal_open s; notification := notification s |}.

Definition set_search_query (v : string) (s : AppState) : AppState :=
  {| is_authenticated := is_authenticated s; access_token := access_token s;
     user_profile_summary := user_profile_summary s;
     auth_error := auth_error s; loading_auth := loading_auth s;
     paginated_recipes := paginated_recipes s;
     current_recipe_details := current_recipe_details s;
     recipe_fetch_error := recipe_fetch_error s;
     recipe_loading := recipe_loading s; filter_params := filter_params s;
     sort_order := sort_order s; search_query := v;
     current_user_profile := current_user_profile s;
     saved_recipes := saved_recipes s;
     saved_recipes_loading := saved_recipes_loading s;
     profile_fetch_error := profile_fetch_error s;
     public_user_profile := public_user_profile s;
     modal_open := modal_open s; notification := notification s |}.

Definition set_current_user_profile (v : option UserProfile.t) (s : AppState) : AppState :=
  {| is_authenticated := is_authenticated s; access_token := access_token s;
     user_profile_summary := user_profile_summary s;
     auth_error := auth_error s; loading_auth := loading_auth s;
     paginated_recipes := paginated_recipes s;
     current_recipe_details := current_recipe_details s;
     recipe_fetch_error := recipe_fetch_error s;
     recipe_loading := recipe_loading s; filter_params := filter_params s;
     sort_order := sort_order s; search_query := search_query s;
     current_user_profile := v; saved_recipes := saved_recipes s;
     saved_recipes_loading := saved_recipes_loading s;
     profile_fetch_error := profile_fetch_error s;
     public_user_profile := public_user_profile s;
     modal_open := modal_open s; notification := notification s |}.

Definition set_saved_recipes (v : list RecipeSummary.t) (s : AppState) : AppState :=
  {| is_authenticated := is_authenticated s; access_token := access_token s;
     user_profile_summary := user_profile_summary s;
     auth_error := auth_error s; loading_auth := loading_auth s;
     paginated_recipes := paginated_recipes s;
     current_recipe_details := current_recipe_details s;
     recipe_fetch_error := recipe_fetch_error s;
     recipe_loading := recipe_loading s; filter_params := filter_params s;
     sort_order := sort_order s; search_query := search_query s;
     current_user_profile := current_user_profile s; saved_recipes := v;
     saved_recipes_loading := saved_recipes_loading s;
     profile_fetch_error := profile_fetch_error s;
     public_user_profile := public_user_profile s;
     modal_open := modal_open s; notification := notification s |}.

Definition set_saved_recipes_loading (v : bool) (s : AppState) : AppState :=
  {| is_authenticated := is_authenticated s; access_token := access_token s;
     user_profile_summary := user_profile_summary s;
     auth_error := auth_error s; loading_auth := loading_auth s;
     paginated_recipes := paginated_recipes s;
     current_recipe_details := current_recipe_details s;
     recipe_fetch_error := recipe_fetch_error s;
     recipe_loading := recipe_loading s; filter_params := filter_params s;
     sort_order := sort_order s; search_query := search_query s;
     current_user_profile := current_user_profile s;
     saved_recipes := saved_recipes s; saved_recipes_loading := v;
     profile_fetch_error := profile_fetch_error s;
     public_user_profile := public_user_profile s;
     modal_open := modal_open s; notification := notification s |}.

Definition set_profile_fetch_error (v : option string) (s : AppState) : AppState :=
  {| is_authenticated := is_authenticated s; access_token := access_token s;
     user_profile_summary := user_profile_summary s;
     auth_error := auth_error s; loading_auth := loading_auth s;
     paginated_recipes := paginated_recipes s;
     current_recipe_details := current_recipe_details s;
     recipe_fetch_error := recipe_fetch_error s;
     recipe_loading := recipe_loading s; filter_params := filter_params s;
     sort_order := sort_order s; search_query := search_query s;
     current_user_profile := current_user_profile s;
     saved_recipes := saved_recipes s;
     saved_recipes_loading := saved_recipes_loading s;
     profile_fetch_error := v; public_user_profile := public_user_profile s;
     modal_open := modal_open s; notification := notification s |}.

Definition set_public_user_profile (v : option UserProfile.t) (s : AppState) : AppState :=
  {| is_authenticated := is_authenticated s; access_token := access_token s;
     user_profile_summary := user_profile_summary s;
     auth_error := auth_error s; loading_auth := loading_auth s;
     paginated_recipes := paginated_recipes s;
     current_recipe_details := current_recipe_details s;
     recipe_fetch_error := recipe_fetch_error s;
     recipe_loading := recipe_loading s; filter_params := filter_params s;
     sort_order := sort_order s; search_query := search_query s;
     current_user_profile := current_user_profile s;
     saved_recipes := saved_recipes s;
     saved_recipes_loading := saved_recipes_loading s;
     profile_fetch_error := profile_fetch_error s; public_user_profile := v;
     modal_open := modal_open s; notification := notification s |}.

Definition set_modal_open (v : option string) (s : AppState) : AppState :=
  {| is_authenticated := is_authenticated s; access_token := access_token s;
     user_profile_summary := user_profile_summary s;
     auth_error := auth_error s; loading_auth := loading_auth s;
     paginated_recipes := paginated_recipes s;
     current_recipe_details := current_recipe_details s;
     recipe_fetch_error := recipe_fetch_error s;
     recipe_loading := recipe_loading s; filter_params := filter_params s;
     sort_order := sort_order s; search_query := search_query s;
     current_user_profile := current_user_profile s;
     saved_recipes := saved_recipes s;
     saved_recipes_loading := saved_recipes_loading s;
     profile_fetch_error := profile_fetch_error s;
     public_user_profile := public_user_profile s; modal_open := v;
     notification := notification s |}.

Definition set_notification (v : option Notification.t) (s : AppState) : AppState :=
  {| is_authenticated := is_authenticated s; access_token := access_token s;
     user_profile_summary := user_profile_summary s;
     auth_error := auth_error s; loading_auth := loading_auth s;
     paginated_recipes := paginated_recipes s;
     current_recipe_details := current_recipe_details s;
     recipe_fetch_error := recipe_fetch_error s;
     recipe_loading := recipe_loading s; filter_params := filter_params s;
     sort_order := sort_order s; search_query := search_query s;
     current_user_profile := current_user_profile s;
     saved_recipes := saved_recipes s;
     saved_recipes_loading := saved_recipes_loading s;
     profile_fetch_error := profile_fetch_error s;
     public_user_profile := public_user_profile s;
     modal_open := modal_open s; notification := v |}.

(** *** Timers and the world around the store *)

(** A pending [setTimeout] callback of [showNotification]: the time at
    which it is due and the message its closure holds. *)
Record Timer : Type := mkTimer {
  due : Z;
  closed_message : string
}.

Record World : Type := mkWorld {
  store : AppState;
  now : Z;
  timers : list Timer
}.

(** [set(...)]: an update of the store that leaves clock and timers. *)
Definition upd (f : AppState -> AppState) (w : World) : World :=
  mkWorld (f (store w)) (now w) (timers w).

(** The callback passed to [setTimeout] by [showNotification message _]:
    [state.notification?.message === message ? { notification: null } : state]. *)
Definition notification_timeout (message : string) (s : AppState) : AppState :=
  match notification s with
  | Some n =>
      if String.eqb (Notification.message n) message
      then set_notification None s
      else s
  | None => s
  end.

Definition NOTIFICATION_DELAY : Z := 3000.

Definition showNotification (message : string) (type : NotificationType)
           (w : World) : World :=
  mkWorld (set_notification (Some (Notification.mk message type)) (store w))
          (now w)
          (timers w ++ [mkTimer (now w + NOTIFICATION_DELAY) message]).

(** The event loop runs the callbacks that are due at time [t], oldest
    first, and keeps the others queued. *)
Fixpoint run_timers (t : Z) (q : list Timer) (s : AppState)
  : AppState * list Timer :=
  match q with
  | [] => (s, [])
  | tm :: q' =>
      if due tm <=? t
      then run_timers t q' (notification_timeout (closed_message tm) s)
      else let (s', rest) := run_timers t q' s in (s', tm :: rest)
  end.

(** Time passes until [t] with no other event. *)
Definition advance_to (t : Z) (w : World) : World :=
  let (s, q) := run_timers t (timers w) (store w) in
  mkWorld s (Z.max (now w) t) q.

(** *** HTTP outcomes *)

Module ErrorResponse.
(** [error.response]: its [status] and [data?.error]. *)
Record t : Type := mk {
  status : Z;
  data_error : option string
}.
End ErrorResponse.

Module AxiosError.
(** The value caught by [catch (error: any)]; [response] is missing
    when no HTTP response was received. *)
Record t : Type := mk {
  response : option ErrorResponse.t;
  message : string
}.

(** [error.response?.data?.error]. *)
Definition response_data_error (e : t) : option string :=
  match response e with
  | Some r => ErrorResponse.data_error r
  | None => None
  end.

(** [error.response?.status === 401]. *)
Definition is_401 (e : t) : bool :=
  match response e with
  | Some r => ErrorResponse.status r =? 401
  | None => false
  end.
End AxiosError.

Inductive Outcome (A : Type) : Type :=
| Resolved (data : A)
| Rejected (e : AxiosError.t).
Arguments Resolved {A} data.
Arguments Rejected {A} e.

(** [error.response?.data?.error || error.message || fallback]. *)
Definition errorMessage (e : AxiosError.t) (fallback : string) : string :=
  Js.or_str (Js.or_else (AxiosError.response_data_error e)
                        (AxiosError.message e))
            fallback.

(** *** Auth actions *)

Definition logout (w : World) : World :=
  upd (fun s =>
         set_loading_auth false
           (set_auth_error None
              (set_saved_recipes []
                 (set_current_user_profile None
                    (set_user_profile_summary None
                       (set_access_token None
                          (set_is_authenticated false s))))))) w.

Definition summary_of (p : UserProfile.t) : UserSummary.t :=
  UserSummary.mk (UserProfile.user_id p) (UserProfile.username p)
                 (UserProfile.profile_picture_url p).

(** [loadUserProfile]; [resp] is the outcome of [GET /users/me]. *)
Definition loadUserProfile (resp : Outcome UserProfile.t) (w : World) : World :=
  if negb (Js.truthy_opt (access_token (store w))) then w
  else
    let w1 := upd (set_loading_auth true) w in
    match resp with
    | Resolved userProfile =>
        upd (fun s =>
               set_loading_auth false
                 (set_user_profile_summary (Some (summary_of userProfile))
                    (set_current_user_profile (Some userProfile) s))) w1
    | Rejected e =>
        let msg := errorMessage e "Failed to load profile" in
        let w2 := if AxiosError.is_401 e then logout w1 else w1 in
        upd (fun s =>
               set_loading_auth false
                 (set_profile_fetch_error (Some msg) s)) w2
    end.

(** *** Recipe actions *)

Module RatingResponse.
Record t : Type := mk {
  message : option string;
  average_rating : option Q
}.
End RatingResponse.

(** [submitRating]; [resp] is the outcome of
    [POST /recipes/:id/ratings]. *)
Definition submitRating (recipe_id rating : Z)
           (resp : Outcome RatingResponse.t) (w : World) : bool * World :=
  if negb (Js.truthy_opt (access_token (store w))) then (false, w)
  else
    match resp with
    | Resolved data =>
        let w1 := showNotification
                    (Js.or_else (RatingResponse.message data) "Rating submitted")
                    success w in
        let w2 :=
          upd (fun s =>
                 match current_recipe_details s with
                 | Some d =>
                     if RecipeDetail.recipe_id d =? recipe_id
                     then set_current_recipe_details
                            (Some (RecipeDetail.set_rating
                                     (RatingResponse.average_rating data)
                                     (if RecipeDetail.rating_count d =? 0
                                      then 1
                                      else RecipeDetail.rating_count d + 1)
                                     d)) s
                     else s
                 | None => s
                 end) w1 in
        (true, w2)
    | Rejected e =>
        (false, showNotification (errorMessage e "Failed to submit rating") error w)
    end.

(** [postComment]; [resp] is the outcome of
    [POST /recipes/:id/comments], resolved with [response.data.comment]. *)
Definition postComment (recipe_id : Z) (comment_text : string)
           (resp : Outcome RecipeComment.t) (w : World)
  : option RecipeComment.t * World :=
  if negb (Js.truthy_opt (access_token (store w))) then (None, w)
  else
    match resp with
    | Resolved newComment =>
        let w1 :=
          upd (fun s =>
                 match current_recipe_details s with
                 | Some d =>
                     if RecipeDetail.recipe_id d =? recipe_id
                     then set_current_recipe_details
                            (Some (RecipeDetail.set_comments
                                     (RecipeDetail.comments d ++ [newComment])
                                     d)) s
                     else s
                 | None => s
                 end) w in
        (Some newComment,
         showNotification "Comment posted successfully" success w1)
    | Rejected e =>
        (None, showNotification (errorMessage e "Failed to post comment") error w)
    end.

(** [deleteComment]; [resp] is the outcome of [DELETE /comments/:id],
    resolved with [response.data.message]. *)
Definition deleteComment (comment_id : Z)
           (resp : Outcome (option string)) (w : World) : bool * World :=
  if negb (Js.truthy_opt (access_token (store w))) then (false, w)
  else
    match resp with
    | Resolved message =>
        let w1 := showNotification (Js.or_else message "Comment deleted")
                                   success w in
        let w2 :=
          upd (fun s =>
                 match current_recipe_details s with
                 | Some d =>
                     set_current_recipe_details
                       (Some (RecipeDetail.set_comments
                                (filter (fun c => negb (RecipeComment.comment_id c
                                                        =? comment_id))
                                        (RecipeDetail.comments d))
                                d)) s
                 | None => s
                 end) w1 in
        (true, w2)
    | Rejected e =>
        (false, showNotification (errorMessage e "Failed to delete comment") error w)
    end.

(** The entry [saveRecipe] pushes when the recipe is not in the list:
    taken from the recipe on display, with defaults. *)
Definition placeholder (recipe_id : Z) (d : option RecipeDetail.t)
           (timestamp : string) : RecipeSummary.t :=
  match d with
  | Some d =>
      RecipeSummary.mk recipe_id
        (Js.or_str (RecipeDetail.title d) "Saved Recipe")
        (RecipeDetail.description d)
        (RecipeDetail.cover_photo_url d)
        (RecipeDetail.prep_time_minutes d)
        (RecipeDetail.cook_time_minutes d)
        (RecipeDetail.difficulty_level d)
        (RecipeDetail.average_rating d)
        (UserSummary.user_id (RecipeDetail.submitter d))
        (UserSummary.username (RecipeDetail.submitter d))
        (RecipeDetail.tags d)
        (Some timestamp)
  | None =>
      RecipeSummary.mk recipe_id "Saved Recipe" "" "" 0 0 Easy None 0
                       "Unknown" [] (Some timestamp)
  end.

(** [saveRecipe]; [resp] is the outcome of
    [POST /users/me/saved-recipes], resolved with [response.data.message];
    [timestamp] is [new Date().toISOString()]. *)
Definition saveRecipe (recipe_id : Z) (timestamp : string)
           (resp : Outcome (option string)) (w : World) : bool * World :=
  if negb (Js.truthy_opt (access_token (store w))) then (false, w)
  else
    match resp with
    | Resolved message =>
        let w1 := showNotification (Js.or_else message "Recipe saved")
                                   success w in
        let w2 :=
          upd (fun s =>
                 let updatedCurrentRecipe :=
                   option_map (RecipeDetail.set_is_recipe_saved true)
                              (current_recipe_details s) in
                 let updatedSavedRecipes :=
                   map (fun r => if RecipeSummary.recipe_id r =? recipe_id
                                 then RecipeSummary.set_saved_at (Some timestamp) r
                                 else r)
                       (saved_recipes s) in
                 let recipeExistsInList :=
                   existsb (fun r => RecipeSummary.recipe_id r =? recipe_id)
                           updatedSavedRecipes in
                 let updatedSavedRecipes :=
                   if recipeExistsInList then updatedSavedRecipes
                   else updatedSavedRecipes
                          ++ [placeholder recipe_id (current_recipe_details s)
                                          timestamp] in
                 set_saved_recipes updatedSavedRecipes
                   (set_current_recipe_details updatedCurrentRecipe s)) w1 in
        (true, w2)
    | Rejected e =>
        (false, showNotification (errorMessage e "Failed to save recipe") error w)
    end.

(** [unsaveRecipe]; [resp] is the outcome of
    [DELETE /users/me/saved-recipes/:id], resolved with
    [response.data.message]. *)
Definition unsaveRecipe (recipe_id : Z)
           (resp : Outcome (option string)) (w : World) : bool * World :=
  if negb (Js.truthy_opt (access_token (store w))) then (false, w)
  else
    match resp with
    | Resolved message =>
        let w1 := showNotification (Js.or_else message "Recipe unsaved")
                                   success w in
        let w2 :=
          upd (fun s =>
                 let updatedCurrentRecipe :=
                   option_map (RecipeDetail.set_is_recipe_saved false)
                              (current_recipe_details s) in
                 let updatedSavedRecipes :=
                   filter (fun r => negb (RecipeSummary.recipe_id r =? recipe_id))
                          (saved_recipes s) in
                 set_saved_recipes updatedSavedRecipes
                   (set_current_recipe_details updatedCurrentRecipe s)) w1 in
        (true, w2)
    | Rejected e =>
        (false, showNotification (errorMessage e "Failed to unsave recipe") error w)
    end.

(** [fetchSavedRecipes]; [resp] is the outcome of
    [GET /users/me/saved-recipes], resolved with [response.data.recipes]. *)
Definition fetchSavedRecipes (resp : Outcome (option (list RecipeSummary.t)))
           (w : World) : bool * World :=
  if negb (Js.truthy_opt (access_token (store w)))
  then (false, upd (fun s => set_saved_recipes_loading false
                               (set_saved_recipes [] s)) w)
  else
    let w1 := upd (fun s =>
                     set_profile_fetch_error None
                       (set_saved_recipes []
                          (set_saved_recipes_loading true s))) w in
    match resp with
    | Resolved recipes =>
        (true,
         upd (fun s =>
                set_saved_recipes_loading false
                  (set_saved_recipes
                     (match recipes with Some l => l | None => [] end) s)) w1)
    | Rejected e =>
        let msg := errorMessage e "Failed to load saved recipes" in
        let w2 := upd (fun s =>
                         set_saved_recipes_loading false
                           (set_profile_fetch_error (Some msg) s)) w1 in
        (false, if AxiosError.is_401 e then logout w2 else w2)
    end.

(** *** Filter, sort and page actions *)

Definition setFilters (params : FilterParams.partial) (w : World) : World :=
  upd (fun s => set_filter_params
                  (FilterParams.spread (filter_params s) params) s) w.

Definition setSortOrder (order : string) (w : World) : World :=
  upd (set_sort_order order) w.

Definition setSearchQuery (query : string) (w : World) : World :=
  upd (set_search_query query) w.

Definition setPage (pageNumber : Z) (w : World) : World :=
  upd (fun s =>
         set_paginated_recipes
           (PaginatedRecipesResponse.mk
              (PaginatedRecipesResponse.recipes (paginated_recipes s))
              (PaginationInfo.set_current_page pageNumber
                 (PaginatedRecipesResponse.pagination (paginated_recipes s))))
           s) w.

Definition clearFilters (w : World) : World :=
  upd (fun s =>
         set_paginated_recipes
           (PaginatedRecipesResponse.mk [] (PaginationInfo.mk 0 0 1 10))
           (set_search_query ""
              (set_sort_order "newest"
                 (set_filter_params FilterParams.default s)))) w.

(** The initial state of the store. *)
Definition initial : AppState :=
  {| is_authenticated := false; access_token := None;
     user_profile_summary := None; auth_error := None;
     loading_auth := false;
     paginated_recipes :=
       PaginatedRecipesResponse.mk [] (PaginationInfo.mk 0 0 1 10);
     current_recipe_details := None; recipe_fetch_error := None;
     recipe_loading := false; filter_params := FilterParams.default;
     sort_order := "newest"; search_query := "";
     current_user_profile := None; saved_recipes := [];
     saved_recipes_loading := false; profile_fetch_error := None;
     public_user_profile := None; modal_open := None;
     notification := None |}.

End Store.

(** ** The recipe submission view ([UV_SubmitRecipe]) *)

Module UV_SubmitRecipe.

(** A numeric form field: a number, the empty string of an emptied input,
    or the [null] of the initial state. *)
Inductive FormNumber : Type :=
| Null
| Empty
| Num (q : Q).

(** [x === '' || x <= 0]; [null <= 0] holds since [null] converts to 0. *)
Definition empty_or_not_positive (x : FormNumber) : bool :=
  match x with
  | Null => true
  | Empty => true
  | Num q => Qle_bool q 0
  end.

(** [x !== '' && x < 0]. *)
Definition present_and_negative (x : FormNumber) : bool :=
  match x with
  | Null => false
  | Empty => false
  | Num q => negb (Qle_bool 0 q)
  end.

Module FormIngredient.
Record t : Type := mk {
  ingredient_id : option Z;
  quantity : FormNumber;
  unit : option string;
  name : string
}.
End FormIngredient.

Module FormInstruction.
Record t : Type := mk {
  instruction_id : option Z;
  step_number : Z;
  description : string
}.
End FormInstruction.

Module File.
Record t : Type := mk {
  type : string;
  size : Z
}.
End File.

Module RecipeFormData.
Record t : Type := mk {
  title : string;
  description : string;
  cover_photo_file : option File.t;
  cover_photo_url : option string;
  prep_time_minutes : FormNumber;
  cook_time_minutes : FormNumber;
  servings : FormNumber;
  difficulty_level : Difficulty;
  nutri_net_carbs_grams_per_serving : FormNumber;
  nutri_protein_grams_per_serving : FormNumber;
  nutri_fat_grams_per_serving : FormNumber;
  notes_tips : option string;
  ingredients : list FormIngredient.t;
  instructions : list FormInstruction.t;
  tags : list string
}.

(** The argument of [useState]: the form of the first render. *)
Definition initial : t :=
  mk "" "" None None Null Null Null Easy Null Null Null None
     [FormIngredient.mk None Empty None ""]
     [FormInstruction.mk None 1 ""]
     [].
End RecipeFormData.

Module FormErrors.
(** Every key is optional; [validate_recipe_form] assigns a message to the
    keys it finds at fault. *)
Record t : Type := mk {
  _form : option string;
  title : option string;
  description : option string;
  cover_photo : option string;
  prep_time_minutes : option string;
  cook_time_minutes : option string;
  servings : option string;
  difficulty_level : option string;
  ingredients : option string;
  instructions : option string;
  nutri_net_carbs_grams_per_serving : option string;
  nutri_protein_grams_per_serving : option string;
  nutri_fat_grams_per_serving : option string;
  tags : option string
}.

(** [{}]. *)
Definition empty : t :=
  mk None None None None None None None None None None None None None None.

Definition set_title (v : string) (e : t) : t :=
  mk (_form e) (Some v) (description e) (cover_photo e) (prep_time_minutes e)
     (cook_time_minutes e) (servings e) (difficulty_level e) (ingredients e)
     (instructions e) (nutri_net_carbs_grams_per_serving e)
     (nutri_protein_grams_per_serving e) (nutri_fat_grams_per_serving e)
     (tags e).

Definition set_description (v : string) (e : t) : t :=
  mk (_form e) (title e) (Some v) (cover_photo e) (prep_time_minutes e)
     (cook_time_minutes e) (servings e) (difficulty_level e) (ingredients e)
     (instructions e) (nutri_net_carbs_grams_per_serving e)
     (nutri_protein_grams_per_serving e) (nutri_fat_grams_per_serving e)
     (tags e).

Definition set_cover_photo (v : string) (e : t) : t :=
  mk (_form e) (title e) (description e) (Some v) (prep_time_minutes e)
     (cook_time_minutes e) (servings e) (difficulty_level e) (ingredients e)
     (instructions e) (nutri_net_carbs_grams_per_serving e)
     (nutri_protein_grams_per_serving e) (nutri_fat_grams_per_serving e)
     (tags e).

Definition set_prep_time_minutes (v : string) (e : t) : t :=
  mk (_form e) (title e) (description e) (cover_photo e) (Some v)
     (cook_time_minutes e) (servings e) (difficulty_level e) (ingredients e)
     (instructions e) (nutri_net_carbs_grams_per_serving e)
     (nutri_protein_grams_per_serving e) (nutri_fat_grams_per_serving e)
     (tags e).

Definition set_cook_time_minutes (v : string) (e : t) : t :=
  mk (_form e) (title e) (description e) (cover_photo e)
     (prep_time_minutes e) (Some v) (servings e) (difficulty_level e)
     (ingredients e) (instructions e) (nutri_net_carbs_grams_per_serving e)
     (nutri_protein_grams_per_serving e) (nutri_fat_grams_per_serving e)
     (tags e).

Definition set_servings (v : string) (e : t) : t :=
  mk (_form e) (title e) (description e) (cover_photo e)
     (prep_time_minutes e) (cook_time_minutes e) (Some v)
     (difficulty_level e) (ingredients e) (instructions e)
     (nutri_net_carbs_grams_per_serving e)
     (nutri_protein_grams_per_serving e) (nutri_fat_grams_per_serving e)
     (tags e).

Definition set_ingredients (v : string) (e : t) : t :=
  mk (_form e) (title e) (description e) (cover_photo e)
     (prep_time_minutes e) (cook_time_minutes e) (servings e)
     (difficulty_level e) (Some v) (instructions e)
     (nutri_net_carbs_grams_per_serving e)
     (nutri_protein_grams_per_serving e) (nutri_fat_grams_per_serving e)
     (tags e).

Definition set_instructions (v : string) (e : t) : t :=
  mk (_form e) (title e) (description e) (cover_photo e)
     (prep_time_minutes e) (cook_time_minutes e) (servings e)
     (difficulty_level e) (ingredients e) (Some v)
     (nutri_net_carbs_grams_per_serving e)
     (nutri_protein_grams_per_serving e) (nutri_fat_grams_per_serving e)
     (tags e).

Definition set_nutri_net_carbs_grams_per_serving (v : string) (e : t) : t :=
  mk (_form e) (title e) (description e) (cover_photo e)
     (prep_time_minutes e) (cook_time_minutes e) (servings e)
     (difficulty_level e) (ingredients e) (instructions e) (Some v)
     (nutri_protein_grams_per_serving e) (nutri_fat_grams_per_serving e)
     (tags e).

Definition set_nutri_protein_grams_per_serving (v : string) (e : t) : t :=
  mk (_form e) (title e) (description e) (cover_photo e)
     (prep_time_minutes e) (cook_time_minutes e) (servings e)
     (difficulty_level e) (ingredients e) (instructions e)
     (nutri_net_carbs_grams_per_serving e) (Some v)
     (nutri_fat_grams_per_serving e) (tags e).

Definition set_nutri_fat_grams_per_serving (v : string) (e : t) : t :=
  mk (_form e) (title e) (description e) (cover_photo e)
     (prep_time_minutes e) (cook_time_minutes e) (servings e)
     (difficulty_level e) (ingredients e) (instructions e)
     (nutri_net_carbs_grams_per_serving e)
     (nutri_protein_grams_per_serving e) (Some v) (tags e).

(** [{ _form: v }]. *)
Definition only_form (v : string) : t :=
  mk (Some v) None None None None None None None None None None None None None.
End FormErrors.
(** One [if (cond) { errors.key = ...; isValid = false; }] of the
    validation, on the pair of [errors] and [isValid]. *)
Definition check (cond : bool) (assign : FormErrors.t -> FormErrors.t)
           (st : FormErrors.t * bool) : FormErrors.t * bool :=
  if cond then (assign (fst st), false) else st.

Definition bad_ingredient (ing : FormIngredient.t) : bool :=
  negb (Js.truthy (Js.trim (FormIngredient.name ing)))
  || empty_or_not_positive (FormIngredient.quantity ing).

Definition bad_instruction (inst : FormInstruction.t) : bool :=
  negb (Js.truthy (Js.trim (FormInstruction.description inst))).

Definition is_nil {A : Type} (l : list A) : bool :=
  match l with [] => true | _ :: _ => false end.

(** [validate_recipe_form], as a function of the [recipe_form_data] its
    closure holds: the errors passed to [set_form_errors] and [isValid]. *)
Definition validate_recipe_form (recipe_form_data : RecipeFormData.t)
  : FormErrors.t * bool :=
  let d := recipe_form_data in
  let st := (FormErrors.empty, true) in
  let st := check (negb (Js.truthy (Js.trim (RecipeFormData.title d))))
                  (FormErrors.set_title "Recipe title is required.") st in
  let st := check (negb (Js.truthy (Js.trim (RecipeFormData.description d))))
                  (FormErrors.set_description "Recipe description is required.")
                  st in
  let st := check (negb (match RecipeFormData.cover_photo_file d with
                         | Some _ => true
                         | None => false
                         end)
                   && negb (Js.truthy_opt (RecipeFormData.cover_photo_url d)))
                  (FormErrors.set_cover_photo "Recipe cover photo is required.")
                  st in
  let st := check (empty_or_not_positive (RecipeFormData.prep_time_minutes d))
                  (FormErrors.set_prep_time_minutes
                     "Preparation time is required and must be positive.") st in
  let st := check (empty_or_not_positive (RecipeFormData.cook_time_minutes d))
                  (FormErrors.set_cook_time_minutes
                     "Cooking time is required and must be positive.") st in
  let st := check (empty_or_not_positive (RecipeFormData.servings d))
                  (FormErrors.set_servings
                     "Servings is required and must be positive.") st in
  let st := check (is_nil (RecipeFormData.ingredients d)
                   || existsb bad_ingredient (RecipeFormData.ingredients d))
                  (FormErrors.set_ingredients
                     "At least one ingredient with quantity and name is required.")
                  st in
  let st := check (is_nil (RecipeFormData.instructions d)
                   || existsb bad_instruction (RecipeFormData.instructions d))
                  (FormErrors.set_instructions
                     "At least one instruction step is required.") st in
  let st := check (present_and_negative
                     (RecipeFormData.nutri_net_carbs_grams_per_serving d))
                  (FormErrors.set_nutri_net_carbs_grams_per_serving
                     "Net carbs cannot be negative.") st in
  let st := check (present_and_negative
                     (RecipeFormData.nutri_protein_grams_per_serving d))
                  (FormErrors.set_nutri_protein_grams_per_serving
                     "Protein cannot be negative.") st in
  let st := check (present_and_negative
                     (RecipeFormData.nutri_fat_grams_per_serving d))
                  (FormErrors.set_nutri_fat_grams_per_serving
                     "Fat cannot be negative.") st in
  st.

(** The component's state, as far as submission goes. *)
Record View : Type := mkView {
  recipe_form_data : RecipeFormData.t;
  form_errors : FormErrors.t;
  is_submitting : bool;
  is_editing : bool;
  current_recipe_id : option Z
}.

(** [handle_recipe_submit]: the new view and the argument of
    [mutation.mutate] when the mutation is started.  [closure] is the form
    data that [validate_recipe_form] reads. *)
Definition handle_recipe_submit (closure : RecipeFormData.t) (v : View)
  : View * option RecipeFormData.t :=
  let (errors, isValid) := validate_recipe_form closure in
  let v' := mkView (recipe_form_data v) errors (is_submitting v)
                   (is_editing v) (current_recipe_id v) in
  if isValid then (v', Some (recipe_form_data v)) else (v', None).

(** [validate_recipe_form] is memoised with an empty dependency list, so
    the closure the component calls is the one of the first render. *)
Definition validation_closure : RecipeFormData.t := RecipeFormData.initial.

(** *** The submission mutation

    Of the mutation function, the request it sends; the flags it sets while
    the request is in flight are left out. *)

(** [list.map((x, index) => f x index)], the index counted from [i]. *)
Fixpoint map_index {A B : Type} (f : A -> Z -> B) (i : Z) (l : list A) : list B :=
  match l with
  | [] => []
  | x :: rest => f x i :: map_index f (i + 1) rest
  end.

Module PayloadIngredient.
(** [{ ...ing, step_number: index + 1 }]. *)
Record t : Type := mk {
  ingredient : FormIngredient.t;
  step_number : Z
}.
End PayloadIngredient.

(** [{ ...inst, step_number: index + 1 }]. *)
Definition renumber (inst : FormInstruction.t) (index : Z) : FormInstruction.t :=
  FormInstruction.mk (FormInstruction.instruction_id inst) (index + 1)
                     (FormInstruction.description inst).

(** A value appended to the request's [FormData].  [Number q] stands for
    the text [String(q)], the [Json] values for the output of
    [JSON.stringify] on the list they hold. *)
Inductive FormValue : Type :=
| Text (s : string)
| Number (q : Q)
| JsonIngredients (l : list PayloadIngredient.t)
| JsonInstructions (l : list FormInstruction.t)
| JsonTags (l : list string)
| Blob (f : File.t).

Definition difficulty_text (d : Difficulty) : string :=
  match d with
  | Easy => "Easy"
  | Medium => "Medium"
  | Hard => "Hard"
  end.

(** [String(x === '' ? 0 : x)]. *)
Definition required_number (x : FormNumber) : FormValue :=
  match x with
  | Empty => Number 0
  | Null => Text "null"
  | Num q => Number q
  end.

(** [x === '' ? '' : String(x)]. *)
Definition optional_number (x : FormNumber) : FormValue :=
  match x with
  | Empty => Text ""
  | Null => Text "null"
  | Num q => Number q
  end.

(** The [FormData] built by the mutation function. *)
Definition dataForApi (recipePayload : RecipeFormData.t)
  : list (string * FormValue) :=
  let p := recipePayload in
  [ ("title", Text (RecipeFormData.title p));
    ("description", Text (RecipeFormData.description p));
    ("prep_time_minutes", required_number (RecipeFormData.prep_time_minutes p));
    ("cook_time_minutes", required_number (RecipeFormData.cook_time_minutes p));
    ("servings", required_number (RecipeFormData.servings p));
    ("difficulty_level", Text (difficulty_text (RecipeFormData.difficulty_level p)));
    ("nutri_net_carbs_grams_per_serving",
     optional_number (RecipeFormData.nutri_net_carbs_grams_per_serving p));
    ("nutri_protein_grams_per_serving",
     optional_number (RecipeFormData.nutri_protein_grams_per_serving p));
    ("nutri_fat_grams_per_serving",
     optional_number (RecipeFormData.nutri_fat_grams_per_serving p));
    ("notes_tips", Text (Js.or_else (RecipeFormData.notes_tips p) ""));
    ("ingredients",
     JsonIngredients (map_index (fun ing index => PayloadIngredient.mk ing (index + 1))
                                0 (RecipeFormData.ingredients p)));
    ("instructions",
     JsonInstructions (map_index renumber 0 (RecipeFormData.instructions p)));
    ("tags", JsonTags (RecipeFormData.tags p)) ]
  ++ match RecipeFormData.cover_photo_file p with
     | Some f => [("cover_photo", Blob f)]
     | None => []
     end.

Inductive Method : Type := POST | PUT.

Record Request : Type := mkRequest {
  method : Method;
  url : string;
  body : list (string * FormValue)
}.

(** The request sent by the mutation function: an update of the recipe
    being edited, or a new submission. *)
Definition mutationFn (v : View) (formData : RecipeFormData.t) : Request :=
  match is_editing v, current_recipe_id v with
  | true, Some id =>
      if id =? 0 then mkRequest POST "/recipes" (dataForApi formData)
      else mkRequest PUT ("/recipes/" ++ Js.String_of id) (dataForApi formData)
  | _, _ => mkRequest POST "/recipes" (dataForApi formData)
  end.

(** The instructions held by one entry of a [FormData]. *)
Definition instructions_of_entry (kv : string * FormValue)
  : list FormInstruction.t :=
  match kv with
  | (k, JsonInstructions l) => if String.eqb k "instructions" then l else []
  | _ => []
  end.

(** The instructions a request carries. *)
Definition payload_instructions (r : Request) : list FormInstruction.t :=
  flat_map instructions_of_entry (body r).

(** The rows a request asks the server to store for its instructions:
    step number and description. *)
Definition instruction_rows (l : list FormInstruction.t) : list (Z * string) :=
  map (fun inst => (FormInstruction.step_number inst,
                    FormInstruction.description inst)) l.

End UV_SubmitRecipe.

(** ** The saved-recipes view ([UV_UserSavedRecipes]) *)

Module UV_UserSavedRecipes.

(** A store action as a selector reads it: [undefined] when the store has
    no property of that name. *)
Definition Action (A : Type) : Type := option (A -> Store.World -> Store.World).

(** What a render of the component reads from the store. *)
Record Render : Type := mkRender {
  saved_recipes : list RecipeSummary.t;
  setSavedRecipes : Action (list RecipeSummary.t);
  setSavedRecipesLoading : Action bool;
  setPaginationInfo : Action PaginationInfo.t;
  accessToken : option string
}.

(** The store defines no [setSavedRecipes], [setSavedRecipesLoading] or
    [setPaginationInfo]: the selector reads [undefined] for the three. *)
Definition render (w : Store.World) : Render :=
  mkRender (Store.saved_recipes (Store.store w)) None None None
           (Store.access_token (Store.store w)).

(** The error thrown by the call [name(...)] when [name] is [undefined],
    with the message V8 and SpiderMonkey give it. *)
Definition TypeError (name : string) : Store.AxiosError.t :=
  Store.AxiosError.mk None (name ++ " is not a function")%string.

(** A statement: how it completes, and the store it leaves. *)
Definition Statement : Type := Store.World -> Store.Outcome unit * Store.World.

(** [f(x)], where [f] was selected from the store under [name]. *)
Definition call {A : Type} (name : string) (f : Action A) (x : A) : Statement :=
  fun w =>
    match f with
    | Some action => (Store.Resolved tt, action x w)
    | None => (Store.Rejected (TypeError name), w)
    end.

(** A statement that calls an action the store does define. *)
Definition run (action : Store.World -> Store.World) : Statement :=
  fun w => (Store.Resolved tt, action w).

(** [first; next]: what follows a throw is not run. *)
Definition andThen (first next : Statement) : Statement :=
  fun w =>
    match first w with
    | (Store.Resolved _, w') => next w'
    | (Store.Rejected e, w') => (Store.Rejected e, w')
    end.

(** The context returned by [onMutate]. *)
Record Context : Type := mkContext {
  previousSavedRecipes : list RecipeSummary.t
}.

(** [onMutate], after the pending queries are cancelled: the context it
    returns, or the error it throws. *)
Definition onMutate (r : Render) (recipeId : Z) (w : Store.World)
  : Store.Outcome Context * Store.World :=
  let previousSavedRecipes := saved_recipes r in
  match andThen
          (call "setSavedRecipes" (setSavedRecipes r)
                (filter (fun recipe => negb (RecipeSummary.recipe_id recipe =? recipeId))
                        previousSavedRecipes))
          (call "setSavedRecipesLoading" (setSavedRecipesLoading r) true) w with
  | (Store.Resolved _, w') => (Store.Resolved (mkContext previousSavedRecipes), w')
  | (Store.Rejected e, w') => (Store.Rejected e, w')
  end.

Definition onSuccess (r : Render) : Statement :=
  andThen (run (Store.showNotification "Recipe unsaved successfully!" success))
          (call "setSavedRecipesLoading" (setSavedRecipesLoading r) false).

(** [context] is [None] when [onMutate] threw. *)
Definition onError (r : Render) (e : Store.AxiosError.t) (recipeId : Z)
           (context : option Context) : Statement :=
  andThen
    (match context with
     | Some c => call "setSavedRecipes" (setSavedRecipes r) (previousSavedRecipes c)
     | None => run (fun w => w)
     end)
    (andThen
       (run (Store.showNotification
               (Js.or_str (Store.AxiosError.message e) "Failed to unsave recipe.")
               error))
       (call "setSavedRecipesLoading" (setSavedRecipesLoading r) false)).

(** The module-level [unsaveRecipe]: it throws without a token, otherwise
    its fate is that of the DELETE request. *)
Definition unsaveRecipe (accessToken : option string)
           (resp : Store.Outcome unit) : Store.Outcome unit :=
  if negb (Js.truthy_opt accessToken)
  then Store.Rejected (Store.AxiosError.mk None "User not authenticated")
  else resp.

(** [unsaveRecipeMutation.mutate({ recipeId })] from the render [r]:
    whether the DELETE request was sent, and the store the run leaves.
    When [onMutate] throws, the mutation function is not called and
    [onError] is, without a context; an error thrown by a callback ends
    the run. *)
Definition unsaveRecipeMutation (r : Render) (recipeId : Z)
           (resp : Store.Outcome unit) (w : Store.World) : bool * Store.World :=
  match onMutate r recipeId w with
  | (Store.Rejected e, w') => (false, snd (onError r e recipeId None w'))
  | (Store.Resolved context, w') =>
      (Js.truthy_opt (accessToken r),
       match unsaveRecipe (accessToken r) resp with
       | Store.Resolved _ => snd (onSuccess r w')
       | Store.Rejected e => snd (onError r e recipeId (Some context) w')
       end)
  end.

Definition handleUnsave (recipeId : Z) (resp : Store.Outcome unit)
           (w : Store.World) : bool * Store.World :=
  unsaveRecipeMutation (render w) recipeId resp w.


End UV_UserSavedRecipes.

(** ** The recipe view ([UV_RecipeView]) *)

Module UV_RecipeView.

Record RecipeViewLocalState : Type := mkLocal {
  recipe_details : option RecipeDetail.t;
  user_rating : option Z;
  comment_input : string;
  is_authenticated : bool;
  is_recipe_owner : bool;
  is_recipe_saved : bool;
  is_posting_comment : bool;
  is_updating_rating : bool;
  comment_error : option string;
  fetch_error : option string
}.

Definition set_is_updating_rating (b : bool) (l : RecipeViewLocalState)
  : RecipeViewLocalState :=
  mkLocal (recipe_details l) (user_rating l) (comment_input l)
          (is_authenticated l) (is_recipe_owner l) (is_recipe_saved l)
          (is_posting_comment l) b (comment_error l) (fetch_error l).

Definition set_user_rating (r : option Z) (l : RecipeViewLocalState)
  : RecipeViewLocalState :=
  mkLocal (recipe_details l) r (comment_input l)
          (is_authenticated l) (is_recipe_owner l) (is_recipe_saved l)
          (is_posting_comment l) (is_updating_rating l) (comment_error l)
          (fetch_error l).

(** The type of the store's [submitRating] once the outcome of its request
    is fixed. *)
Definition SubmitRating : Type := Z -> Z -> Store.World -> bool * Store.World.

(** The mutation function of [rateMutation].  [is_authenticated] is the
    store's flag as the render read it, [recipeIdNum] is [None] for [NaN],
    and [submitRating] is the store action the component destructured. *)
Definition rateMutation (submitRating : SubmitRating)
           (is_authenticated : bool) (recipeIdNum : option Z) (rating : Z)
           (st : RecipeViewLocalState * Store.World)
  : bool * (RecipeViewLocalState * Store.World) :=
  let (l, w) := st in
  match is_authenticated, recipeIdNum with
  | true, Some id =>
      if (rating <? 1) || (rating >? 5)
      then (false, (l, Store.showNotification "Rating must be between 1 and 5."
                                              error w))
      else
        let l := set_is_updating_rating true l in
        let (ok, w) := submitRating id rating w in
        if ok
        then (true, (set_is_updating_rating false (set_user_rating (Some rating) l), w))
        else (false, (set_is_updating_rating false l,
                      Store.showNotification "Failed to submit rating." error w))
  | _, _ =>
      (false, (l, Store.showNotification "Please log in to rate recipes." info w))
  end.

End UV_RecipeView.

(** ** The relational schema

    A table is the list of its rows and the sequence of its SERIAL key.  A
    statement that would break a constraint of the table fails and stores
    nothing.  Foreign keys are not checked: they only refuse more rows. *)

Module Schema.

(** *** [ratings] *)

Module ratings.
Record row : Type := mkRow {
  rating_id : Z;
  recipe_id : Z;
  user_id : Z;
  rating : Z
}.

(** The table and the sequence behind [rating_id SERIAL]. *)
Record t : Type := mk {
  rows : list row;
  next_id : Z
}.

Definition empty : t := mk [] 1.

(** [CHECK (rating >= 1 AND rating <= 5)]. *)
Definition check (rating : Z) : bool := (rating >=? 1) && (rating <=? 5).

(** [UNIQUE (recipe_id, user_id)]: no row holds the pair yet. *)
Definition unique (recipe_id user_id : Z) (rs : list row) : bool :=
  negb (existsb (fun r => (ratings.recipe_id r =? recipe_id)
                          && (ratings.user_id r =? user_id)) rs).

(** [INSERT INTO ratings (recipe_id, user_id, rating) VALUES (...)]: the
    row is refused, and the sequence still advances, when a constraint
    fails. *)
Definition insert (recipe_id user_id rating : Z) (tb : t) : bool * t :=
  if check rating && unique recipe_id user_id (rows tb)
  then (true, mk (rows tb ++ [mkRow (next_id tb) recipe_id user_id rating])
                 (next_id tb + 1))
  else (false, mk (rows tb) (next_id tb + 1)).

(** [UPDATE ratings SET rating = ... WHERE recipe_id = ... AND user_id = ...]:
    the statement fails as a whole when a new row breaks the check. *)
Definition update (recipe_id user_id rating : Z) (tb : t) : bool * t :=
  if check rating
  then (true,
        mk (map (fun r => if (ratings.recipe_id r =? recipe_id)
                             && (ratings.user_id r =? user_id)
                          then mkRow (rating_id r) recipe_id user_id rating
                          else r) (rows tb))
           (next_id tb))
  else (negb (existsb (fun r => (ratings.recipe_id r =? recipe_id)
                                && (ratings.user_id r =? user_id)) (rows tb)),
        tb).

(** [DELETE FROM ratings WHERE recipe_id = ... AND user_id = ...]. *)
Definition delete (recipe_id user_id : Z) (tb : t) : t :=
  mk (filter (fun r => negb ((ratings.recipe_id r =? recipe_id)
                             && (ratings.user_id r =? user_id))) (rows tb))
     (next_id tb).

(** The deletions that [ON DELETE CASCADE] performs. *)
Definition cascade_recipe (recipe_id : Z) (tb : t) : t :=
  mk (filter (fun r => negb (ratings.recipe_id r =? recipe_id)) (rows tb))
     (next_id tb).

Definition cascade_user (user_id : Z) (tb : t) : t :=
  mk (filter (fun r => negb (ratings.user_id r =? user_id)) (rows tb))
     (next_id tb).

Inductive statement : Type :=
| Insert (recipe_id user_id rating : Z)
| Update (recipe_id user_id rating : Z)
| Delete (recipe_id user_id : Z)
| CascadeRecipe (recipe_id : Z)
| CascadeUser (user_id : Z).

Definition exec (st : statement) (tb : t) : t :=
  match st with
  | Insert r u v => snd (insert r u v tb)
  | Update r u v => snd (update r u v tb)
  | Delete r u => delete r u tb
  | CascadeRecipe r => cascade_recipe r tb
  | CascadeUser u => cascade_user u tb
  end.

Definition run (sts : list statement) (tb : t) : t :=
  fold_left (fun tb st => exec st tb) sts tb.

(** The seed rows of the ratings table. *)
Definition seed : list statement :=
  [ Insert 1 1 5; Insert 1 2 4; Insert 2 1 5; Insert 2 3 4; Insert 3 2 5;
    Insert 3 4 4; Insert 4 3 5; Insert 4 1 4; Insert 5 4 5; Insert 5 2 5;
    Insert 6 5 4; Insert 6 1 3; Insert 7 1 5; Insert 7 3 4; Insert 8 2 5;
    Insert 8 4 4; Insert 9 3 5; Insert 9 5 4; Insert 10 4 5; Insert 10 1 5 ].

(** The pair that must be unique. *)
Definition key (r : row) : Z * Z := (recipe_id r, user_id r).
End ratings.

(** *** [instructions] *)

Module instructions.
Record row : Type := mkRow {
  instruction_id : Z;
  recipe_id : Z;
  step_number : Z;
  description : string
}.

Record t : Type := mk {
  rows : list row;
  next_id : Z
}.

(** [UNIQUE (recipe_id, step_number)]. *)
Definition unique (recipe_id step_number : Z) (rs : list row) : bool :=
  negb (existsb (fun r => (instructions.recipe_id r =? recipe_id)
                          && (instructions.step_number r =? step_number)) rs).

(** [INSERT INTO instructions (recipe_id, step_number, description)]. *)
Definition insert (recipe_id step_number : Z) (description : string) (tb : t)
  : bool * t :=
  if unique recipe_id step_number (rows tb)
  then (true, mk (rows tb ++ [mkRow (next_id tb) recipe_id step_number description])
                 (next_id tb + 1))
  else (false, mk (rows tb) (next_id tb + 1)).

(** The steps of one recipe inserted in order; [false] as soon as one is
    refused. *)
Fixpoint insert_all (recipe_id : Z) (steps : list (Z * string)) (tb : t)
  : bool * t :=
  match steps with
  | [] => (true, tb)
  | (n, d) :: rest =>
      let (ok, tb') := insert recipe_id n d tb in
      if ok then insert_all recipe_id rest tb' else (false, tb')
  end.
End instructions.

End Schema.

(** ** The browse view ([UV_BrowseRecipes]) *)

Module UV_BrowseRecipes.

(** The component's state: its [useState] cells, the URL query of
    [useSearchParams] and the data of [recipesQuery].

    The handlers below are the functions the component defines, each taken
    as one call on the state of the render that created it.  The effect
    that compares the URL with the local state after a render, and the
    render itself (which reads [queryClient] above its declaration), are
    not part of this model: a chain of handler calls is not a run of the
    component, and no statement here is about one. *)
Record View : Type := mkView {
  localFilterParams : FilterParams.t;
  localSortOrder : string;
  currentPage : Z;
  itemsPerPage : Z;
  searchParams : URLSearchParams.t;
  recipesQuery_data : option PaginatedRecipesResponse.t
}.

Definition setLocalSortOrder (o : string) (v : View) : View :=
  mkView (localFilterParams v) o (currentPage v) (itemsPerPage v)
         (searchParams v) (recipesQuery_data v).

Definition setCurrentPage (p : Z) (v : View) : View :=
  mkView (localFilterParams v) (localSortOrder v) p (itemsPerPage v)
         (searchParams v) (recipesQuery_data v).

Definition setLocalFilterParams (f : FilterParams.t) (v : View) : View :=
  mkView f (localSortOrder v) (currentPage v) (itemsPerPage v)
         (searchParams v) (recipesQuery_data v).

Definition setSearchParams (p : URLSearchParams.t) (v : View) : View :=
  mkView (localFilterParams v) (localSortOrder v) (currentPage v)
         (itemsPerPage v) p (recipesQuery_data v).

(** [recipesQuery.data?.pagination || { total_pages: 0, ... }]. *)
Definition pagination_info (v : View) : PaginationInfo.t :=
  match recipesQuery_data v with
  | Some d => PaginatedRecipesResponse.pagination d
  | None => PaginationInfo.mk 0 0 1 (itemsPerPage v)
  end.

(** [if (x !== null && x !== undefined) params.append(k, String(x))]. *)
Definition append_number (k : string) (x : option JsNumber.t)
           (p : URLSearchParams.t) : URLSearchParams.t :=
  match x with
  | Some n => URLSearchParams.append k (JsNumber.text n) p
  | None => p
  end.

(** [if (xs && xs.length > 0) params.append(k, xs.join(','))]. *)
Definition append_joined (k : string) (xs : list string) (p : URLSearchParams.t)
  : URLSearchParams.t :=
  match xs with
  | [] => p
  | _ :: _ => URLSearchParams.append k (Js.join "," xs) p
  end.

(** The query of the request sent by [fetchRecipesFn]. *)
Definition fetchRecipesFn (currentFilters : FilterParams.t)
           (currentSortOrder : string) (currentPage itemsPerPage : Z)
  : URLSearchParams.t :=
  let q := URLSearchParams.empty in
  let q := append_joined "tags" (FilterParams.tags currentFilters) q in
  let q := append_joined "difficulty" (FilterParams.difficulty currentFilters) q in
  let q := append_number "max_prep_time" (FilterParams.max_prep_time currentFilters) q in
  let q := append_number "max_cook_time" (FilterParams.max_cook_time currentFilters) q in
  let q := append_number "min_rating" (FilterParams.min_rating currentFilters) q in
  let q := URLSearchParams.append "sort_by" currentSortOrder q in
  let q := URLSearchParams.append "page" (Js.String_of currentPage) q in
  URLSearchParams.append "limit" (Js.String_of itemsPerPage) q.

(** The query function of [recipesQuery], keyed on the local state: what
    the next fetch asks for. *)
Definition queryFn (v : View) : URLSearchParams.t :=
  fetchRecipesFn (localFilterParams v) (localSortOrder v) (currentPage v)
                 (itemsPerPage v).

(** [xs.forEach(x => params.append(k, x))]. *)
Definition append_each (k : string) (xs : list string) (p : URLSearchParams.t)
  : URLSearchParams.t :=
  fold_left (fun p x => URLSearchParams.append k x p) xs p.

Definition handleApplyFilters (st : View * Store.World) : View * Store.World :=
  let (v, w) := st in
  let w := Store.setFilters (FilterParams.to_partial (localFilterParams v)) w in
  let w := Store.setSortOrder (localSortOrder v) w in
  let v' := setCurrentPage 1 v in
  let p := URLSearchParams.empty in
  let p := append_each "tags" (FilterParams.tags (localFilterParams v)) p in
  let p := append_each "difficulty" (FilterParams.difficulty (localFilterParams v)) p in
  let p := append_number "max_prep_time"
                         (FilterParams.max_prep_time (localFilterParams v)) p in
  let p := append_number "max_cook_time"
                         (FilterParams.max_cook_time (localFilterParams v)) p in
  let p := append_number "min_rating"
                         (FilterParams.min_rating (localFilterParams v)) p in
  let p := if negb (String.eqb (localSortOrder v) "newest")
           then URLSearchParams.append "sort_by" (localSortOrder v) p
           else p in
  let p := URLSearchParams.append "page" "1" p in
  (setSearchParams p v', w).

Definition handleClearFilters (st : View * Store.World) : View * Store.World :=
  let (v, w) := st in
  let v := setLocalFilterParams FilterParams.default v in
  let v := setLocalSortOrder "newest" v in
  let v := setCurrentPage 1 v in
  let w := Store.clearFilters w in
  (setSearchParams (URLSearchParams.append "page" "1" URLSearchParams.empty) v, w).

Definition handleSortChange (newSortOrder : string) (st : View * Store.World)
  : View * Store.World :=
  let (v, w) := st in
  let v' := setLocalSortOrder newSortOrder v in
  let w := Store.setSortOrder newSortOrder w in
  let v' := setCurrentPage 1 v' in
  let current := searchParams v in
  let current := if negb (String.eqb newSortOrder "newest")
                 then URLSearchParams.set "sort_by" newSortOrder current
                 else URLSearchParams.delete "sort_by" current in
  let current := URLSearchParams.set "page" "1" current in
  (setSearchParams current v', w).

Definition handlePageChange (page : Z) (st : View * Store.World)
  : View * Store.World :=
  let (v, w) := st in
  if (page >=? 1) && (page <=? PaginationInfo.total_pages (pagination_info v))
  then
    let v' := setCurrentPage page v in
    let w := Store.setPage page w in
    let current := URLSearchParams.set "page" (Js.String_of page) (searchParams v) in
    (setSearchParams current v', w)
  else st.

End UV_BrowseRecipes.

(** ** The search-results view ([UV_SearchResults]) *)

Module UV_SearchResults.

Record View : Type := mkView {
  local_filter_params : FilterParams.t;
  local_sort_order : string;
  local_page : Z;
  searchParams : URLSearchParams.t;
  searchResults : option PaginatedRecipesResponse.t
}.

Definition set_local_sort_order (o : string) (v : View) : View :=
  mkView (local_filter_params v) o (local_page v) (searchParams v)
         (searchResults v).

Definition set_local_page (p : Z) (v : View) : View :=
  mkView (local_filter_params v) (local_sort_order v) p (searchParams v)
         (searchResults v).

Definition setSearchParams (p : URLSearchParams.t) (v : View) : View :=
  mkView (local_filter_params v) (local_sort_order v) (local_page v) p
         (searchResults v).

Definition handleSortChange (newSortOrder : string) (st : View * Store.World)
  : View * Store.World :=
  let (v, w) := st in
  let v' := set_local_sort_order newSortOrder v in
  let w := Store.setSortOrder newSortOrder w in
  let v' := set_local_page 1 v' in
  let w := Store.setPage 1 w in
  let currentParams := URLSearchParams.set "sort_by" newSortOrder (searchParams v) in
  let currentParams := URLSearchParams.set "page" "1" currentParams in
  (setSearchParams currentParams v', w).

Definition handlePageChange (pageNumber : Z) (st : View * Store.World)
  : View * Store.World :=
  let (v, w) := st in
  match searchResults v with
  | None => st
  | Some results =>
      if (pageNumber >? 0)
         && (pageNumber <=? PaginationInfo.total_pages
                              (PaginatedRecipesResponse.pagination results))
      then
        let v' := set_local_page pageNumber v in
        let w := Store.setPage pageNumber w in
        let currentParams :=
          URLSearchParams.set "page" (Js.String_of pageNumber) (searchParams v) in
        (setSearchParams currentParams v', w)
      else st
  end.

End UV_SearchResults.

(** ** Sample data *)

Module Samples.

Definition alex : UserSummary.t := UserSummary.mk 1 "alex_runner" None.

Definition stir_fry : RecipeSummary.t :=
  RecipeSummary.mk 1 "Keto Chicken Stir-Fry" "A quick stir-fry." "" 15 20 Easy
                   None 1 "alex_runner" ["Low Carb"] None.

Definition brownies : RecipeSummary.t :=
  RecipeSummary.mk 4 "Fat Bomb Brownies" "Indulgent keto brownies." "" 20 25
                   Medium None 3 "keto_guru" ["Keto Dessert"] None.

(** A signed-in session with two saved recipes. *)
Definition signed_in : Store.AppState :=
  Store.set_saved_recipes [stir_fry; brownies]
    (Store.set_user_profile_summary (Some alex)
       (Store.set_access_token (Some "token-alex")
          (Store.set_is_authenticated true Store.initial))).

Definition world : Store.World := Store.mkWorld signed_in 10000 [].

(** The same session while [loadUserProfile] awaits its request. *)
Definition world_loading : Store.World :=
  Store.upd (Store.set_loading_auth true) world.

Definition error_401 : Store.AxiosError.t :=
  Store.AxiosError.mk
    (Some (Store.ErrorResponse.mk 401 (Some "Invalid or expired token")))
    "Request failed with status code 401".

(** A server error whose body carries an empty [error] field. *)
Definition error_500_empty : Store.AxiosError.t :=
  Store.AxiosError.mk (Some (Store.ErrorResponse.mk 500 (Some "")))
                      "Request failed with status code 500".

Definition step (n : Z) (text : string) : UV_SubmitRecipe.FormInstruction.t :=
  UV_SubmitRecipe.FormInstruction.mk None n text.

(** A form that is complete except for its title, which is blank; two of
    its steps carry the same number, as after removing a step. *)
Definition blank_title_form : UV_SubmitRecipe.RecipeFormData.t :=
  UV_SubmitRecipe.RecipeFormData.mk
    "   " "Creamy avocado egg salad." None (Some "https://example.com/a.png")
    (UV_SubmitRecipe.Num 10) (UV_SubmitRecipe.Num 5) (UV_SubmitRecipe.Num 2)
    Easy UV_SubmitRecipe.Empty UV_SubmitRecipe.Empty UV_SubmitRecipe.Empty None
    [UV_SubmitRecipe.FormIngredient.mk None (UV_SubmitRecipe.Num 6) None "Eggs"]
    [step 1 "Boil the eggs."; step 3 "Mash the avocado."; step 3 "Mix."]
    [].

Definition submit_view : UV_SubmitRecipe.View :=
  UV_SubmitRecipe.mkView blank_title_form UV_SubmitRecipe.FormErrors.empty
                         false false None.

Definition no_instructions : Schema.instructions.t :=
  Schema.instructions.mk [] 1.

Definition page_2_of_3 : PaginatedRecipesResponse.t :=
  PaginatedRecipesResponse.mk [stir_fry] (PaginationInfo.mk 25 3 2 10).

Definition keto_filters : FilterParams.t :=
  FilterParams.mk ["Keto"; "Breakfast"] ["Easy"] (Some (JsNumber.of_Z 30)) None
                  (Some (JsNumber.mk "4.5")).

Definition browse_view : UV_BrowseRecipes.View :=
  UV_BrowseRecipes.mkView keto_filters "rating" 2 10
    [("sort_by", "rating"); ("page", "2")] (Some page_2_of_3).

Definition search_view : UV_SearchResults.View :=
  UV_SearchResults.mkView FilterParams.default "newest" 2
    [("q", "pizza"); ("page", "2")] (Some page_2_of_3).

End Samples.

(** ** Observations on the store *)

(** What a failed action leaves behind: the store of [w] with the error
    notification [message], and its timer queued. *)
Definition notifies (message : string) (w w' : Store.World) : Prop :=
  Store.store w'
  = Store.set_notification (Some (Notification.mk message error)) (Store.store w)
  /\ Store.timers w'
     = Store.timers w
       ++ [Store.mkTimer (Store.now w + Store.NOTIFICATION_DELAY) message].

(** The session fields after a logout. *)
Definition logged_out (s : Store.AppState) : Prop :=
  Store.is_authenticated s = false
  /\ Store.access_token s = None
  /\ Store.user_profile_summary s = None
  /\ Store.current_user_profile s = None
  /\ Store.saved_recipes s = [].


(** The constraints of the ratings table, as an invariant of its rows. *)
Definition ratings_valid (tb : Schema.ratings.t) : Prop :=
  Forall (fun r => 1 <= Schema.ratings.rating r <= 5) (Schema.ratings.rows tb)
  /\ NoDup (map Schema.ratings.key (Schema.ratings.rows tb)).

(** ** Lists of chosen items *)

Module Items.

(** [xs.includes(x)] on strings. *)
Definition includes (x : string) (xs : list string) : bool :=
  existsb (String.eqb x) xs.

(** [xs.includes(x) ? xs.filter(t => t !== x) : [...xs, x]], the expression
    by which the views take an item out of a list or put it at its end. *)
Definition toggle (x : string) (xs : list string) : list string :=
  if includes x xs
  then filter (fun t => negb (String.eqb t x)) xs
  else xs ++ [x].

End Items.

(** ** The store: signing in, registering, loading one recipe *)

Module StoreAuth.

Module LoginResponse.
(** [response.data] of [POST /auth/login]: [{ access_token, user }]. *)
Record t : Type := mk {
  access_token : option string;
  user : option UserSummary.t
}.
End LoginResponse.

(** [loadUserProfile] up to its request: what a caller that does not await
    it sees done. *)
Definition loadUserProfile_begin (w : Store.World) : Store.World :=
  if negb (Js.truthy_opt (Store.access_token (Store.store w))) then w
  else Store.upd (Store.set_loading_auth true) w.

(** [login]; [resp] is the outcome of [POST /auth/login].  On success the
    profile load is started and not awaited. *)
Definition login (resp : Store.Outcome LoginResponse.t) (w : Store.World)
  : bool * Store.World :=
  let w := Store.upd (fun s => Store.set_auth_error None
                                 (Store.set_loading_auth true s)) w in
  match resp with
  | Store.Resolved data =>
      let w :=
        Store.upd (fun s =>
                     Store.set_auth_error None
                       (Store.set_loading_auth false
                          (Store.set_user_profile_summary (LoginResponse.user data)
                             (Store.set_access_token (LoginResponse.access_token data)
                                (Store.set_is_authenticated true s))))) w in
      (true, loadUserProfile_begin w)
  | Store.Rejected e =>
      let errorMessage := Store.errorMessage e "Login failed" in
      (false,
       Store.upd (fun s =>
                    Store.set_user_profile_summary None
                      (Store.set_access_token None
                         (Store.set_is_authenticated false
                            (Store.set_loading_auth false
                               (Store.set_auth_error (Some errorMessage) s))))) w)
  end.

End StoreAuth.
(** ** The recipe submission view: editing the form *)

Module UV_SubmitRecipeForm.

(** [{ ...prev, ingredients }], [{ ...prev, instructions }], [{ ...prev, tags }]
    and [{ ...prev, cover_photo_file, cover_photo_url }]. *)
Definition with_ingredients (l : list UV_SubmitRecipe.FormIngredient.t)
           (d : UV_SubmitRecipe.RecipeFormData.t) : UV_SubmitRecipe.RecipeFormData.t :=
  UV_SubmitRecipe.RecipeFormData.mk
    (UV_SubmitRecipe.RecipeFormData.title d)
    (UV_SubmitRecipe.RecipeFormData.description d)
    (UV_SubmitRecipe.RecipeFormData.cover_photo_file d)
    (UV_SubmitRecipe.RecipeFormData.cover_photo_url d)
    (UV_SubmitRecipe.RecipeFormData.prep_time_minutes d)
    (UV_SubmitRecipe.RecipeFormData.cook_time_minutes d)
    (UV_SubmitRecipe.RecipeFormData.servings d)
    (UV_SubmitRecipe.RecipeFormData.difficulty_level d)
    (UV_SubmitRecipe.RecipeFormData.nutri_net_carbs_grams_per_serving d)
    (UV_SubmitRecipe.RecipeFormData.nutri_protein_grams_per_serving d)
    (UV_SubmitRecipe.RecipeFormData.nutri_fat_grams_per_serving d)
    (UV_SubmitRecipe.RecipeFormData.notes_tips d)
    l
    (UV_SubmitRecipe.RecipeFormData.instructions d)
    (UV_SubmitRecipe.RecipeFormData.tags d).

Definition with_instructions (l : list UV_SubmitRecipe.FormInstruction.t)
           (d : UV_SubmitRecipe.RecipeFormData.t) : UV_SubmitRecipe.RecipeFormData.t :=
  UV_SubmitRecipe.RecipeFormData.mk
    (UV_SubmitRecipe.RecipeFormData.title d)
    (UV_SubmitRecipe.RecipeFormData.description d)
    (UV_SubmitRecipe.RecipeFormData.cover_photo_file d)
    (UV_SubmitRecipe.RecipeFormData.cover_photo_url d)
    (UV_SubmitRecipe.RecipeFormData.prep_time_minutes d)
    (UV_SubmitRecipe.RecipeFormData.cook_time_minutes d)
    (UV_SubmitRecipe.RecipeFormData.servings d)
    (UV_SubmitRecipe.RecipeFormData.difficulty_level d)
    (UV_SubmitRecipe.RecipeFormData.nutri_net_carbs_grams_per_serving d)
    (UV_SubmitRecipe.RecipeFormData.nutri_protein_grams_per_serving d)
    (UV_SubmitRecipe.RecipeFormData.nutri_fat_grams_per_serving d)
    (UV_SubmitRecipe.RecipeFormData.notes_tips d)
    (UV_SubmitRecipe.RecipeFormData.ingredients d)
    l
    (UV_SubmitRecipe.RecipeFormData.tags d).

Definition with_tags (l : list string)
           (d : UV_SubmitRecipe.RecipeFormData.t) : UV_SubmitRecipe.RecipeFormData.t :=
  UV_SubmitRecipe.RecipeFormData.mk
    (UV_SubmitRecipe.RecipeFormData.title d)
    (UV_SubmitRecipe.RecipeFormData.description d)
    (UV_SubmitRecipe.RecipeFormData.cover_photo_file d)
    (UV_SubmitRecipe.RecipeFormData.cover_photo_url d)
    (UV_SubmitRecipe.RecipeFormData.prep_time_minutes d)
    (UV_SubmitRecipe.RecipeFormData.cook_time_minutes d)
    (UV_SubmitRecipe.RecipeFormData.servings d)
    (UV_SubmitRecipe.RecipeFormData.difficulty_level d)
    (UV_SubmitRecipe.RecipeFormData.nutri_net_carbs_grams_per_serving d)
    (UV_SubmitRecipe.RecipeFormData.nutri_protein_grams_per_serving d)
    (UV_SubmitRecipe.RecipeFormData.nutri_fat_grams_per_serving d)
    (UV_SubmitRecipe.RecipeFormData.notes_tips d)
    (UV_SubmitRecipe.RecipeFormData.ingredients d)
    (UV_SubmitRecipe.RecipeFormData.instructions d)
    l.

Definition with_cover_photo (file : option UV_SubmitRecipe.File.t)
           (url : option string)
           (d : UV_SubmitRecipe.RecipeFormData.t) : UV_SubmitRecipe.RecipeFormData.t :=
  UV_SubmitRecipe.RecipeFormData.mk
    (UV_SubmitRecipe.RecipeFormData.title d)
    (UV_SubmitRecipe.RecipeFormData.description d)
    file
    url
    (UV_SubmitRecipe.RecipeFormData.prep_time_minutes d)
    (UV_SubmitRecipe.RecipeFormData.cook_time_minutes d)
    (UV_SubmitRecipe.RecipeFormData.servings d)
    (UV_SubmitRecipe.RecipeFormData.difficulty_level d)
    (UV_SubmitRecipe.RecipeFormData.nutri_net_carbs_grams_per_serving d)
    (UV_SubmitRecipe.RecipeFormData.nutri_protein_grams_per_serving d)
    (UV_SubmitRecipe.RecipeFormData.nutri_fat_grams_per_serving d)
    (UV_SubmitRecipe.RecipeFormData.notes_tips d)
    (UV_SubmitRecipe.RecipeFormData.ingredients d)
    (UV_SubmitRecipe.RecipeFormData.instructions d)
    (UV_SubmitRecipe.RecipeFormData.tags d).

(** [l.filter((_, i) => i !== index)], positions counted from [i]. *)
Fixpoint remove_at {A : Type} (index : Z) (i : Z) (l : list A) : list A :=
  match l with
  | [] => []
  | x :: rest =>
      if i =? index then remove_at index (i + 1) rest
      else x :: remove_at index (i + 1) rest
  end.

Definition add_ingredient (d : UV_SubmitRecipe.RecipeFormData.t)
  : UV_SubmitRecipe.RecipeFormData.t :=
  with_ingredients
    (UV_SubmitRecipe.RecipeFormData.ingredients d
     ++ [UV_SubmitRecipe.FormIngredient.mk None UV_SubmitRecipe.Empty None ""]) d.

Definition remove_ingredient (index : Z) (d : UV_SubmitRecipe.RecipeFormData.t)
  : UV_SubmitRecipe.RecipeFormData.t :=
  with_ingredients
    (remove_at index 0 (UV_SubmitRecipe.RecipeFormData.ingredients d)) d.

Definition add_instruction_step (d : UV_SubmitRecipe.RecipeFormData.t)
  : UV_SubmitRecipe.RecipeFormData.t :=
  with_instructions
    (UV_SubmitRecipe.RecipeFormData.instructions d
     ++ [UV_SubmitRecipe.FormInstruction.mk
           None
           (Z.of_nat (List.length (UV_SubmitRecipe.RecipeFormData.instructions d)) + 1)
           ""]) d.

Definition remove_instruction_step (index : Z)
           (d : UV_SubmitRecipe.RecipeFormData.t)
  : UV_SubmitRecipe.RecipeFormData.t :=
  with_instructions
    (remove_at index 0 (UV_SubmitRecipe.RecipeFormData.instructions d)) d.

(** [handleTagChange]. *)
Definition handleTagChange (tag : string) (d : UV_SubmitRecipe.RecipeFormData.t)
  : UV_SubmitRecipe.RecipeFormData.t :=
  with_tags (Items.toggle tag (UV_SubmitRecipe.RecipeFormData.tags d)) d.

(** [{ ...prev, cover_photo: message }] and [{ ...prev, cover_photo: undefined }]. *)
Definition clear_cover_photo (e : UV_SubmitRecipe.FormErrors.t)
  : UV_SubmitRecipe.FormErrors.t :=
  UV_SubmitRecipe.FormErrors.mk
    (UV_SubmitRecipe.FormErrors._form e) (UV_SubmitRecipe.FormErrors.title e)
    (UV_SubmitRecipe.FormErrors.description e) None
    (UV_SubmitRecipe.FormErrors.prep_time_minutes e)
    (UV_SubmitRecipe.FormErrors.cook_time_minutes e)
    (UV_SubmitRecipe.FormErrors.servings e)
    (UV_SubmitRecipe.FormErrors.difficulty_level e)
    (UV_SubmitRecipe.FormErrors.ingredients e)
    (UV_SubmitRecipe.FormErrors.instructions e)
    (UV_SubmitRecipe.FormErrors.nutri_net_carbs_grams_per_serving e)
    (UV_SubmitRecipe.FormErrors.nutri_protein_grams_per_serving e)
    (UV_SubmitRecipe.FormErrors.nutri_fat_grams_per_serving e)
    (UV_SubmitRecipe.FormErrors.tags e).

Definition set_recipe_form_data (d : UV_SubmitRecipe.RecipeFormData.t)
           (v : UV_SubmitRecipe.View) : UV_SubmitRecipe.View :=
  UV_SubmitRecipe.mkView d (UV_SubmitRecipe.form_errors v)
                         (UV_SubmitRecipe.is_submitting v)
                         (UV_SubmitRecipe.is_editing v)
                         (UV_SubmitRecipe.current_recipe_id v).

Definition set_form_errors (e : UV_SubmitRecipe.FormErrors.t)
           (v : UV_SubmitRecipe.View) : UV_SubmitRecipe.View :=
  UV_SubmitRecipe.mkView (UV_SubmitRecipe.recipe_form_data v) e
                         (UV_SubmitRecipe.is_submitting v)
                         (UV_SubmitRecipe.is_editing v)
                         (UV_SubmitRecipe.current_recipe_id v).

(** The size limit of a cover photo: 5 MB. *)
Definition MAX_FILE_SIZE : Z := 5 * 1024 * 1024.

(** [handle_cover_photo_change]; [file] is [e.target.files?.[0]] and
    [objectURL] what [URL.createObjectURL] returns for it. *)
Definition handle_cover_photo_change (file : option UV_SubmitRecipe.File.t)
           (objectURL : string) (st : UV_SubmitRecipe.View * Store.World)
  : UV_SubmitRecipe.View * Store.World :=
  let (v, w) := st in
  match file with
  | Some f =>
      if negb (String.prefix "image/" (UV_SubmitRecipe.File.type f))
      then (set_form_errors
              (UV_SubmitRecipe.FormErrors.set_cover_photo
                 "Invalid file type. Please upload an image."
                 (UV_SubmitRecipe.form_errors v)) v,
            Store.showNotification "Please upload an image file." error w)
      else if UV_SubmitRecipe.File.size f >? MAX_FILE_SIZE
      then (set_form_errors
              (UV_SubmitRecipe.FormErrors.set_cover_photo
                 "File size exceeds 5MB limit."
                 (UV_SubmitRecipe.form_errors v)) v,
            Store.showNotification "File size exceeds the limit (5MB)." error w)
      else (set_form_errors
              (clear_cover_photo (UV_SubmitRecipe.form_errors v))
              (set_recipe_form_data
                 (with_cover_photo (Some f) (Some objectURL)
                                   (UV_SubmitRecipe.recipe_form_data v)) v),
            w)
  | None =>
      (set_recipe_form_data
         (with_cover_photo
            None
            (if UV_SubmitRecipe.is_editing v
             then UV_SubmitRecipe.RecipeFormData.cover_photo_url
                    (UV_SubmitRecipe.recipe_form_data v)
             else None)
            (UV_SubmitRecipe.recipe_form_data v)) v,
       w)
  end.

(** The step numbers of a form are those of the positions: 1, 2, ..., n. *)
Definition numbered (l : list UV_SubmitRecipe.FormInstruction.t) : Prop :=
  map UV_SubmitRecipe.FormInstruction.step_number l
  = map Z.of_nat (seq 1 (List.length l)).

(** What the validation asks of a form, field by field. *)
Definition filled (s : string) : Prop := Js.only_white_space s = false.

Definition positive (x : UV_SubmitRecipe.FormNumber) : Prop :=
  exists q, x = UV_SubmitRecipe.Num q /\ (0 < q)%Q.

Definition not_negative (x : UV_SubmitRecipe.FormNumber) : Prop :=
  forall q, x = UV_SubmitRecipe.Num q -> (0 <= q)%Q.

Definition complete (d : UV_SubmitRecipe.RecipeFormData.t) : Prop :=
  filled (UV_SubmitRecipe.RecipeFormData.title d)
  /\ filled (UV_SubmitRecipe.RecipeFormData.description d)
  /\ (UV_SubmitRecipe.RecipeFormData.cover_photo_file d <> None
      \/ exists url, UV_SubmitRecipe.RecipeFormData.cover_photo_url d = Some url
                     /\ url <> "")
  /\ positive (UV_SubmitRecipe.RecipeFormData.prep_time_minutes d)
  /\ positive (UV_SubmitRecipe.RecipeFormData.cook_time_minutes d)
  /\ positive (UV_SubmitRecipe.RecipeFormData.servings d)
  /\ (UV_SubmitRecipe.RecipeFormData.ingredients d <> []
      /\ forall ing, In ing (UV_SubmitRecipe.RecipeFormData.ingredients d) ->
                     filled (UV_SubmitRecipe.FormIngredient.name ing)
                     /\ positive (UV_SubmitRecipe.FormIngredient.quantity ing))
  /\ (UV_SubmitRecipe.RecipeFormData.instructions d <> []
      /\ forall inst, In inst (UV_SubmitRecipe.RecipeFormData.instructions d) ->
                      filled (UV_SubmitRecipe.FormInstruction.description inst))
  /\ not_negative (UV_SubmitRecipe.RecipeFormData.nutri_net_carbs_grams_per_serving d)
  /\ not_negative (UV_SubmitRecipe.RecipeFormData.nutri_protein_grams_per_serving d)
  /\ not_negative (UV_SubmitRecipe.RecipeFormData.nutri_fat_grams_per_serving d).

(** [isValid] is still true exactly when no key of [errors] has been
    assigned, and the three keys the validation does not know stay unset. *)
Definition errors_agree (st : UV_SubmitRecipe.FormErrors.t * bool) : Prop :=
  (fst st = UV_SubmitRecipe.FormErrors.empty <-> snd st = true)
  /\ UV_SubmitRecipe.FormErrors._form (fst st) = None
  /\ UV_SubmitRecipe.FormErrors.difficulty_level (fst st) = None
  /\ UV_SubmitRecipe.FormErrors.tags (fst st) = None.

End UV_SubmitRecipeForm.
(** ** The search-results view: fetching and filters *)

Module UV_SearchResultsFilters.

Definition set_local_filter_params (f : FilterParams.t) (v : UV_SearchResults.View)
  : UV_SearchResults.View :=
  UV_SearchResults.mkView f (UV_SearchResults.local_sort_order v)
                          (UV_SearchResults.local_page v)
                          (UV_SearchResults.searchParams v)
                          (UV_SearchResults.searchResults v).

(** What [fetch_search_results] does: it returns a value of its own, or it
    sends a request with these query parameters. *)
Inductive Fetch : Type :=
| Returned (r : PaginatedRecipesResponse.t)
| Requested (queryParams : URLSearchParams.t).

Definition fetch_search_results (query : string) (filters : FilterParams.t)
           (sort : string) (page limit : Z) : Fetch :=
  if negb (Js.truthy query)
  then Returned (PaginatedRecipesResponse.mk [] (PaginationInfo.mk 0 0 1 limit))
  else
    let q := URLSearchParams.append "q" query URLSearchParams.empty in
    let q := UV_BrowseRecipes.append_joined "tags" (FilterParams.tags filters) q in
    let q := UV_BrowseRecipes.append_joined
               "difficulty" (FilterParams.difficulty filters) q in
    let q := UV_BrowseRecipes.append_number
               "max_prep_time" (FilterParams.max_prep_time filters) q in
    let q := UV_BrowseRecipes.append_number
               "max_cook_time" (FilterParams.max_cook_time filters) q in
    let q := UV_BrowseRecipes.append_number
               "min_rating" (FilterParams.min_rating filters) q in
    let q := URLSearchParams.append "sort_by" sort q in
    let q := URLSearchParams.append "page" (Js.String_of page) q in
    Requested (URLSearchParams.append "limit" (Js.String_of limit) q).

(** [searchParams.get('q') || '']. *)
Definition current_search_query_from_url (v : UV_SearchResults.View) : string :=
  Js.or_else (URLSearchParams.get "q" (UV_SearchResults.searchParams v)) "".

(** [searchResults?.pagination?.items_per_page || 10]. *)
Definition limit (v : UV_SearchResults.View) : Z :=
  match UV_SearchResults.searchResults v with
  | Some results =>
      if PaginationInfo.items_per_page (PaginatedRecipesResponse.pagination results)
         =? 0
      then 10
      else PaginationInfo.items_per_page (PaginatedRecipesResponse.pagination results)
  | None => 10
  end.

(** The query function of the view's [useQuery]. *)
Definition queryFn (v : UV_SearchResults.View) : Fetch :=
  if negb (Js.truthy (current_search_query_from_url v))
  then Returned (PaginatedRecipesResponse.mk [] (PaginationInfo.mk 0 0 1 10))
  else fetch_search_results (current_search_query_from_url v)
                            (UV_SearchResults.local_filter_params v)
                            (UV_SearchResults.local_sort_order v)
                            (UV_SearchResults.local_page v)
                            (limit v).

(** The arguments with which the view calls [handleFilterChange]: the name
    of a filter and its new value, a list for the two list filters, a
    number or [null] for the others. *)
Inductive FilterChange : Type :=
| tags (value : list string)
| difficulty (value : list string)
| max_prep_time (value : option JsNumber.t)
| max_cook_time (value : option JsNumber.t)
| min_rating (value : option JsNumber.t).

(** [newFilters[filterName] = value] on a copy of [prev]. *)
Definition assign (c : FilterChange) (prev : FilterParams.t) : FilterParams.t :=
  match c with
  | tags value =>
      FilterParams.mk value (FilterParams.difficulty prev)
                      (FilterParams.max_prep_time prev)
                      (FilterParams.max_cook_time prev) (FilterParams.min_rating prev)
  | difficulty value =>
      FilterParams.mk (FilterParams.tags prev) value
                      (FilterParams.max_prep_time prev)
                      (FilterParams.max_cook_time prev) (FilterParams.min_rating prev)
  | max_prep_time value =>
      FilterParams.mk (FilterParams.tags prev) (FilterParams.difficulty prev)
                      value
                      (FilterParams.max_cook_time prev) (FilterParams.min_rating prev)
  | max_cook_time value =>
      FilterParams.mk (FilterParams.tags prev) (FilterParams.difficulty prev)
                      (FilterParams.max_prep_time prev)
                      value (FilterParams.min_rating prev)
  | min_rating value =>
      FilterParams.mk (FilterParams.tags prev) (FilterParams.difficulty prev)
                      (FilterParams.max_prep_time prev)
                      (FilterParams.max_cook_time prev) value
  end.

Definition filterName (c : FilterChange) : string :=
  match c with
  | tags _ => "tags"
  | difficulty _ => "difficulty"
  | max_prep_time _ => "max_prep_time"
  | max_cook_time _ => "max_cook_time"
  | min_rating _ => "min_rating"
  end.

(** The text written to the URL for the new value, if any. *)
Definition written (c : FilterChange) : option string :=
  match c with
  | tags value | difficulty value =>
      match value with
      | [] => None
      | _ :: _ => Some (Js.join "," value)
      end
  | max_prep_time value | max_cook_time value | min_rating value =>
      option_map JsNumber.text value
  end.

Definition handleFilterChange (c : FilterChange)
           (st : UV_SearchResults.View * Store.World)
  : UV_SearchResults.View * Store.World :=
  let (v, w) := st in
  let newFilters := assign c (UV_SearchResults.local_filter_params v) in
  let w := Store.setFilters (FilterParams.to_partial newFilters) w in
  let v' := UV_SearchResults.set_local_page 1 v in
  let w := Store.setPage 1 w in
  let currentParams := UV_SearchResults.searchParams v in
  let currentParams :=
    match written c with
    | Some text => URLSearchParams.set (filterName c) text currentParams
    | None => URLSearchParams.delete (filterName c) currentParams
    end in
  let currentParams := URLSearchParams.set "page" "1" currentParams in
  (UV_SearchResults.setSearchParams currentParams
     (set_local_filter_params newFilters v'), w).

Definition handleClearFilters (st : UV_SearchResults.View * Store.World)
  : UV_SearchResults.View * Store.World :=
  let (v, w) := st in
  let defaultFilters := FilterParams.mk [] [] None None None in
  let v' := set_local_filter_params defaultFilters v in
  let w := Store.setFilters (FilterParams.to_partial defaultFilters) w in
  let v' := UV_SearchResults.set_local_sort_order "newest" v' in
  let w := Store.setSortOrder "newest" w in
  let v' := UV_SearchResults.set_local_page 1 v' in
  let w := Store.setPage 1 w in
  let currentParams := UV_SearchResults.searchParams v in
  let currentParams := URLSearchParams.delete "tags" currentParams in
  let currentParams := URLSearchParams.delete "difficulty" currentParams in
  let currentParams := URLSearchParams.delete "max_prep_time" currentParams in
  let currentParams := URLSearchParams.delete "max_cook_time" currentParams in
  let currentParams := URLSearchParams.delete "min_rating" currentParams in
  let currentParams := URLSearchParams.set "sort_by" "newest" currentParams in
  let currentParams := URLSearchParams.set "page" "1" currentParams in
  (UV_SearchResults.setSearchParams currentParams v', w).

(** [s.split(',')]. *)
Fixpoint split_commas (s : string) : list string :=
  match s with
  | EmptyString => [""]
  | String c s' =>
      if Ascii.eqb c ","
      then "" :: split_commas s'
      else match split_commas s' with
           | [] => [String c ""]
           | x :: rest => String c x :: rest
           end
  end.

(** [param ? param.split(',') : []], by which the view reads [tags] and
    [difficulty] from the URL on its first render. *)
Definition list_of_param (param : option string) : list string :=
  match param with
  | Some s => if Js.truthy s then split_commas s else []
  | None => []
  end.

(** No comma in [s]. *)
Fixpoint comma_free (s : string) : bool :=
  match s with
  | EmptyString => true
  | String c s' => negb (Ascii.eqb c ",") && comma_free s'
  end.

End UV_SearchResultsFilters.

(** ** The browse view: choosing filters *)

Module UV_BrowseRecipesFilters.

Definition handleTagFilterToggle (tag : string) (v : UV_BrowseRecipes.View)
  : UV_BrowseRecipes.View :=
  let prev := UV_BrowseRecipes.localFilterParams v in
  UV_BrowseRecipes.setLocalFilterParams
    (FilterParams.mk (Items.toggle tag (FilterParams.tags prev))
                     (FilterParams.difficulty prev)
                     (FilterParams.max_prep_time prev)
                     (FilterParams.max_cook_time prev)
                     (FilterParams.min_rating prev)) v.

Definition handleDifficultyFilterFilterToggle (difficulty : string)
           (v : UV_BrowseRecipes.View) : UV_BrowseRecipes.View :=
  let prev := UV_BrowseRecipes.localFilterParams v in
  UV_BrowseRecipes.setLocalFilterParams
    (FilterParams.mk (FilterParams.tags prev)
                     (Items.toggle difficulty (FilterParams.difficulty prev))
                     (FilterParams.max_prep_time prev)
                     (FilterParams.max_cook_time prev)
                     (FilterParams.min_rating prev)) v.

End UV_BrowseRecipesFilters.
(** ** The recipe view: saving, commenting, tags *)

Module UV_RecipeViewActions.

Definition set_is_recipe_saved (b : bool) (l : UV_RecipeView.RecipeViewLocalState)
  : UV_RecipeView.RecipeViewLocalState :=
  UV_RecipeView.mkLocal
    (UV_RecipeView.recipe_details l) (UV_RecipeView.user_rating l)
    (UV_RecipeView.comment_input l) (UV_RecipeView.is_authenticated l)
    (UV_RecipeView.is_recipe_owner l) b
    (UV_RecipeView.is_posting_comment l) (UV_RecipeView.is_updating_rating l)
    (UV_RecipeView.comment_error l) (UV_RecipeView.fetch_error l).

Definition set_comment_input (s : string) (l : UV_RecipeView.RecipeViewLocalState)
  : UV_RecipeView.RecipeViewLocalState :=
  UV_RecipeView.mkLocal
    (UV_RecipeView.recipe_details l) (UV_RecipeView.user_rating l)
    s (UV_RecipeView.is_authenticated l)
    (UV_RecipeView.is_recipe_owner l) (UV_RecipeView.is_recipe_saved l)
    (UV_RecipeView.is_posting_comment l) (UV_RecipeView.is_updating_rating l)
    (UV_RecipeView.comment_error l) (UV_RecipeView.fetch_error l).

Definition set_is_posting_comment (b : bool) (l : UV_RecipeView.RecipeViewLocalState)
  : UV_RecipeView.RecipeViewLocalState :=
  UV_RecipeView.mkLocal
    (UV_RecipeView.recipe_details l) (UV_RecipeView.user_rating l)
    (UV_RecipeView.comment_input l) (UV_RecipeView.is_authenticated l)
    (UV_RecipeView.is_recipe_owner l) (UV_RecipeView.is_recipe_saved l)
    b (UV_RecipeView.is_updating_rating l)
    (UV_RecipeView.comment_error l) (UV_RecipeView.fetch_error l).

Definition set_comment_error (e : option string)
           (l : UV_RecipeView.RecipeViewLocalState)
  : UV_RecipeView.RecipeViewLocalState :=
  UV_RecipeView.mkLocal
    (UV_RecipeView.recipe_details l) (UV_RecipeView.user_rating l)
    (UV_RecipeView.comment_input l) (UV_RecipeView.is_authenticated l)
    (UV_RecipeView.is_recipe_owner l) (UV_RecipeView.is_recipe_saved l)
    (UV_RecipeView.is_posting_comment l) (UV_RecipeView.is_updating_rating l)
    e (UV_RecipeView.fetch_error l).

Definition PostComment : Type :=
  Z -> string -> Store.World -> option RecipeComment.t * Store.World.
Definition DeleteComment : Type := Z -> Store.World -> bool * Store.World.


(** The mutation function of [commentMutation]; [recipeIdNum] is [None]
    for [NaN]. *)
Definition commentMutation (postComment : PostComment)
           (is_authenticated : bool) (recipeIdNum : option Z)
           (comment_text : string)
           (st : UV_RecipeView.RecipeViewLocalState * Store.World)
  : option RecipeComment.t * (UV_RecipeView.RecipeViewLocalState * Store.World) :=
  let (l, w) := st in
  match is_authenticated, recipeIdNum with
  | true, Some id =>
      if negb (Js.truthy (Js.trim comment_text))
      then (None, (set_comment_error (Some "Comment cannot be empty") l, w))
      else
        let l := set_comment_error None (set_is_posting_comment true l) in
        let (newComment, w) := postComment id comment_text w in
        match newComment with
        | Some c =>
            (Some c, (set_is_posting_comment false (set_comment_input "" l), w))
        | None => (None, (set_is_posting_comment false l, w))
        end
  | _, _ =>
      (None, (l, Store.showNotification "Please log in to comment." info w))
  end.

(** The mutation function of [deleteCommentMutation]; [confirm] is the
    answer given to [window.confirm]. *)
Definition deleteCommentMutation (deleteComment : DeleteComment)
           (is_authenticated : bool) (confirm : bool) (comment_id : Z)
           (w : Store.World) : bool * Store.World :=
  if negb is_authenticated
  then (false, Store.showNotification "You must be logged in to delete comments."
                                      info w)
  else if negb confirm then (false, w)
  else deleteComment comment_id w.

(** [handleTagClick]: the store it leaves and the route it navigates to. *)
Definition handleTagClick (tag : string) (w : Store.World) : Store.World * string :=
  let w := Store.setFilters
             (FilterParams.mkPartial (Some [tag]) None None None None) w in
  let w := Store.setSearchQuery "" w in
  (w, "/browse").

(** The recipe with this id is in the list. *)
Definition has_recipe (recipe_id : Z) (l : list RecipeSummary.t) : bool :=
  existsb (fun r => RecipeSummary.recipe_id r =? recipe_id) l.

End UV_RecipeViewActions.
(** ** The saved-recipes view: its query *)

Module savedRecipesQuery.

(** [PaginatedSavedRecipesResponse]; [recipes] may be missing. *)
Record PaginatedSavedRecipesResponse : Type := mkResponse {
  recipes : option (list RecipeSummary.t);
  pagination : PaginationInfo.t
}.

(** The module-level [fetchSavedRecipes]: it throws without a token,
    otherwise its fate is that of the GET request. *)
Definition fetchSavedRecipes (accessToken : option string)
           (resp : Store.Outcome PaginatedSavedRecipesResponse)
  : Store.Outcome PaginatedSavedRecipesResponse :=
  if negb (Js.truthy_opt accessToken)
  then Store.Rejected (Store.AxiosError.mk None "User not authenticated")
  else resp.

Definition onSuccess (r : UV_UserSavedRecipes.Render)
           (data : PaginatedSavedRecipesResponse) : UV_UserSavedRecipes.Statement :=
  UV_UserSavedRecipes.andThen
    (UV_UserSavedRecipes.call
       "setSavedRecipes" (UV_UserSavedRecipes.setSavedRecipes r)
       (match recipes data with Some l => l | None => [] end))
    (UV_UserSavedRecipes.andThen
       (UV_UserSavedRecipes.call
          "setPaginationInfo" (UV_UserSavedRecipes.setPaginationInfo r)
          (pagination data))
       (UV_UserSavedRecipes.call
          "setSavedRecipesLoading" (UV_UserSavedRecipes.setSavedRecipesLoading r)
          false)).

Definition onError (r : UV_UserSavedRecipes.Render) (e : Store.AxiosError.t)
  : UV_UserSavedRecipes.Statement :=
  UV_UserSavedRecipes.andThen
    (UV_UserSavedRecipes.run
       (Store.showNotification
          (Js.or_str (Store.AxiosError.message e) "Could not load saved recipes.")
          error))
    (UV_UserSavedRecipes.andThen
       (UV_UserSavedRecipes.call
          "setSavedRecipes" (UV_UserSavedRecipes.setSavedRecipes r) [])
       (UV_UserSavedRecipes.andThen
          (UV_UserSavedRecipes.call
             "setPaginationInfo" (UV_UserSavedRecipes.setPaginationInfo r)
             (PaginationInfo.mk 0 0 1 10))
          (UV_UserSavedRecipes.call
             "setSavedRecipesLoading"
             (UV_UserSavedRecipes.setSavedRecipesLoading r) false))).

(** The query, run from the render [r], with the callback its outcome
    calls; it is disabled without a token. *)
Definition settle (r : UV_UserSavedRecipes.Render)
           (resp : Store.Outcome PaginatedSavedRecipesResponse)
  : UV_UserSavedRecipes.Statement :=
  if Js.truthy_opt (UV_UserSavedRecipes.accessToken r)
  then match fetchSavedRecipes (UV_UserSavedRecipes.accessToken r) resp with
       | Store.Resolved data => onSuccess r data
       | Store.Rejected e => onError r e
       end
  else UV_UserSavedRecipes.run (fun w => w).

End savedRecipesQuery.

(** ** The password-reset view ([UV_PasswordReset])

    A character of a string stands for one UTF-16 code unit below 256. *)

Module UV_PasswordReset.

Module PasswordResetData.
Record t : Type := mk {
  new_password : string;
  confirm_password : string
}.
End PasswordResetData.

Module FormErrors.
Record t : Type := mk {
  new_password : string;
  confirm_password : string;
  general : string
}.

Definition set_general (m : string) (e : t) : t :=
  mk (new_password e) (confirm_password e) m.
End FormErrors.

Definition MIN_PASSWORD_LENGTH : Z := 8.

Definition code (c : ascii) : N := N_of_ascii c.

(** [[a-z]], [[A-Z]], [\d] and [[@$!%*?&]]. *)
Definition lower (c : ascii) : bool := ((97 <=? code c) && (code c <=? 122))%N.
Definition upper (c : ascii) : bool := ((65 <=? code c) && (code c <=? 90))%N.
Definition digit (c : ascii) : bool := ((48 <=? code c) && (code c <=? 57))%N.
Definition special (c : ascii) : bool :=
  existsb (Ascii.eqb c) (list_ascii_of_string "@$!%*?&").

(** [[A-Za-z\d@$!%*?&]]. *)
Definition allowed (c : ascii) : bool :=
  upper c || lower c || digit c || special c.

(** What [.] does not match: line feed and carriage return. *)
Definition line_terminator (c : ascii) : bool :=
  ((code c =? 10) || (code c =? 13))%N.

(** [(?=.*[class])] at the start of [s]: a character of the class comes
    after characters that [.] matches. *)
Fixpoint ahead (class : ascii -> bool) (s : string) : bool :=
  match s with
  | EmptyString => false
  | String c s' => class c || (negb (line_terminator c) && ahead class s')
  end.

Fixpoint all (class : ascii -> bool) (s : string) : bool :=
  match s with
  | EmptyString => true
  | String c s' => class c && all class s'
  end.

(** [PASSWORD_REGEX.test(s)]: the four look-aheads, then eight or more
    allowed characters up to the end. *)
Definition PASSWORD_REGEX_test (s : string) : bool :=
  ahead lower s && ahead upper s && ahead digit s && ahead special s
  && all allowed s && (8 <=? Z.of_nat (String.length s)).

(** [validate_password_inputs]: the errors passed to [set_form_errors]
    and [isValid]. *)
Definition validate_password_inputs (data : PasswordResetData.t)
  : FormErrors.t * bool :=
  let new_password := PasswordResetData.new_password data in
  let confirm_password := PasswordResetData.confirm_password data in
  let (e_new, ok_new) :=
    if negb (Js.truthy new_password)
    then ("Password is required.", false)
    else if Z.of_nat (String.length new_password) <? MIN_PASSWORD_LENGTH
    then (("Password must be at least " ++ Js.String_of MIN_PASSWORD_LENGTH
           ++ " characters long.")%string, false)
    else if negb (PASSWORD_REGEX_test new_password)
    then ("Password must contain uppercase, lowercase, number, and special character.",
          false)
    else ("", true) in
  let (e_confirm, ok_confirm) :=
    if negb (Js.truthy confirm_password)
    then ("Password confirmation is required.", false)
    else if negb (String.eqb new_password confirm_password)
    then ("Passwords do not match.", false)
    else ("", true) in
  (FormErrors.mk e_new e_confirm "", ok_new && ok_confirm).

Record View : Type := mkView {
  password_reset_data : PasswordResetData.t;
  form_errors : FormErrors.t;
  is_token_valid : bool
}.

(** The body [resetPasswordApi] posts to [/auth/reset-password]. *)
Record Request : Type := mkRequest {
  reset_token : string;
  new_password : string;
  confirm_password : string
}.

Definition resetPasswordApi (reset_token new_password : string) : Request :=
  mkRequest reset_token new_password new_password.

(** [handle_submit]: the new view and the request of the mutation when it
    is started; [reset_token] is the URL's parameter. *)
Definition handle_submit (reset_token : option string) (v : View)
  : View * option Request :=
  match reset_token with
  | Some token =>
      if Js.truthy token
      then
        let (errors, is_form_valid) :=
          validate_password_inputs (password_reset_data v) in
        let v' := mkView (password_reset_data v) errors (is_token_valid v) in
        if is_form_valid && is_token_valid v
        then (v', Some (resetPasswordApi
                          token
                          (PasswordResetData.new_password (password_reset_data v))))
        else (v', None)
      else (mkView (password_reset_data v)
                   (FormErrors.set_general "Invalid request: Missing reset token."
                                           (form_errors v))
                   false, None)
  | None =>
      (mkView (password_reset_data v)
              (FormErrors.set_general "Invalid request: Missing reset token."
                                      (form_errors v))
              false, None)
  end.

(** A character of the class occurs in [s]. *)
Fixpoint occurs (class : ascii -> bool) (s : string) : bool :=
  match s with
  | EmptyString => false
  | String c s' => class c || occurs class s'
  end.

End UV_PasswordReset.
(** ** The database: foreign keys and cascades

    The eight tables of the schema with their key columns.  Of
    [ingredients], [comments] and [saved_recipes] the serial key is left
    out, no table referring to it. *)

Module Database.

Module users.
Record row : Type := mkRow {
  user_id : Z;
  username : string;
  email : string
}.
End users.

Module recipes.
Record row : Type := mkRow {
  recipe_id : Z;
  user_id : Z;
  title : string
}.
End recipes.

Module ingredients.
Record row : Type := mkRow {
  recipe_id : Z;
  name : string;
  order : Z
}.
End ingredients.

Module recipe_tags.
Record row : Type := mkRow {
  recipe_id : Z;
  tag_name : string
}.
End recipe_tags.

Module comments.
Record row : Type := mkRow {
  recipe_id : Z;
  user_id : Z;
  comment_text : string
}.
End comments.

Module saved_recipes.
Record row : Type := mkRow {
  user_id : Z;
  recipe_id : Z
}.
End saved_recipes.

(** The tables, and the sequences behind [user_id SERIAL] and
    [recipe_id SERIAL]. *)
Record t : Type := mk {
  users_rows : list users.row;
  users_seq : Z;
  recipes_rows : list recipes.row;
  recipes_seq : Z;
  ingredients_rows : list ingredients.row;
  instructions_table : Schema.instructions.t;
  recipe_tags_rows : list recipe_tags.row;
  ratings_table : Schema.ratings.t;
  comments_rows : list comments.row;
  saved_recipes_rows : list saved_recipes.row
}.

Definition empty : t :=
  mk [] 1 [] 1 [] (Schema.instructions.mk [] 1) [] Schema.ratings.empty [] [].

(** [REFERENCES users(user_id)] and [REFERENCES recipes(recipe_id)]: the
    row referred to exists. *)
Definition has_user (user_id : Z) (db : t) : bool :=
  existsb (fun u => users.user_id u =? user_id) (users_rows db).

Definition has_recipe (recipe_id : Z) (db : t) : bool :=
  existsb (fun r => recipes.recipe_id r =? recipe_id) (recipes_rows db).

(** [username ... UNIQUE] and [email ... UNIQUE]. *)
Definition username_taken (username : string) (db : t) : bool :=
  existsb (fun u => String.eqb (users.username u) username) (users_rows db).

Definition email_taken (email : string) (db : t) : bool :=
  existsb (fun u => String.eqb (users.email u) email) (users_rows db).

(** [PRIMARY KEY (recipe_id, tag_name)]. *)
Definition tagged (recipe_id : Z) (tag_name : string) (db : t) : bool :=
  existsb (fun r => (recipe_tags.recipe_id r =? recipe_id)
                    && String.eqb (recipe_tags.tag_name r) tag_name)
          (recipe_tags_rows db).

(** [UNIQUE (user_id, recipe_id)] of [saved_recipes]. *)
Definition saved (user_id recipe_id : Z) (db : t) : bool :=
  existsb (fun r => (saved_recipes.user_id r =? user_id)
                    && (saved_recipes.recipe_id r =? recipe_id))
          (saved_recipes_rows db).

(** A refused insert still advances the sequence of its table. *)
Definition insert_user (username email : string) (db : t) : bool * t :=
  if negb (username_taken username db) && negb (email_taken email db)
  then (true,
        mk (users_rows db ++ [users.mkRow (users_seq db) username email])
           (users_seq db + 1) (recipes_rows db) (recipes_seq db)
           (ingredients_rows db) (instructions_table db) (recipe_tags_rows db)
           (ratings_table db) (comments_rows db) (saved_recipes_rows db))
  else (false,
        mk (users_rows db) (users_seq db + 1) (recipes_rows db) (recipes_seq db)
           (ingredients_rows db) (instructions_table db) (recipe_tags_rows db)
           (ratings_table db) (comments_rows db) (saved_recipes_rows db)).

Definition insert_recipe (user_id : Z) (title : string) (db : t) : bool * t :=
  if has_user user_id db
  then (true,
        mk (users_rows db) (users_seq db)
           (recipes_rows db ++ [recipes.mkRow (recipes_seq db) user_id title])
           (recipes_seq db + 1)
           (ingredients_rows db) (instructions_table db) (recipe_tags_rows db)
           (ratings_table db) (comments_rows db) (saved_recipes_rows db))
  else (false,
        mk (users_rows db) (users_seq db) (recipes_rows db) (recipes_seq db + 1)
           (ingredients_rows db) (instructions_table db) (recipe_tags_rows db)
           (ratings_table db) (comments_rows db) (saved_recipes_rows db)).

Definition insert_ingredient (recipe_id : Z) (name : string) (order : Z) (db : t)
  : bool * t :=
  if has_recipe recipe_id db
  then (true,
        mk (users_rows db) (users_seq db) (recipes_rows db) (recipes_seq db)
           (ingredients_rows db ++ [ingredients.mkRow recipe_id name order])
           (instructions_table db) (recipe_tags_rows db)
           (ratings_table db) (comments_rows db) (saved_recipes_rows db))
  else (false, db).

Definition insert_instruction (recipe_id step_number : Z) (description : string)
           (db : t) : bool * t :=
  let (ok, tb) :=
    if has_recipe recipe_id db
    then Schema.instructions.insert recipe_id step_number description
                                    (instructions_table db)
    else (false,
          Schema.instructions.mk
            (Schema.instructions.rows (instructions_table db))
            (Schema.instructions.next_id (instructions_table db) + 1)) in
  (ok,
   mk (users_rows db) (users_seq db) (recipes_rows db) (recipes_seq db)
      (ingredients_rows db) tb (recipe_tags_rows db)
      (ratings_table db) (comments_rows db) (saved_recipes_rows db)).

Definition insert_tag (recipe_id : Z) (tag_name : string) (db : t) : bool * t :=
  if has_recipe recipe_id db && negb (tagged recipe_id tag_name db)
  then (true,
        mk (users_rows db) (users_seq db) (recipes_rows db) (recipes_seq db)
           (ingredients_rows db) (instructions_table db)
           (recipe_tags_rows db ++ [recipe_tags.mkRow recipe_id tag_name])
           (ratings_table db) (comments_rows db) (saved_recipes_rows db))
  else (false, db).

Definition insert_rating (recipe_id user_id rating : Z) (db : t) : bool * t :=
  let (ok, tb) :=
    if has_recipe recipe_id db && has_user user_id db
    then Schema.ratings.insert recipe_id user_id rating (ratings_table db)
    else (false,
          Schema.ratings.mk (Schema.ratings.rows (ratings_table db))
                            (Schema.ratings.next_id (ratings_table db) + 1)) in
  (ok,
   mk (users_rows db) (users_seq db) (recipes_rows db) (recipes_seq db)
      (ingredients_rows db) (instructions_table db) (recipe_tags_rows db)
      tb (comments_rows db) (saved_recipes_rows db)).

Definition insert_comment (recipe_id user_id : Z) (comment_text : string) (db : t)
  : bool * t :=
  if has_recipe recipe_id db && has_user user_id db
  then (true,
        mk (users_rows db) (users_seq db) (recipes_rows db) (recipes_seq db)
           (ingredients_rows db) (instructions_table db) (recipe_tags_rows db)
           (ratings_table db)
           (comments_rows db ++ [comments.mkRow recipe_id user_id comment_text])
           (saved_recipes_rows db))
  else (false, db).

Definition insert_saved (user_id recipe_id : Z) (db : t) : bool * t :=
  if has_user user_id db && has_recipe recipe_id db
     && negb (saved user_id recipe_id db)
  then (true,
        mk (users_rows db) (users_seq db) (recipes_rows db) (recipes_seq db)
           (ingredients_rows db) (instructions_table db) (recipe_tags_rows db)
           (ratings_table db) (comments_rows db)
           (saved_recipes_rows db ++ [saved_recipes.mkRow user_id recipe_id]))
  else (false, db).

(** [DELETE FROM saved_recipes WHERE user_id = ... AND recipe_id = ...]. *)
Definition delete_saved (user_id recipe_id : Z) (db : t) : t :=
  mk (users_rows db) (users_seq db) (recipes_rows db) (recipes_seq db)
     (ingredients_rows db) (instructions_table db) (recipe_tags_rows db)
     (ratings_table db) (comments_rows db)
     (filter (fun r => negb ((saved_recipes.user_id r =? user_id)
                             && (saved_recipes.recipe_id r =? recipe_id)))
             (saved_recipes_rows db)).

(** The recipe is one of those being deleted. *)
Definition among (gone : list Z) (recipe_id : Z) : bool :=
  existsb (Z.eqb recipe_id) gone.

(** The rows that go with the recipes [gone], by [ON DELETE CASCADE]. *)
Definition cascade_recipes (gone : list Z) (db : t) : t :=
  mk (users_rows db) (users_seq db)
     (filter (fun r => negb (among gone (recipes.recipe_id r))) (recipes_rows db))
     (recipes_seq db)
     (filter (fun r => negb (among gone (ingredients.recipe_id r)))
             (ingredients_rows db))
     (Schema.instructions.mk
        (filter (fun r => negb (among gone (Schema.instructions.recipe_id r)))
                (Schema.instructions.rows (instructions_table db)))
        (Schema.instructions.next_id (instructions_table db)))
     (filter (fun r => negb (among gone (recipe_tags.recipe_id r)))
             (recipe_tags_rows db))
     (Schema.ratings.mk
        (filter (fun r => negb (among gone (Schema.ratings.recipe_id r)))
                (Schema.ratings.rows (ratings_table db)))
        (Schema.ratings.next_id (ratings_table db)))
     (filter (fun r => negb (among gone (comments.recipe_id r))) (comments_rows db))
     (filter (fun r => negb (among gone (saved_recipes.recipe_id r)))
             (saved_recipes_rows db)).

(** [DELETE FROM recipes WHERE recipe_id = ...]. *)
Definition delete_recipe (recipe_id : Z) (db : t) : t :=
  cascade_recipes [recipe_id] db.

(** The recipes of a user. *)
Definition recipes_of (user_id : Z) (db : t) : list Z :=
  map recipes.recipe_id
      (filter (fun r => recipes.user_id r =? user_id) (recipes_rows db)).

(** [DELETE FROM users WHERE user_id = ...]: the user's recipes go, with
    what refers to them, and so do the user's ratings, comments and saved
    recipes. *)
Definition delete_user (user_id : Z) (db : t) : t :=
  let db := cascade_recipes (recipes_of user_id db) db in
  mk (filter (fun u => negb (users.user_id u =? user_id)) (users_rows db))
     (users_seq db) (recipes_rows db) (recipes_seq db)
     (ingredients_rows db) (instructions_table db) (recipe_tags_rows db)
     (Schema.ratings.cascade_user user_id (ratings_table db))
     (filter (fun r => negb (comments.user_id r =? user_id)) (comments_rows db))
     (filter (fun r => negb (saved_recipes.user_id r =? user_id))
             (saved_recipes_rows db)).

Inductive statement : Type :=
| InsertUser (username email : string)
| InsertRecipe (user_id : Z) (title : string)
| InsertIngredient (recipe_id : Z) (name : string) (order : Z)
| InsertInstruction (recipe_id step_number : Z) (description : string)
| InsertTag (recipe_id : Z) (tag_name : string)
| InsertRating (recipe_id user_id rating : Z)
| InsertComment (recipe_id user_id : Z) (comment_text : string)
| InsertSaved (user_id recipe_id : Z)
| DeleteSaved (user_id recipe_id : Z)
| DeleteRecipe (recipe_id : Z)
| DeleteUser (user_id : Z).

Definition exec (st : statement) (db : t) : t :=
  match st with
  | InsertUser n e => snd (insert_user n e db)
  | InsertRecipe u title => snd (insert_recipe u title db)
  | InsertIngredient r n o => snd (insert_ingredient r n o db)
  | InsertInstruction r n d => snd (insert_instruction r n d db)
  | InsertTag r tag => snd (insert_tag r tag db)
  | InsertRating r u v => snd (insert_rating r u v db)
  | InsertComment r u text => snd (insert_comment r u text db)
  | InsertSaved u r => snd (insert_saved u r db)
  | DeleteSaved u r => delete_saved u r db
  | DeleteRecipe r => delete_recipe r db
  | DeleteUser u => delete_user u db
  end.

Definition run (sts : list statement) (db : t) : t :=
  fold_left (fun db st => exec st db) sts db.

Definition user_ids (db : t) : list Z := map users.user_id (users_rows db).
Definition recipe_ids (db : t) : list Z := map recipes.recipe_id (recipes_rows db).

(** Every foreign key refers to a stored row. *)
Definition references_hold (db : t) : Prop :=
  Forall (fun r => In (recipes.user_id r) (user_ids db)) (recipes_rows db)
  /\ Forall (fun r => In (ingredients.recipe_id r) (recipe_ids db))
            (ingredients_rows db)
  /\ Forall (fun r => In (Schema.instructions.recipe_id r) (recipe_ids db))
            (Schema.instructions.rows (instructions_table db))
  /\ Forall (fun r => In (recipe_tags.recipe_id r) (recipe_ids db))
            (recipe_tags_rows db)
  /\ Forall (fun r => In (Schema.ratings.recipe_id r) (recipe_ids db)
                      /\ In (Schema.ratings.user_id r) (user_ids db))
            (Schema.ratings.rows (ratings_table db))
  /\ Forall (fun r => In (comments.recipe_id r) (recipe_ids db)
                      /\ In (comments.user_id r) (user_ids db))
            (comments_rows db)
  /\ Forall (fun r => In (saved_recipes.recipe_id r) (recipe_ids db)
                      /\ In (saved_recipes.user_id r) (user_ids db))
            (saved_recipes_rows db).

(** The keys of [users] and [recipes] are distinct and below their
    sequences; user names, e-mail addresses, the tags of a recipe and the
    saved recipes of a user are distinct. *)
Definition keys_distinct (db : t) : Prop :=
  NoDup (user_ids db)
  /\ Forall (fun u => users.user_id u < users_seq db) (users_rows db)
  /\ NoDup (map users.username (users_rows db))
  /\ NoDup (map users.email (users_rows db))
  /\ NoDup (recipe_ids db)
  /\ Forall (fun r => recipes.recipe_id r < recipes_seq db) (recipes_rows db)
  /\ NoDup (map (fun r => (recipe_tags.recipe_id r, recipe_tags.tag_name r))
                (recipe_tags_rows db))
  /\ NoDup (map (fun r => (saved_recipes.user_id r, saved_recipes.recipe_id r))
                (saved_recipes_rows db)).

(** No row of any table mentions the user. *)
Definition user_gone (user_id : Z) (db : t) : Prop :=
  ~ In user_id (user_ids db)
  /\ (forall r, In r (recipes_rows db) -> recipes.user_id r <> user_id)
  /\ (forall r, In r (Schema.ratings.rows (ratings_table db)) ->
                Schema.ratings.user_id r <> user_id)
  /\ (forall r, In r (comments_rows db) -> comments.user_id r <> user_id)
  /\ (forall r, In r (saved_recipes_rows db) -> saved_recipes.user_id r <> user_id).

(** No row of any table mentions the recipe. *)
Definition recipe_gone (recipe_id : Z) (db : t) : Prop :=
  ~ In recipe_id (recipe_ids db)
  /\ (forall r, In r (ingredients_rows db) -> ingredients.recipe_id r <> recipe_id)
  /\ (forall r, In r (Schema.instructions.rows (instructions_table db)) ->
                Schema.instructions.recipe_id r <> recipe_id)
  /\ (forall r, In r (recipe_tags_rows db) -> recipe_tags.recipe_id r <> recipe_id)
  /\ (forall r, In r (Schema.ratings.rows (ratings_table db)) ->
                Schema.ratings.recipe_id r <> recipe_id)
  /\ (forall r, In r (comments_rows db) -> comments.recipe_id r <> recipe_id)
  /\ (forall r, In r (saved_recipes_rows db) -> saved_recipes.recipe_id r <> recipe_id).

End Database.

(** A reference that held still holds when rows are added to the table
    referred to. *)
Ltac still_refers H :=
  eapply Forall_impl; [|exact H]; simpl; intros;
  unfold Database.user_ids, Database.recipe_ids in *; simpl;
  rewrite ?map_app, ?in_app_iff; tauto.
(** ** More sample data *)

Module Examples.

(** A store in which nobody is signed in. *)
Definition signed_out : Store.World := Store.mkWorld Store.initial 0 [].

Definition sarah : UserSummary.t := UserSummary.mk 2 "sarah_cook" None.

Definition first_comment : RecipeComment.t :=
  RecipeComment.mk 11 sarah "Great after a long run." "2024-01-16T09:00:00Z".

Definition new_comment : RecipeComment.t :=
  RecipeComment.mk 12 Samples.alex "Added more ginger." "2024-02-01T18:30:00Z".

(** The recipe on display: the stir-fry, rated four times. *)
Definition stir_fry_details : RecipeDetail.t :=
  RecipeDetail.mk 1 "Keto Chicken Stir-Fry" "A quick stir-fry." "" 15 20 4 Easy
                  None None None None (Some (9 # 2)) 4 Samples.alex ["Low Carb"]
                  [] [] [first_comment] None.

Definition world_with_recipe : Store.World :=
  Store.upd (Store.set_current_recipe_details (Some stir_fry_details))
            Samples.world.

Definition error_500 : Store.AxiosError.t :=
  Store.AxiosError.mk (Some (Store.ErrorResponse.mk 500 (Some "Database unavailable")))
                      "Request failed with status code 500".

Definition alex_profile : UserProfile.t :=
  UserProfile.mk 1 "alex_runner" None "alex.runner@example.com" (Some "Alex")
                 (Some "Johnson").

(** A form that the validation accepts. *)
Definition complete_form : UV_SubmitRecipe.RecipeFormData.t :=
  UV_SubmitRecipe.RecipeFormData.mk
    "Avocado Egg Salad" "Creamy avocado egg salad." None
    (Some "https://example.com/a.png")
    (UV_SubmitRecipe.Num 10) (UV_SubmitRecipe.Num 5) (UV_SubmitRecipe.Num 2)
    Easy UV_SubmitRecipe.Empty UV_SubmitRecipe.Empty UV_SubmitRecipe.Empty None
    [UV_SubmitRecipe.FormIngredient.mk None (UV_SubmitRecipe.Num 6) None "Eggs"]
    [Samples.step 1 "Boil the eggs."; Samples.step 2 "Mash the avocado.";
     Samples.step 3 "Mix."]
    ["Lunch"].

Definition complete_view : UV_SubmitRecipe.View :=
  UV_SubmitRecipe.mkView complete_form
                         (UV_SubmitRecipe.FormErrors.only_form "Network Error")
                         false false None.

Definition photo : UV_SubmitRecipe.File.t :=
  UV_SubmitRecipe.File.mk "image/png" 204800.

Definition document : UV_SubmitRecipe.File.t :=
  UV_SubmitRecipe.File.mk "application/pdf" 204800.

Definition recipe_view : UV_RecipeView.RecipeViewLocalState :=
  UV_RecipeView.mkLocal (Some stir_fry_details) None "Added more ginger." true
                        true false false false None None.

Definition good_passwords : UV_PasswordReset.PasswordResetData.t :=
  UV_PasswordReset.PasswordResetData.mk "Str0ng!Pass" "Str0ng!Pass".

Definition password_view : UV_PasswordReset.View :=
  UV_PasswordReset.mkView good_passwords
                          (UV_PasswordReset.FormErrors.mk "" "" "") true.

(** Two users, a recipe of the first with a step, a tag, a rating, a
    comment and a save by the second. *)
Definition statements : list Database.statement :=
  [ Database.InsertUser "alex_runner" "alex.runner@example.com";
    Database.InsertUser "sarah_cook" "sarah.cook@example.com";
    Database.InsertRecipe 1 "Keto Chicken Stir-Fry";
    Database.InsertInstruction 1 1 "Slice the chicken.";
    Database.InsertTag 1 "Low Carb";
    Database.InsertRating 1 2 5;
    Database.InsertComment 1 2 "Great after a long run.";
    Database.InsertSaved 2 1 ].

End Examples.

(** * Properties *)

(** ** White space and [trim] *)

Lemma trimStart_blank (s : string) :
  Js.only_white_space s = true -> Js.trimStart s = "".
Proof.
  induction s as [|c s IH]; simpl; intros H.
  - reflexivity.
  - apply andb_true_iff in H as [Hc Hs]. rewrite Hc. auto.
Qed.

Lemma only_white_space_trimStart (s : string) :
  Js.only_white_space (Js.trimStart s) = Js.only_white_space s.
Proof.
  induction s as [|c s IH]; simpl.
  - reflexivity.
  - destruct (Js.is_white_space c) eqn:Hc; simpl.
    + exact IH.
    + rewrite Hc. reflexivity.
Qed.

Lemma trimEnd_empty_iff (s : string) :
  Js.trimEnd s = "" <-> Js.only_white_space s = true.
Proof.
  induction s as [|c s IH]; simpl.
  - split; reflexivity.
  - destruct (Js.trimEnd s) eqn:Ht.
    + destruct (Js.is_white_space c); simpl.
      * split; intros _; [apply IH|]; reflexivity.
      * split; discriminate.
    + split; [discriminate|].
      intros H. apply andb_true_iff in H as [_ Hs].
      apply IH in Hs. discriminate.
Qed.

(** [!s.trim()] holds exactly for the strings made of white space only. *)
Lemma trim_blank_iff (s : string) :
  Js.truthy (Js.trim s) = false <-> Js.only_white_space s = true.
Proof.
  unfold Js.trim.
  rewrite <- (only_white_space_trimStart s), <- trimEnd_empty_iff.
  destruct (Js.trimEnd (Js.trimStart s)); simpl; split; congruence.
Qed.

Example trim_example : Js.trim "  Keto  Pizza  " = "Keto  Pizza".
Proof. reflexivity. Qed.

Example String_of_example :
  Js.String_of 1205 = "1205" /\ Js.String_of 0 = "0" /\ Js.String_of (-37) = "-37".
Proof. repeat split. Qed.

(** ** Validation of the recipe form *)

Lemma check_keeps_title (cond : bool)
      (assign : UV_SubmitRecipe.FormErrors.t -> UV_SubmitRecipe.FormErrors.t)
      (st : UV_SubmitRecipe.FormErrors.t * bool) (msg : option string) :
  (forall e, UV_SubmitRecipe.FormErrors.title (assign e)
             = UV_SubmitRecipe.FormErrors.title e) ->
  UV_SubmitRecipe.FormErrors.title (fst st) = msg /\ snd st = false ->
  UV_SubmitRecipe.FormErrors.title (fst (UV_SubmitRecipe.check cond assign st)) = msg
  /\ snd (UV_SubmitRecipe.check cond assign st) = false.
Proof.
  intros Hassign [Ht Hv]. unfold UV_SubmitRecipe.check.
  destruct cond; simpl; [rewrite Hassign|]; auto.
Qed.

Lemma validate_blank_title (d : UV_SubmitRecipe.RecipeFormData.t) :
  Js.only_white_space (UV_SubmitRecipe.RecipeFormData.title d) = true ->
  UV_SubmitRecipe.FormErrors.title (fst (UV_SubmitRecipe.validate_recipe_form d))
  = Some "Recipe title is required."
  /\ snd (UV_SubmitRecipe.validate_recipe_form d) = false.
Proof.
  intros Hblank. apply trim_blank_iff in Hblank.
  unfold UV_SubmitRecipe.validate_recipe_form.
  repeat (apply check_keeps_title; [intros e; reflexivity|]).
  unfold UV_SubmitRecipe.check. rewrite Hblank. simpl. split; reflexivity.
Qed.

(** As the component is written, validation reads the form of the first
    render, whose title is empty: no submission passes it. *)
Lemma handle_recipe_submit_memoised (v : UV_SubmitRecipe.View) :
  snd (UV_SubmitRecipe.handle_recipe_submit UV_SubmitRecipe.validation_closure v)
  = None.
Proof.
  unfold UV_SubmitRecipe.handle_recipe_submit.
  destruct (validate_blank_title UV_SubmitRecipe.validation_closure eq_refl)
    as [_ Hinvalid].
  destruct (UV_SubmitRecipe.validate_recipe_form
              UV_SubmitRecipe.validation_closure) as [errors isValid].
  simpl in Hinvalid. subst isValid. reflexivity.
Qed.

(** C3. When the form is submitted while its title field is empty or holds
    white space only, validation sets the title error to
    "Recipe title is required." and reports the form invalid, and the
    submission mutation is not started; the form data itself is left as it
    was.  [closure] is the [recipe_form_data] that [validate_recipe_form]
    reads, be it the form as submitted or, the callback being memoised with
    no dependency, the form of the first render. *)
Theorem C3_blank_title_blocks_submission
        (v : UV_SubmitRecipe.View) (closure : UV_SubmitRecipe.RecipeFormData.t) :
  Js.only_white_space
    (UV_SubmitRecipe.RecipeFormData.title (UV_SubmitRecipe.recipe_form_data v))
  = true ->
  closure = UV_SubmitRecipe.recipe_form_data v
  \/ closure = UV_SubmitRecipe.validation_closure ->
  let (errors, isValid) := UV_SubmitRecipe.validate_recipe_form closure in
  let (v', started) := UV_SubmitRecipe.handle_recipe_submit closure v in
  UV_SubmitRecipe.FormErrors.title errors = Some "Recipe title is required."
  /\ isValid = false
  /\ UV_SubmitRecipe.form_errors v' = errors
  /\ started = None
  /\ UV_SubmitRecipe.recipe_form_data v' = UV_SubmitRecipe.recipe_form_data v.
Proof.
  intros Hblank Hclosure.
  assert (Hseen : Js.only_white_space
                    (UV_SubmitRecipe.RecipeFormData.title closure) = true).
  { destruct Hclosure; subst closure; [exact Hblank|reflexivity]. }
  destruct (validate_blank_title closure Hseen) as [Ht Hv].
  unfold UV_SubmitRecipe.handle_recipe_submit.
  destruct (UV_SubmitRecipe.validate_recipe_form closure) as [errors isValid].
  simpl in Ht, Hv. subst isValid. simpl. auto.
Qed.

(** ** Step numbers of a submitted recipe *)

Lemma payload_instructions_mutationFn
      (v : UV_SubmitRecipe.View) (formData : UV_SubmitRecipe.RecipeFormData.t) :
  UV_SubmitRecipe.payload_instructions (UV_SubmitRecipe.mutationFn v formData)
  = UV_SubmitRecipe.map_index UV_SubmitRecipe.renumber 0
      (UV_SubmitRecipe.RecipeFormData.instructions formData).
Proof.
  assert (Hbody : UV_SubmitRecipe.body (UV_SubmitRecipe.mutationFn v formData)
                  = UV_SubmitRecipe.dataForApi formData).
  { unfold UV_SubmitRecipe.mutationFn.
    destruct (UV_SubmitRecipe.is_editing v);
      destruct (UV_SubmitRecipe.current_recipe_id v) as [id|];
      try destruct (id =? 0); reflexivity. }
  assert (Hreq : forall k x,
             UV_SubmitRecipe.instructions_of_entry
               (k, UV_SubmitRecipe.required_number x) = []).
  { intros k []; reflexivity. }
  assert (Hopt : forall k x,
             UV_SubmitRecipe.instructions_of_entry
               (k, UV_SubmitRecipe.optional_number x) = []).
  { intros k []; reflexivity. }
  unfold UV_SubmitRecipe.payload_instructions. rewrite Hbody.
  unfold UV_SubmitRecipe.dataForApi.
  rewrite flat_map_app. cbn [flat_map]. rewrite !Hreq, !Hopt.
  destruct (UV_SubmitRecipe.RecipeFormData.cover_photo_file formData);
    simpl; rewrite ?app_nil_r; reflexivity.
Qed.

Lemma step_numbers_map_index (l : list UV_SubmitRecipe.FormInstruction.t) (i : Z) :
  map UV_SubmitRecipe.FormInstruction.step_number
      (UV_SubmitRecipe.map_index UV_SubmitRecipe.renumber i l)
  = map (fun k => i + Z.of_nat k) (seq 1 (List.length l)).
Proof.
  revert i. induction l as [|x l IH]; intros i; simpl.
  - reflexivity.
  - f_equal. rewrite IH, <- (seq_shift (List.length l) 1), map_map.
    apply map_ext. intros k. lia.
Qed.

Lemma descriptions_map_index (l : list UV_SubmitRecipe.FormInstruction.t) (i : Z) :
  map UV_SubmitRecipe.FormInstruction.description
      (UV_SubmitRecipe.map_index UV_SubmitRecipe.renumber i l)
  = map UV_SubmitRecipe.FormInstruction.description l.
Proof.
  revert i. induction l as [|x l IH]; intros i; simpl; [|rewrite IH]; reflexivity.
Qed.

Lemma insert_all_renumbered (r : Z) (l : list UV_SubmitRecipe.FormInstruction.t) :
  forall (i : Z) (tb : Schema.instructions.t),
    (forall row, In row (Schema.instructions.rows tb) ->
                 Schema.instructions.recipe_id row = r ->
                 Schema.instructions.step_number row <= i) ->
    fst (Schema.instructions.insert_all r
           (UV_SubmitRecipe.instruction_rows
              (UV_SubmitRecipe.map_index UV_SubmitRecipe.renumber i l))
           tb) = true.
Proof.
  induction l as [|x l IH]; intros i tb Hle; simpl.
  - reflexivity.
  - unfold Schema.instructions.insert.
    assert (Hu : Schema.instructions.unique r (i + 1) (Schema.instructions.rows tb)
                 = true).
    { unfold Schema.instructions.unique. apply negb_true_iff.
      apply not_true_is_false. intros Hex.
      apply existsb_exists in Hex as [row [Hin Hrow]].
      apply andb_true_iff in Hrow as [Hr Hs].
      apply Z.eqb_eq in Hr, Hs. specialize (Hle row Hin Hr). lia. }
    rewrite Hu. apply IH. simpl. intros row Hin Hr.
    apply in_app_or in Hin as [Hin|[Heq|[]]].
    + specialize (Hle row Hin Hr). lia.
    + subst row. simpl. lia.
Qed.

(** C6. The instructions of every request built by the submission mutation
    are the form's instructions, in order, with step numbers 1, 2, ..., n:
    the numbers are pairwise distinct, so are the pairs they form with the
    recipe's id, and the rows are all accepted by the instructions table
    under [UNIQUE (recipe_id, step_number)] when the recipe has no
    instruction stored yet. *)
Theorem C6_step_numbers_are_positions
        (v : UV_SubmitRecipe.View) (formData : UV_SubmitRecipe.RecipeFormData.t) :
  let sent := UV_SubmitRecipe.payload_instructions
                (UV_SubmitRecipe.mutationFn v formData) in
  let n := List.length (UV_SubmitRecipe.RecipeFormData.instructions formData) in
  map UV_SubmitRecipe.FormInstruction.step_number sent
  = map Z.of_nat (seq 1 n)
  /\ map UV_SubmitRecipe.FormInstruction.description sent
     = map UV_SubmitRecipe.FormInstruction.description
           (UV_SubmitRecipe.RecipeFormData.instructions formData)
  /\ NoDup (map UV_SubmitRecipe.FormInstruction.step_number sent)
  /\ (forall recipe_id : Z,
         NoDup (map (fun inst =>
                       (recipe_id, UV_SubmitRecipe.FormInstruction.step_number inst))
                    sent))
  /\ forall (recipe_id : Z) (tb : Schema.instructions.t),
       (forall row, In row (Schema.instructions.rows tb) ->
                    Schema.instructions.recipe_id row <> recipe_id) ->
       fst (Schema.instructions.insert_all
              recipe_id (UV_SubmitRecipe.instruction_rows sent) tb)
       = true.
Proof.
  intros sent n. subst sent n. rewrite payload_instructions_mutationFn.
  assert (Hsteps :
            map UV_SubmitRecipe.FormInstruction.step_number
                (UV_SubmitRecipe.map_index UV_SubmitRecipe.renumber 0
                   (UV_SubmitRecipe.RecipeFormData.instructions formData))
            = map Z.of_nat
                  (seq 1 (List.length (UV_SubmitRecipe.RecipeFormData.instructions
                                    formData)))).
  { rewrite step_numbers_map_index. apply map_ext. intros k. lia. }
  split; [exact Hsteps|].
  split; [apply descriptions_map_index|].
  assert (Hdistinct :
            NoDup (map UV_SubmitRecipe.FormInstruction.step_number
                       (UV_SubmitRecipe.map_index UV_SubmitRecipe.renumber 0
                          (UV_SubmitRecipe.RecipeFormData.instructions formData)))).
  { rewrite Hsteps. apply NoDup_map_NoDup_ForallPairs.
    - intros a b _ _ Hab. lia.
    - apply seq_NoDup. }
  split; [exact Hdistinct|]. split.
  - intros recipe_id. rewrite <- (map_map _ (pair recipe_id)).
    apply NoDup_map_NoDup_ForallPairs; [|exact Hdistinct].
    intros a b _ _ Hab. congruence.
  - intros recipe_id tb Hnew. apply insert_all_renumbered.
    intros row Hin Hr. exfalso. exact (Hnew row Hin Hr).
Qed.

(** ** The store: logout *)

(** C8 (as amended). [logout] sets [is_authenticated] to false,
    [access_token], [user_profile_summary] and [current_user_profile] to
    null, [saved_recipes] to the empty list, [auth_error] to null and
    [loading_auth] to false; every other field of the store, the clock and
    the pending timers keep their values. *)
Theorem C8_logout_frame (w : Store.World) :
  let s := Store.store w in
  let s' := Store.store (Store.logout w) in
  (Store.is_authenticated s' = false
   /\ Store.access_token s' = None
   /\ Store.user_profile_summary s' = None
   /\ Store.current_user_profile s' = None
   /\ Store.saved_recipes s' = []
   /\ Store.auth_error s' = None
   /\ Store.loading_auth s' = false)
  /\ (Store.paginated_recipes s' = Store.paginated_recipes s
      /\ Store.current_recipe_details s' = Store.current_recipe_details s
      /\ Store.recipe_fetch_error s' = Store.recipe_fetch_error s
      /\ Store.recipe_loading s' = Store.recipe_loading s
      /\ Store.filter_params s' = Store.filter_params s
      /\ Store.sort_order s' = Store.sort_order s
      /\ Store.search_query s' = Store.search_query s
      /\ Store.saved_recipes_loading s' = Store.saved_recipes_loading s
      /\ Store.profile_fetch_error s' = Store.profile_fetch_error s
      /\ Store.public_user_profile s' = Store.public_user_profile s
      /\ Store.modal_open s' = Store.modal_open s
      /\ Store.notification s' = Store.notification s)
  /\ Store.now (Store.logout w) = Store.now w
  /\ Store.timers (Store.logout w) = Store.timers w.
Proof.
  simpl. repeat split.
Qed.

(** C8 as stated before amendment: [loading_auth] is not among the fields
    it lists, yet [logout] changes it when a profile load is in flight. *)
Lemma C8_loading_auth_changes :
  Store.loading_auth (Store.store Samples.world_loading) = true
  /\ Store.loading_auth (Store.store (Store.logout Samples.world_loading)) = false
  /\ Store.loading_auth (Store.store (Store.logout Samples.world_loading))
     <> Store.loading_auth (Store.store Samples.world_loading).
Proof.
  repeat split. discriminate.
Qed.

(** ** The store: failed mutations *)

(** The three cases of [error.response?.data?.error || error.message ||
    fallback]. *)
Lemma errorMessage_cases (e : Store.AxiosError.t) (fallback : string) :
  (forall s, Store.AxiosError.response_data_error e = Some s -> s <> "" ->
             Store.errorMessage e fallback = s)
  /\ (Store.AxiosError.response_data_error e = None
      \/ Store.AxiosError.response_data_error e = Some "" ->
      Store.AxiosError.message e <> "" ->
      Store.errorMessage e fallback = Store.AxiosError.message e)
  /\ (Store.AxiosError.response_data_error e = None
      \/ Store.AxiosError.response_data_error e = Some "" ->
      Store.AxiosError.message e = "" ->
      Store.errorMessage e fallback = fallback).
Proof.
  unfold Store.errorMessage, Js.or_else, Js.or_str.
  repeat split.
  - intros s Hs Hne. rewrite Hs.
    destruct s; [congruence|reflexivity].
  - intros [H|H]; rewrite H; simpl;
      destruct (Store.AxiosError.message e); simpl; congruence.
  - intros [H|H] Hm; rewrite H, Hm; reflexivity.
Qed.

(** C7 (as amended). With a token in the store, each of [submitRating],
    [postComment], [saveRecipe], [unsaveRecipe] and [deleteComment] whose
    request is rejected returns its failure value ([false], or [null] for
    [postComment]) and shows an error notification, the rest of the store
    unchanged.  The message is the body's [error] field when that field is
    a non-empty string, otherwise the exception's message when non-empty,
    otherwise the action's own text. *)
Theorem C7_failed_mutation_notifies
        (w : Store.World) (e : Store.AxiosError.t)
        (recipe_id rating comment_id : Z) (comment_text timestamp : string) :
  Js.truthy_opt (Store.access_token (Store.store w)) = true ->
  let shown (fallback : string) : string :=
    match Store.AxiosError.response_data_error e with
    | Some (String c s) => String c s
    | _ => match Store.AxiosError.message e with
           | String c s => String c s
           | EmptyString => fallback
           end
    end in
  (fst (Store.submitRating recipe_id rating (Store.Rejected e) w) = false
   /\ notifies (shown "Failed to submit rating") w
               (snd (Store.submitRating recipe_id rating (Store.Rejected e) w)))
  /\ (fst (Store.postComment recipe_id comment_text (Store.Rejected e) w) = None
      /\ notifies (shown "Failed to post comment") w
                  (snd (Store.postComment recipe_id comment_text
                                          (Store.Rejected e) w)))
  /\ (fst (Store.saveRecipe recipe_id timestamp (Store.Rejected e) w) = false
      /\ notifies (shown "Failed to save recipe") w
                  (snd (Store.saveRecipe recipe_id timestamp (Store.Rejected e) w)))
  /\ (fst (Store.unsaveRecipe recipe_id (Store.Rejected e) w) = false
      /\ notifies (shown "Failed to unsave recipe") w
                  (snd (Store.unsaveRecipe recipe_id (Store.Rejected e) w)))
  /\ (fst (Store.deleteComment comment_id (Store.Rejected e) w) = false
      /\ notifies (shown "Failed to delete comment") w
                  (snd (Store.deleteComment comment_id (Store.Rejected e) w))).
Proof.
  intros Htoken shown.
  assert (Hshown : forall fallback, Store.errorMessage e fallback = shown fallback).
  { intros fallback. subst shown.
    unfold Store.errorMessage, Js.or_else, Js.or_str.
    destruct (Store.AxiosError.response_data_error e) as [[|c s]|]; simpl;
      destruct (Store.AxiosError.message e); reflexivity. }
  unfold Store.submitRating, Store.postComment, Store.saveRecipe,
    Store.unsaveRecipe, Store.deleteComment, notifies.
  rewrite Htoken. simpl. rewrite !Hshown. repeat split.
Qed.

(** C7 as stated before amendment: the body's [error] field is present (and
    empty), yet the notification carries the exception's message. *)
Lemma C7_empty_error_field :
  let e := Samples.error_500_empty in
  let w' := snd (Store.submitRating 1 5 (Store.Rejected e) Samples.world) in
  Store.AxiosError.response_data_error e = Some ""
  /\ Store.notification (Store.store w')
     = Some (Notification.mk "Request failed with status code 500" error)
  /\ option_map Notification.message (Store.notification (Store.store w'))
     <> Store.AxiosError.response_data_error e.
Proof.
  repeat split. discriminate.
Qed.

(** ** The store: requests refused with 401 *)



(** ** The saved-recipes view: unsaving a recipe *)

(** C1 (the code departs from it). On the saved-recipes page the view
    selects [setSavedRecipes] and [setSavedRecipesLoading] from a store that
    defines neither, so [onMutate] throws at its first call, before any
    entry is removed.  The mutation function is then not called: no DELETE
    request is sent, whatever the server would have answered, and [onError]
    runs without a context, shows the message of that error and throws in
    turn.  After [handleUnsave] the list [saved_recipes] is what it was, the
    recipe still in it.  The store's own [unsaveRecipe], which this view
    does not call, leaves the list alone when its request is rejected. *)
Theorem C1_unsave_throws_before_the_removal
        (recipeId : Z) (resp : Store.Outcome unit) (e : Store.AxiosError.t)
        (w : Store.World) :
  let before := Store.saved_recipes (Store.store w) in
  let thrown := UV_UserSavedRecipes.TypeError "setSavedRecipes" in
  let result := UV_UserSavedRecipes.handleUnsave recipeId resp w in
  UV_UserSavedRecipes.onMutate (UV_UserSavedRecipes.render w) recipeId w
  = (Store.Rejected thrown, w)
  /\ fst result = false
  /\ Store.saved_recipes (Store.store (snd result)) = before
  /\ Store.notification (Store.store (snd result))
     = Some (Notification.mk (Store.AxiosError.message thrown) error)
  /\ UV_UserSavedRecipes.handleUnsave recipeId (Store.Rejected e) w = result
  /\ Store.saved_recipes
       (Store.store (snd (Store.unsaveRecipe recipeId (Store.Rejected e) w)))
     = before.
Proof.
  cbv zeta. split; [reflexivity|]. split; [reflexivity|].
  split; [reflexivity|]. split; [reflexivity|]. split; [reflexivity|].
  unfold Store.unsaveRecipe.
  destruct (negb (Js.truthy_opt (Store.access_token (Store.store w))));
    reflexivity.
Qed.

(** C1 as stated: the brownies are unsaved from the sample session, the
    server ready to accept; they are not removed from the list, at no
    point, and no request is sent. *)
Lemma C1_brownies_stay_saved :
  let result := UV_UserSavedRecipes.handleUnsave 4 (Store.Resolved tt)
                                                 Samples.world in
  Store.saved_recipes (Store.store Samples.world)
  = [Samples.stir_fry; Samples.brownies]
  /\ RecipeSummary.recipe_id Samples.brownies = 4
  /\ UV_UserSavedRecipes.onMutate (UV_UserSavedRecipes.render Samples.world) 4
                                  Samples.world
     = (Store.Rejected (Store.AxiosError.mk None "setSavedRecipes is not a function"),
        Samples.world)
  /\ fst result = false
  /\ Store.saved_recipes (Store.store (snd result))
     = [Samples.stir_fry; Samples.brownies]
  /\ Store.notification (Store.store (snd result))
     = Some (Notification.mk "setSavedRecipes is not a function" error).
Proof.
  repeat split.
Qed.

(** ** The ratings table and the rating mutation *)

Lemma NoDup_snoc {A : Type} (l : list A) (x : A) :
  NoDup l -> ~ In x l -> NoDup (l ++ [x]).
Proof.
  induction l as [|y l IH]; simpl; intros Hnd Hx.
  - constructor; [intros []|constructor].
  - inversion Hnd as [|? ? Hy Hl]; subst. constructor.
    + intros Hin. apply in_app_or in Hin as [Hin|[Heq|[]]]; [tauto|].
      subst. apply Hx. now left.
    + apply IH; [assumption|]. intros Hin. apply Hx. now right.
Qed.

(** Deleting rows keeps the remaining keys distinct. *)
Lemma keys_distinct_after_delete (keep : Schema.ratings.row -> bool)
      (rs : list Schema.ratings.row) :
  NoDup (map Schema.ratings.key rs) ->
  NoDup (map Schema.ratings.key (filter keep rs)).
Proof.
  intros Hkeys. induction rs as [|r rs IH]; simpl in *.
  - constructor.
  - apply NoDup_cons_iff in Hkeys as [Hfresh Hrest].
    destruct (keep r); simpl; [|auto].
    constructor; [|auto].
    rewrite in_map_iff. intros [r' [Hkey Hin]].
    apply filter_In in Hin as [Hin _].
    apply Hfresh, in_map_iff. exists r'. auto.
Qed.

Lemma unique_not_in (recipe_id user_id : Z) (rs : list Schema.ratings.row) :
  Schema.ratings.unique recipe_id user_id rs = true ->
  ~ In (recipe_id, user_id) (map Schema.ratings.key rs).
Proof.
  unfold Schema.ratings.unique. intros Hu Hin.
  apply negb_true_iff in Hu.
  apply in_map_iff in Hin as [r [Hkey Hin]].
  assert (Hex : existsb (fun r0 => (Schema.ratings.recipe_id r0 =? recipe_id)
                                   && (Schema.ratings.user_id r0 =? user_id)) rs
                = true).
  { apply existsb_exists. exists r. split; [assumption|].
    unfold Schema.ratings.key in Hkey. inversion Hkey; subst.
    rewrite !Z.eqb_refl. reflexivity. }
  congruence.
Qed.

Lemma check_range (rating : Z) :
  Schema.ratings.check rating = true <-> 1 <= rating <= 5.
Proof.
  unfold Schema.ratings.check. rewrite andb_true_iff, Z.geb_le, Z.leb_le. lia.
Qed.

Lemma filter_valid (p : Schema.ratings.row -> bool) (tb : Schema.ratings.t) :
  ratings_valid tb ->
  ratings_valid (Schema.ratings.mk (filter p (Schema.ratings.rows tb))
                                   (Schema.ratings.next_id tb)).
Proof.
  intros [Hrange Hkeys]. split; simpl.
  - apply Forall_forall. intros r Hin. apply filter_In in Hin as [Hin _].
    rewrite Forall_forall in Hrange. auto.
  - apply keys_distinct_after_delete. assumption.
Qed.

Lemma exec_valid (st : Schema.ratings.statement) (tb : Schema.ratings.t) :
  ratings_valid tb -> ratings_valid (Schema.ratings.exec st tb).
Proof.
  intros Hv. destruct st as [r u v|r u v|r u|r|u]; simpl;
    try (apply filter_valid; assumption).
  - unfold Schema.ratings.insert.
    destruct (Schema.ratings.check v) eqn:Hc; simpl;
      [destruct (Schema.ratings.unique r u (Schema.ratings.rows tb)) eqn:Hu|];
      simpl; try exact Hv.
    destruct Hv as [Hrange Hkeys]. split; simpl.
    + apply Forall_app. split; [assumption|].
      constructor; [|constructor]. simpl. apply check_range. assumption.
    + rewrite map_app. simpl. apply NoDup_snoc; [assumption|].
      apply unique_not_in. assumption.
  - unfold Schema.ratings.update.
    destruct (Schema.ratings.check v) eqn:Hc; simpl; [|exact Hv].
    destruct Hv as [Hrange Hkeys]. split; simpl.
    + apply Forall_forall. intros row Hin.
      apply in_map_iff in Hin as [row0 [Hrow Hin]].
      rewrite Forall_forall in Hrange. specialize (Hrange row0 Hin).
      destruct ((Schema.ratings.recipe_id row0 =? r)
                && (Schema.ratings.user_id row0 =? u)); subst row; simpl.
      * apply check_range. assumption.
      * assumption.
    + rewrite map_map.
      replace (map _ (Schema.ratings.rows tb))
        with (map Schema.ratings.key (Schema.ratings.rows tb)); [assumption|].
      apply map_ext. intros row.
      destruct ((Schema.ratings.recipe_id row =? r)
                && (Schema.ratings.user_id row =? u)) eqn:Hm; [|reflexivity].
      apply andb_true_iff in Hm as [Hr Hu]. apply Z.eqb_eq in Hr, Hu.
      unfold Schema.ratings.key. simpl. congruence.
Qed.

Lemma run_valid (sts : list Schema.ratings.statement) (tb : Schema.ratings.t) :
  ratings_valid tb -> ratings_valid (Schema.ratings.run sts tb).
Proof.
  revert tb. induction sts as [|st sts IH]; intros tb Hv; simpl.
  - exact Hv.
  - apply IH, exec_valid, Hv.
Qed.

(** C4. Whatever statements are run on the ratings table, every stored
    rating is an integer from 1 to 5 and no two rows share their
    (recipe, user) pair; an insert whose rating is out of range, or whose
    pair is already rated, is refused and stores nothing.  On the client,
    the rating mutation given a rating below 1 or above 5 returns false,
    leaves the component state alone, and does so whatever [submitRating]
    would do: it is not called. *)
Theorem C4_ratings_in_range_and_unique :
  (forall (sts : list Schema.ratings.statement),
      let tb := Schema.ratings.run sts Schema.ratings.empty in
      (forall r, In r (Schema.ratings.rows tb) -> 1 <= Schema.ratings.rating r <= 5)
      /\ NoDup (map Schema.ratings.key (Schema.ratings.rows tb)))
  /\ (forall (tb : Schema.ratings.t) (recipe_id user_id rating : Z),
         rating < 1 \/ rating > 5 ->
         fst (Schema.ratings.insert recipe_id user_id rating tb) = false
         /\ Schema.ratings.rows (snd (Schema.ratings.insert recipe_id user_id rating tb))
            = Schema.ratings.rows tb)
  /\ (forall (tb : Schema.ratings.t) (r : Schema.ratings.row) (rating : Z),
         In r (Schema.ratings.rows tb) ->
         let again := Schema.ratings.insert (Schema.ratings.recipe_id r)
                                            (Schema.ratings.user_id r) rating tb in
         fst again = false
         /\ Schema.ratings.rows (snd again) = Schema.ratings.rows tb)
  /\ (forall (submitRating other : UV_RecipeView.SubmitRating)
             (is_authenticated : bool) (recipeIdNum : option Z) (rating : Z)
             (l : UV_RecipeView.RecipeViewLocalState) (w : Store.World),
         rating < 1 \/ rating > 5 ->
         let result := UV_RecipeView.rateMutation submitRating is_authenticated
                                                  recipeIdNum rating (l, w) in
         fst result = false
         /\ fst (snd result) = l
         /\ UV_RecipeView.rateMutation other is_authenticated recipeIdNum rating
                                       (l, w) = result).
Proof.
  split; [|split; [|split]].
  - intros sts tb.
    assert (Hv : ratings_valid tb).
    { apply run_valid. split; constructor. }
    destruct Hv as [Hrange Hkeys]. split; [|assumption].
    rewrite Forall_forall in Hrange. exact Hrange.
  - intros tb recipe_id user_id rating Hout.
    unfold Schema.ratings.insert.
    assert (Hc : Schema.ratings.check rating = false).
    { apply not_true_is_false. rewrite check_range. lia. }
    rewrite Hc. simpl. split; reflexivity.
  - intros tb r rating Hin again. subst again.
    unfold Schema.ratings.insert.
    assert (Hu : Schema.ratings.unique (Schema.ratings.recipe_id r)
                                       (Schema.ratings.user_id r)
                                       (Schema.ratings.rows tb) = false).
    { unfold Schema.ratings.unique. apply negb_false_iff, existsb_exists.
      exists r. rewrite !Z.eqb_refl. split; [assumption|reflexivity]. }
    rewrite Hu, andb_false_r. simpl. split; reflexivity.
  - intros submitRating other is_authenticated recipeIdNum rating l w Hout result.
    subst result. unfold UV_RecipeView.rateMutation.
    assert (Hr : (rating <? 1) || (rating >? 5) = true).
    { apply orb_true_iff. rewrite Z.ltb_lt, Z.gtb_lt. lia. }
    rewrite Hr.
    destruct is_authenticated, recipeIdNum; simpl; repeat split.
Qed.

(** ** URL query parameters *)

Lemma getAll_app (k : string) (p q : URLSearchParams.t) :
  URLSearchParams.getAll k (p ++ q)
  = URLSearchParams.getAll k p ++ URLSearchParams.getAll k q.
Proof.
  unfold URLSearchParams.getAll. rewrite filter_app, map_app. reflexivity.
Qed.

Lemma getAll_pairs_same (k : string) (xs : list string) :
  URLSearchParams.getAll k (map (pair k) xs) = xs.
Proof.
  unfold URLSearchParams.getAll.
  induction xs as [|x xs IH]; simpl; [reflexivity|].
  rewrite String.eqb_refl. simpl. f_equal. exact IH.
Qed.

Lemma getAll_pairs_other (k k' : string) (xs : list string) :
  String.eqb k' k = false ->
  URLSearchParams.getAll k (map (pair k') xs) = [].
Proof.
  unfold URLSearchParams.getAll. intros Hne.
  induction xs as [|x xs IH]; simpl; [reflexivity|].
  rewrite Hne. exact IH.
Qed.

Lemma getAll_delete_same (k : string) (p : URLSearchParams.t) :
  URLSearchParams.getAll k (URLSearchParams.delete k p) = [].
Proof.
  unfold URLSearchParams.getAll, URLSearchParams.delete.
  induction p as [|[k' v'] p IH]; simpl; [reflexivity|].
  destruct (String.eqb k' k) eqn:Hk; simpl; [|rewrite Hk]; exact IH.
Qed.

Lemma getAll_delete_other (k k' : string) (p : URLSearchParams.t) :
  String.eqb k k' = false ->
  URLSearchParams.getAll k' (URLSearchParams.delete k p)
  = URLSearchParams.getAll k' p.
Proof.
  unfold URLSearchParams.getAll, URLSearchParams.delete. intros Hne.
  induction p as [|[k0 v0] p IH]; simpl; [reflexivity|].
  destruct (String.eqb k0 k) eqn:Hk; simpl.
  - apply String.eqb_eq in Hk. subst k0. rewrite Hne. exact IH.
  - destruct (String.eqb k0 k'); simpl; [f_equal|]; exact IH.
Qed.

Lemma getAll_set_same (k v : string) (p : URLSearchParams.t) :
  URLSearchParams.getAll k (URLSearchParams.set k v p) = [v].
Proof.
  induction p as [|[k' v'] p IH]; simpl.
  - unfold URLSearchParams.getAll. simpl. rewrite String.eqb_refl. reflexivity.
  - destruct (String.eqb k' k) eqn:Hk.
    + change ((k, v) :: URLSearchParams.delete k p)
        with ([(k, v)] ++ URLSearchParams.delete k p).
      rewrite getAll_app, getAll_delete_same.
      unfold URLSearchParams.getAll. simpl. rewrite String.eqb_refl. reflexivity.
    + change ((k', v') :: URLSearchParams.set k v p)
        with ([(k', v')] ++ URLSearchParams.set k v p).
      rewrite getAll_app, IH.
      unfold URLSearchParams.getAll. simpl. rewrite Hk. reflexivity.
Qed.

Lemma getAll_set_other (k k' v : string) (p : URLSearchParams.t) :
  String.eqb k k' = false ->
  URLSearchParams.getAll k' (URLSearchParams.set k v p)
  = URLSearchParams.getAll k' p.
Proof.
  intros Hne. induction p as [|[k0 v0] p IH]; simpl.
  - unfold URLSearchParams.getAll. simpl. rewrite Hne. reflexivity.
  - destruct (String.eqb k0 k) eqn:Hk.
    + apply String.eqb_eq in Hk. subst k0.
      change ((k, v) :: URLSearchParams.delete k p)
        with ([(k, v)] ++ URLSearchParams.delete k p).
      change ((k, v0) :: p) with ([(k, v0)] ++ p).
      rewrite !getAll_app, getAll_delete_other by assumption.
      unfold URLSearchParams.getAll. simpl. rewrite Hne. reflexivity.
    + change ((k0, v0) :: URLSearchParams.set k v p)
        with ([(k0, v0)] ++ URLSearchParams.set k v p).
      change ((k0, v0) :: p) with ([(k0, v0)] ++ p).
      rewrite !getAll_app, IH. reflexivity.
Qed.

(** [get] reads the first of the values [getAll] lists. *)
Lemma get_getAll (k : string) (p : URLSearchParams.t) :
  URLSearchParams.get k p = hd_error (URLSearchParams.getAll k p).
Proof.
  unfold URLSearchParams.get, URLSearchParams.getAll.
  induction p as [|[k' v'] p IH]; simpl; [reflexivity|].
  destruct (String.eqb k' k); simpl; [reflexivity|exact IH].
Qed.

Lemma append_each_pairs (k : string) (xs : list string) (p : URLSearchParams.t) :
  UV_BrowseRecipes.append_each k xs p = p ++ map (pair k) xs.
Proof.
  unfold UV_BrowseRecipes.append_each. revert p.
  induction xs as [|x xs IH]; intros p; simpl.
  - rewrite app_nil_r. reflexivity.
  - rewrite IH. unfold URLSearchParams.append. rewrite <- app_assoc. reflexivity.
Qed.

(** ** The browse view: sort, page and filter changes *)

(** The next fetch of the browse view carries the view's sort order and
    page. *)
Lemma queryFn_sort_and_page (v : UV_BrowseRecipes.View) :
  URLSearchParams.getAll "sort_by" (UV_BrowseRecipes.queryFn v)
  = [UV_BrowseRecipes.localSortOrder v]
  /\ URLSearchParams.getAll "page" (UV_BrowseRecipes.queryFn v)
     = [Js.String_of (UV_BrowseRecipes.currentPage v)].
Proof.
  unfold UV_BrowseRecipes.queryFn, UV_BrowseRecipes.fetchRecipesFn.
  destruct (UV_BrowseRecipes.localFilterParams v) as [tags difficulty prep cook rating].
  simpl. destruct tags, difficulty, prep, cook, rating; split; reflexivity.
Qed.

(** C5 (as amended). In the browse view:
    - [handleSortChange] writes the new sort order to the store and to the
      local state, resets the local page to 1, writes [page=1] to the URL
      and [sort_by] to the URL unless the order is 'newest', in which case
      the parameter is removed; the other URL parameters stay, and so does
      the page held by the store, which the handler does not write;
    - [handlePageChange], for a page the pagination offers (a safe
      integer, which prints in plain decimal), writes the page to the
      store, to the local state and to the URL's [page];
    - [handleApplyFilters] writes the local filters and sort order to the
      store, resets the local page to 1 and replaces the URL by the filters
      that are set, one [tags] and one [difficulty] parameter per value, a
      number as [String] prints it, [sort_by] unless 'newest', and
      [page=1]; the page held by the store stays as it was.
    In each case the next fetch is made from the local state so updated. *)
Theorem C5_browse_handlers_update_url_and_store
        (v : UV_BrowseRecipes.View) (w : Store.World) :
  (forall newSortOrder : string,
      let after := UV_BrowseRecipes.handleSortChange newSortOrder (v, w) in
      let url := UV_BrowseRecipes.searchParams (fst after) in
      Store.sort_order (Store.store (snd after)) = newSortOrder
      /\ UV_BrowseRecipes.localSortOrder (fst after) = newSortOrder
      /\ UV_BrowseRecipes.currentPage (fst after) = 1
      /\ URLSearchParams.getAll "sort_by" url
         = (if String.eqb newSortOrder "newest" then [] else [newSortOrder])
      /\ URLSearchParams.getAll "page" url = ["1"]
      /\ (forall k, String.eqb "sort_by" k = false -> String.eqb "page" k = false ->
                    URLSearchParams.getAll k url
                    = URLSearchParams.getAll k (UV_BrowseRecipes.searchParams v))
      /\ URLSearchParams.getAll "sort_by" (UV_BrowseRecipes.queryFn (fst after))
         = [newSortOrder]
      /\ URLSearchParams.getAll "page" (UV_BrowseRecipes.queryFn (fst after))
         = ["1"]
      /\ Store.paginated_recipes (Store.store (snd after))
         = Store.paginated_recipes (Store.store w))
  /\ (forall page : Z,
         1 <= page <= PaginationInfo.total_pages (UV_BrowseRecipes.pagination_info v) ->
         JsNumber.safe_integer page ->
         let after := UV_BrowseRecipes.handlePageChange page (v, w) in
         let url := UV_BrowseRecipes.searchParams (fst after) in
         PaginationInfo.current_page
           (PaginatedRecipesResponse.pagination
              (Store.paginated_recipes (Store.store (snd after)))) = page
         /\ UV_BrowseRecipes.currentPage (fst after) = page
         /\ URLSearchParams.getAll "page" url = [Js.String_of page]
         /\ (forall k, String.eqb "page" k = false ->
                       URLSearchParams.getAll k url
                       = URLSearchParams.getAll k (UV_BrowseRecipes.searchParams v))
         /\ URLSearchParams.getAll "page" (UV_BrowseRecipes.queryFn (fst after))
            = [Js.String_of page])
  /\ (let after := UV_BrowseRecipes.handleApplyFilters (v, w) in
      let f := UV_BrowseRecipes.localFilterParams v in
      let number (k : string) (x : option JsNumber.t) : URLSearchParams.t :=
        match x with Some n => [(k, JsNumber.text n)] | None => [] end in
      Store.filter_params (Store.store (snd after)) = f
      /\ Store.sort_order (Store.store (snd after))
         = UV_BrowseRecipes.localSortOrder v
      /\ UV_BrowseRecipes.currentPage (fst after) = 1
      /\ UV_BrowseRecipes.searchParams (fst after)
         = map (pair "tags") (FilterParams.tags f)
           ++ map (pair "difficulty") (FilterParams.difficulty f)
           ++ number "max_prep_time" (FilterParams.max_prep_time f)
           ++ number "max_cook_time" (FilterParams.max_cook_time f)
           ++ number "min_rating" (FilterParams.min_rating f)
           ++ (if String.eqb (UV_BrowseRecipes.localSortOrder v) "newest"
               then [] else [("sort_by", UV_BrowseRecipes.localSortOrder v)])
           ++ [("page", "1")]
      /\ URLSearchParams.getAll "tags" (UV_BrowseRecipes.searchParams (fst after))
         = FilterParams.tags f
      /\ URLSearchParams.getAll "difficulty"
                                (UV_BrowseRecipes.searchParams (fst after))
         = FilterParams.difficulty f
      /\ URLSearchParams.getAll "page" (UV_BrowseRecipes.searchParams (fst after))
         = ["1"]
      /\ UV_BrowseRecipes.queryFn (fst after)
         = UV_BrowseRecipes.fetchRecipesFn f (UV_BrowseRecipes.localSortOrder v)
                                           1 (UV_BrowseRecipes.itemsPerPage v)
      /\ Store.paginated_recipes (Store.store (snd after))
         = Store.paginated_recipes (Store.store w)).
Proof.
  split; [|split].
  - intros newSortOrder after url.
    assert (Hurl : url
                   = URLSearchParams.set "page" "1"
                       (if negb (String.eqb newSortOrder "newest")
                        then URLSearchParams.set "sort_by" newSortOrder
                               (UV_BrowseRecipes.searchParams v)
                        else URLSearchParams.delete "sort_by"
                               (UV_BrowseRecipes.searchParams v))) by reflexivity.
    split; [reflexivity|]. split; [reflexivity|]. split; [reflexivity|].
    split; [|split; [|split; [|split; [|split; [|reflexivity]]]]].
    + rewrite Hurl, getAll_set_other by reflexivity.
      destruct (String.eqb newSortOrder "newest"); simpl.
      * apply getAll_delete_same.
      * apply getAll_set_same.
    + rewrite Hurl. apply getAll_set_same.
    + intros k Hsort Hpage. rewrite Hurl, getAll_set_other by assumption.
      destruct (String.eqb newSortOrder "newest"); simpl.
      * apply getAll_delete_other. assumption.
      * apply getAll_set_other. assumption.
    + apply (queryFn_sort_and_page (fst after)).
    + apply (queryFn_sort_and_page (fst after)).
  - intros page Hrange _ after url. subst url after.
    unfold UV_BrowseRecipes.handlePageChange.
    assert (Hguard : (page >=? 1)
                     && (page <=? PaginationInfo.total_pages
                                    (UV_BrowseRecipes.pagination_info v)) = true).
    { apply andb_true_iff. rewrite Z.geb_le, Z.leb_le. lia. }
    rewrite Hguard. simpl.
    split; [reflexivity|]. split; [reflexivity|].
    split; [apply getAll_set_same|]. split.
    + intros k Hk. apply getAll_set_other. assumption.
    + apply (queryFn_sort_and_page
               (UV_BrowseRecipes.setSearchParams
                  (URLSearchParams.set "page" (Js.String_of page)
                     (UV_BrowseRecipes.searchParams v))
                  (UV_BrowseRecipes.setCurrentPage page v))).
  - intros after f number.
    assert (Hurl : UV_BrowseRecipes.searchParams (fst after)
                   = map (pair "tags") (FilterParams.tags f)
                     ++ map (pair "difficulty") (FilterParams.difficulty f)
                     ++ number "max_prep_time" (FilterParams.max_prep_time f)
                     ++ number "max_cook_time" (FilterParams.max_cook_time f)
                     ++ number "min_rating" (FilterParams.min_rating f)
                     ++ (if String.eqb (UV_BrowseRecipes.localSortOrder v) "newest"
                         then []
                         else [("sort_by", UV_BrowseRecipes.localSortOrder v)])
                     ++ [("page", "1")]).
    { subst after f number. unfold UV_BrowseRecipes.handleApplyFilters. simpl.
      rewrite !append_each_pairs. simpl.
      destruct (UV_BrowseRecipes.localFilterParams v)
        as [tags difficulty prep cook rating]. simpl.
      unfold UV_BrowseRecipes.append_number, URLSearchParams.append.
      destruct prep, cook, rating,
        (String.eqb (UV_BrowseRecipes.localSortOrder v) "newest");
        simpl; rewrite <- ?app_assoc; simpl; rewrite ?app_nil_r; reflexivity. }
    split; [|split; [reflexivity|split; [reflexivity|split; [exact Hurl|]]]].
    + subst after f. simpl.
      destruct (UV_BrowseRecipes.localFilterParams v). reflexivity.
    + assert (Hother : forall k k' xs, String.eqb k' k = false ->
                URLSearchParams.getAll k (map (pair k') xs) = [])
        by (intros; apply getAll_pairs_other; assumption).
      rewrite Hurl, !getAll_app, !getAll_pairs_same.
      rewrite !Hother by reflexivity.
      subst number.
      destruct (FilterParams.max_prep_time f), (FilterParams.max_cook_time f),
        (FilterParams.min_rating f),
        (String.eqb (UV_BrowseRecipes.localSortOrder v) "newest");
        simpl; rewrite ?app_nil_r; repeat split; reflexivity.
Qed.

(** C5 as stated before amendment: asked for page 4 of 3,
    [handlePageChange] writes neither the store nor the URL; and with the
    store on page 2, a change of the sort order puts [page=1] in the URL
    and leaves the store on page 2. *)
Lemma C5_store_page_not_written :
  let after := UV_BrowseRecipes.handlePageChange 4 (Samples.browse_view,
                                                    Samples.world) in
  let on_page_2 := Store.setPage 2 Samples.world in
  let sorted := UV_BrowseRecipes.handleSortChange "newest" (Samples.browse_view,
                                                            on_page_2) in
  (PaginationInfo.total_pages
     (UV_BrowseRecipes.pagination_info Samples.browse_view) = 3
   /\ PaginationInfo.current_page
        (PaginatedRecipesResponse.pagination
           (Store.paginated_recipes (Store.store (snd after)))) = 1
   /\ URLSearchParams.get "page" (UV_BrowseRecipes.searchParams (fst after))
      = Some "2"
   /\ UV_BrowseRecipes.currentPage (fst after) = 2
   /\ after = (Samples.browse_view, Samples.world))
  /\ (Store.sort_order (Store.store (snd sorted)) = "newest"
      /\ URLSearchParams.get "page" (UV_BrowseRecipes.searchParams (fst sorted))
         = Some "1"
      /\ UV_BrowseRecipes.currentPage (fst sorted) = 1
      /\ PaginationInfo.current_page
           (PaginatedRecipesResponse.pagination
              (Store.paginated_recipes (Store.store (snd sorted)))) = 2).
Proof.
  repeat split.
Qed.

(** ** Page changes outside the pagination *)

(** C9. For an integer [p] below 1 or above the [total_pages] of the
    current pagination, [handlePageChange p] changes nothing, in the browse
    view and in the search-results view alike: local page, store and URL
    parameters are what they were.  The search-results view also does
    nothing while it has no results. *)
Theorem C9_page_change_out_of_range_is_ignored
        (p : Z) (browse : UV_BrowseRecipes.View) (search : UV_SearchResults.View)
        (w : Store.World) :
  (p < 1
   \/ p > PaginationInfo.total_pages (UV_BrowseRecipes.pagination_info browse) ->
   UV_BrowseRecipes.handlePageChange p (browse, w) = (browse, w))
  /\ (forall results,
         UV_SearchResults.searchResults search = Some results ->
         p < 1
         \/ p > PaginationInfo.total_pages
                  (PaginatedRecipesResponse.pagination results) ->
         UV_SearchResults.handlePageChange p (search, w) = (search, w))
  /\ (UV_SearchResults.searchResults search = None ->
      UV_SearchResults.handlePageChange p (search, w) = (search, w)).
Proof.
  split; [|split].
  - intros Hout. unfold UV_BrowseRecipes.handlePageChange.
    replace ((p >=? 1)
             && (p <=? PaginationInfo.total_pages
                         (UV_BrowseRecipes.pagination_info browse)))
      with false; [reflexivity|].
    symmetry. apply andb_false_iff.
    destruct Hout as [Hlow|Hhigh].
    + left. apply not_true_is_false. rewrite Z.geb_le. lia.
    + right. apply Z.leb_gt. lia.
  - intros results Hresults Hout. unfold UV_SearchResults.handlePageChange.
    rewrite Hresults.
    replace ((p >? 0)
             && (p <=? PaginationInfo.total_pages
                         (PaginatedRecipesResponse.pagination results)))
      with false; [reflexivity|].
    symmetry. apply andb_false_iff.
    destruct Hout as [Hlow|Hhigh].
    + left. apply not_true_is_false. rewrite Z.gtb_lt. lia.
    + right. apply Z.leb_gt. lia.
  - intros Hnone. unfold UV_SearchResults.handlePageChange.
    rewrite Hnone. reflexivity.
Qed.

(** ** Notifications and their timers *)

Lemma notification_timeout_cases (m : string) (s : Store.AppState) :
  Store.notification_timeout m s = s
  \/ Store.notification_timeout m s = Store.set_notification None s.
Proof.
  unfold Store.notification_timeout.
  destruct (Store.notification s) as [n|]; [|now left].
  destruct (String.eqb (Notification.message n) m); [now right|now left].
Qed.

Lemma run_timers_none (t : Z) (q : list Store.Timer) :
  forall s, Store.notification s = None ->
            Store.notification (fst (Store.run_timers t q s)) = None.
Proof.
  induction q as [|tm q IH]; intros s Hs; simpl.
  - exact Hs.
  - destruct (Store.due tm <=? t).
    + apply IH. unfold Store.notification_timeout. rewrite Hs. exact Hs.
    + specialize (IH s Hs).
      destruct (Store.run_timers t q s) as [s' rest]. exact IH.
Qed.

(** A due timer clears the notification whose message it holds. *)
Lemma run_timers_clears (t : Z) (q : list Store.Timer) (tm : Store.Timer) :
  In tm q -> Store.due tm <= t ->
  forall s n, Store.notification s = Some n ->
              Notification.message n = Store.closed_message tm ->
              Store.notification (fst (Store.run_timers t q s)) = None.
Proof.
  intros Hin Hdue. induction q as [|tm' q IH]; intros s n Hs Hn; simpl.
  - destruct Hin.
  - destruct (Store.due tm' <=? t) eqn:Hd.
    + destruct Hin as [Heq|Hin].
      * subst tm'. apply run_timers_none.
        unfold Store.notification_timeout. rewrite Hs, Hn, String.eqb_refl.
        reflexivity.
      * destruct (notification_timeout_cases (Store.closed_message tm') s)
          as [Hsame|Hcleared]; rewrite ?Hsame, ?Hcleared.
        -- apply (IH Hin s n Hs Hn).
        -- apply run_timers_none. reflexivity.
    + destruct Hin as [Heq|Hin].
      * subst tm'. apply Z.leb_gt in Hd. lia.
      * specialize (IH Hin s n Hs Hn).
        destruct (Store.run_timers t q s) as [s' rest]. exact IH.
Qed.

(** Timers that hold other messages leave the notification on display. *)
Lemma run_timers_keeps (t : Z) (q : list Store.Timer) (s : Store.AppState)
      (n : Notification.t) :
  Store.notification s = Some n ->
  (forall tm, In tm q -> Store.due tm <= t ->
              Store.closed_message tm <> Notification.message n) ->
  fst (Store.run_timers t q s) = s.
Proof.
  intros Hs. induction q as [|tm q IH]; intros Hq; simpl.
  - reflexivity.
  - destruct (Store.due tm <=? t) eqn:Hd.
    + assert (Hsame : Store.notification_timeout (Store.closed_message tm) s = s).
      { unfold Store.notification_timeout. rewrite Hs.
        destruct (String.eqb (Notification.message n) (Store.closed_message tm))
                 eqn:He; [|reflexivity].
        apply String.eqb_eq in He. apply Z.leb_le in Hd.
        exfalso. apply (Hq tm (or_introl eq_refl) Hd). congruence. }
      rewrite Hsame. apply IH. intros tm0 Hin. apply Hq. now right.
    + assert (IH' : fst (Store.run_timers t q s) = s).
      { apply IH. intros tm0 Hin. apply Hq. now right. }
      destruct (Store.run_timers t q s) as [s' rest]. exact IH'.
Qed.

Lemma run_timers_rest (t : Z) (q : list Store.Timer) :
  forall s tm, In tm (snd (Store.run_timers t q s)) -> In tm q.
Proof.
  induction q as [|tm' q IH]; intros s tm; simpl.
  - auto.
  - destruct (Store.due tm' <=? t).
    + intros Hin. right. apply (IH _ _ Hin).
    + specialize (IH s tm).
      destruct (Store.run_timers t q s) as [s' rest]. simpl in *.
      intros [Heq|Hin]; [now left|right; auto].
Qed.

Lemma advance_to_store (t : Z) (w : Store.World) :
  Store.store (Store.advance_to t w)
  = fst (Store.run_timers t (Store.timers w) (Store.store w)).
Proof.
  unfold Store.advance_to.
  destruct (Store.run_timers t (Store.timers w) (Store.store w)). reflexivity.
Qed.

Lemma advance_to_timers (t : Z) (w : Store.World) :
  Store.timers (Store.advance_to t w)
  = snd (Store.run_timers t (Store.timers w) (Store.store w)).
Proof.
  unfold Store.advance_to.
  destruct (Store.run_timers t (Store.timers w) (Store.store w)). reflexivity.
Qed.

Lemma advance_to_now (t : Z) (w : Store.World) :
  Store.now (Store.advance_to t w) = Z.max (Store.now w) t.
Proof.
  unfold Store.advance_to.
  destruct (Store.run_timers t (Store.timers w) (Store.store w)). reflexivity.
Qed.

(** C10. [showNotification message type] displays the notification and
    queues a timer due 3000 ms later.  If nothing else happens the
    notification is gone once those 3000 ms have passed, and (no older
    timer holding the same message) it is on display at every earlier time.
    When the timer runs it removes the notification on display if that one
    carries [message], and leaves the store as it is otherwise; so a
    notification shown in the meantime with a different message is still
    on display after the older timer has run. *)
Theorem C10_notification_cleared_after_three_seconds
        (w : Store.World) (message : string) (type : NotificationType) :
  let w1 := Store.showNotification message type w in
  let due := Store.now w + 3000 in
  (Store.notification (Store.store w1) = Some (Notification.mk message type)
   /\ Store.timers w1 = Store.timers w ++ [Store.mkTimer due message]
   /\ Store.now w1 = Store.now w)
  /\ Store.notification (Store.store (Store.advance_to due w1)) = None
  /\ (forall t,
         t < due ->
         (forall tm, In tm (Store.timers w) -> Store.closed_message tm <> message) ->
         Store.notification (Store.store (Store.advance_to t w1))
         = Some (Notification.mk message type))
  /\ (forall s n,
         Store.notification s = Some n -> Notification.message n = message ->
         Store.notification_timeout message s = Store.set_notification None s)
  /\ (forall s,
         (forall n, Store.notification s = Some n ->
                    Notification.message n <> message) ->
         Store.notification_timeout message s = s)
  /\ (forall t message' type',
         Store.now w < t < due ->
         message' <> message ->
         (forall tm, In tm (Store.timers w) -> Store.closed_message tm <> message') ->
         let w2 := Store.showNotification message' type' (Store.advance_to t w1) in
         Store.notification (Store.store (Store.advance_to due w2))
         = Some (Notification.mk message' type')).
Proof.
  intros w1 due.
  split; [repeat split|]. split; [|split; [|split; [|split]]].
  - rewrite advance_to_store.
    apply (run_timers_clears due (Store.timers w1) (Store.mkTimer due message))
      with (n := Notification.mk message type).
    + subst w1. simpl. apply in_or_app. right. now left.
    + simpl. lia.
    + reflexivity.
    + reflexivity.
  - intros t Ht Hold. rewrite advance_to_store.
    rewrite (run_timers_keeps t (Store.timers w1) (Store.store w1)
                              (Notification.mk message type)); [reflexivity..|].
    intros tm Hin Hdue. simpl. subst w1. simpl in Hin.
    apply in_app_or in Hin as [Hin|[Heq|[]]].
    + apply Hold. assumption.
    + subst tm due. simpl in Hdue. unfold Store.NOTIFICATION_DELAY in Hdue. lia.
  - intros s n Hs Hn. unfold Store.notification_timeout.
    rewrite Hs, Hn, String.eqb_refl. reflexivity.
  - intros s Hs. unfold Store.notification_timeout.
    destruct (Store.notification s) as [n|] eqn:Hn; [|reflexivity].
    destruct (String.eqb (Notification.message n) message) eqn:He; [|reflexivity].
    apply String.eqb_eq in He. exfalso. exact (Hs n eq_refl He).
  - intros t message' type' Ht Hne Hold w2. rewrite advance_to_store.
    rewrite (run_timers_keeps due (Store.timers w2) (Store.store w2)
                              (Notification.mk message' type')); [reflexivity..|].
    intros tm Hin Hdue. simpl. subst w2. simpl in Hin.
    apply in_app_or in Hin as [Hin|[Heq|[]]].
    + rewrite advance_to_timers in Hin. apply run_timers_rest in Hin.
      subst w1. simpl in Hin. apply in_app_or in Hin as [Hin|[Heq|[]]].
      * apply Hold. assumption.
      * subst tm. simpl. congruence.
    + subst tm. simpl in Hdue. rewrite advance_to_now in Hdue.
      subst w1 due. simpl in Hdue. unfold Store.NOTIFICATION_DELAY in Hdue. lia.
Qed.

(** ** The theorems at work on the sample data *)


(** The sample form, complete but for its blank title, is not submitted. *)
Lemma C3_witness :
  Js.only_white_space
    (UV_SubmitRecipe.RecipeFormData.title
       (UV_SubmitRecipe.recipe_form_data Samples.submit_view)) = true
  /\ UV_SubmitRecipe.validate_recipe_form Samples.blank_title_form
     = (UV_SubmitRecipe.FormErrors.set_title "Recipe title is required."
          UV_SubmitRecipe.FormErrors.empty, false)
  /\ snd (UV_SubmitRecipe.handle_recipe_submit Samples.blank_title_form
                                               Samples.submit_view) = None.
Proof.
  split; [reflexivity|]. split; [reflexivity|].
  pose proof (C3_blank_title_blocks_submission
                Samples.submit_view Samples.blank_title_form eq_refl
                (or_introl eq_refl)) as H.
  destruct (UV_SubmitRecipe.validate_recipe_form Samples.blank_title_form)
    as [errors isValid].
  destruct (UV_SubmitRecipe.handle_recipe_submit Samples.blank_title_form
                                                 Samples.submit_view)
    as [v' started].
  destruct H as [_ [_ [_ [Hstarted _]]]]. exact Hstarted.
Defined.

(** The seed rows are all stored; a sixth star and a second rating by the
    same user are refused; the mutation turns down a rating of 0. *)
Lemma C4_witness :
  List.length (Schema.ratings.rows
                 (Schema.ratings.run Schema.ratings.seed Schema.ratings.empty))
  = 20%nat
  /\ NoDup (map Schema.ratings.key
                (Schema.ratings.rows
                   (Schema.ratings.run Schema.ratings.seed Schema.ratings.empty)))
  /\ fst (Schema.ratings.insert 3 5 6
            (Schema.ratings.run Schema.ratings.seed Schema.ratings.empty)) = false
  /\ fst (Schema.ratings.insert 1 1 3
            (Schema.ratings.run Schema.ratings.seed Schema.ratings.empty)) = false
  /\ fst (UV_RecipeView.rateMutation
            (fun id rating =>
               Store.submitRating id rating
                 (Store.Resolved (Store.RatingResponse.mk None None)))
            true (Some 1) 0
            (UV_RecipeView.mkLocal None None "" true false false false false
                                   None None,
             Samples.world)) = false.
Proof.
  destruct C4_ratings_in_range_and_unique as [Hinv [Hrange [Hdup Hclient]]].
  split; [reflexivity|].
  split; [exact (proj2 (Hinv Schema.ratings.seed))|].
  split.
  - apply (Hrange (Schema.ratings.run Schema.ratings.seed Schema.ratings.empty)
                  3 5 6).
    right. reflexivity.
  - split.
    + apply (Hdup (Schema.ratings.run Schema.ratings.seed Schema.ratings.empty)
                  (Schema.ratings.mkRow 1 1 1 5) 3).
      vm_compute. left. reflexivity.
    + apply (Hclient
               (fun id rating =>
                  Store.submitRating id rating
                    (Store.Resolved (Store.RatingResponse.mk None None)))
               (fun id rating w => (true, w))
               true (Some 1) 0).
      left. reflexivity.
Defined.

(** From page 2 of 3, page 3 is written to the URL and to the store;
    applying the sample filters, with a rating of 4.5 among them, writes
    each of them to the URL. *)
Lemma C5_witness :
  1 <= 3 <= PaginationInfo.total_pages
              (UV_BrowseRecipes.pagination_info Samples.browse_view)
  /\ UV_BrowseRecipes.searchParams
       (fst (UV_BrowseRecipes.handlePageChange 3 (Samples.browse_view,
                                                  Samples.world)))
     = [("sort_by", "rating"); ("page", "3")]
  /\ PaginationInfo.current_page
       (PaginatedRecipesResponse.pagination
          (Store.paginated_recipes
             (Store.store (snd (UV_BrowseRecipes.handlePageChange
                                  3 (Samples.browse_view, Samples.world))))))
     = 3
  /\ UV_BrowseRecipes.searchParams
       (fst (UV_BrowseRecipes.handleApplyFilters (Samples.browse_view,
                                                  Samples.world)))
     = [("tags", "Keto"); ("tags", "Breakfast"); ("difficulty", "Easy");
        ("max_prep_time", "30"); ("min_rating", "4.5"); ("sort_by", "rating");
        ("page", "1")].
Proof.
  assert (Hrange : 1 <= 3 <= PaginationInfo.total_pages
                               (UV_BrowseRecipes.pagination_info
                                  Samples.browse_view)).
  { split; discriminate. }
  split; [exact Hrange|]. split; [reflexivity|].
  destruct (C5_browse_handlers_update_url_and_store
              Samples.browse_view Samples.world) as [_ [Hpage Happly]].
  assert (Hsafe : JsNumber.safe_integer 3)
    by (unfold JsNumber.safe_integer; simpl; lia).
  split; [exact (proj1 (Hpage 3 Hrange Hsafe))|].
  cbv zeta in Happly. destruct Happly as [_ [_ [_ [Hurl _]]]].
  rewrite Hurl. reflexivity.
Defined.

(** The sample form's steps, numbered 1, 3, 3, are sent as 1, 2, 3 and
    stored. *)
Lemma C6_witness :
  (forall row, In row (Schema.instructions.rows Samples.no_instructions) ->
               Schema.instructions.recipe_id row <> 11)
  /\ map UV_SubmitRecipe.FormInstruction.step_number
         (UV_SubmitRecipe.RecipeFormData.instructions Samples.blank_title_form)
     = [1; 3; 3]
  /\ map UV_SubmitRecipe.FormInstruction.step_number
         (UV_SubmitRecipe.payload_instructions
            (UV_SubmitRecipe.mutationFn Samples.submit_view
                                        Samples.blank_title_form))
     = [1; 2; 3]
  /\ fst (Schema.instructions.insert_all 11
            (UV_SubmitRecipe.instruction_rows
               (UV_SubmitRecipe.payload_instructions
                  (UV_SubmitRecipe.mutationFn Samples.submit_view
                                              Samples.blank_title_form)))
            Samples.no_instructions) = true.
Proof.
  assert (Hnew : forall row,
             In row (Schema.instructions.rows Samples.no_instructions) ->
             Schema.instructions.recipe_id row <> 11).
  { intros row []. }
  split; [exact Hnew|]. split; [reflexivity|].
  destruct (C6_step_numbers_are_positions Samples.submit_view
                                          Samples.blank_title_form)
    as [Hsteps [_ [_ [_ Hstored]]]].
  split; [exact Hsteps|exact (Hstored 11 Samples.no_instructions Hnew)].
Defined.

(** A rating refused by the server: [false], and the body's message. *)
Lemma C7_witness :
  Js.truthy_opt (Store.access_token (Store.store Samples.world)) = true
  /\ fst (Store.submitRating 1 5 (Store.Rejected Samples.error_401) Samples.world)
     = false
  /\ notifies "Invalid or expired token" Samples.world
              (snd (Store.submitRating 1 5 (Store.Rejected Samples.error_401)
                                       Samples.world)).
Proof.
  split; [reflexivity|].
  exact (proj1 (C7_failed_mutation_notifies
                  Samples.world Samples.error_401 1 5 0 "" "" eq_refl)).
Defined.

(** Page 4 of 3 and page 0 are ignored by both views. *)
Lemma C9_witness :
  4 > PaginationInfo.total_pages
        (UV_BrowseRecipes.pagination_info Samples.browse_view)
  /\ UV_BrowseRecipes.handlePageChange 4 (Samples.browse_view, Samples.world)
     = (Samples.browse_view, Samples.world)
  /\ UV_SearchResults.handlePageChange 0 (Samples.search_view, Samples.world)
     = (Samples.search_view, Samples.world).
Proof.
  split; [reflexivity|]. split.
  - apply (C9_page_change_out_of_range_is_ignored
             4 Samples.browse_view Samples.search_view Samples.world).
    right. reflexivity.
  - apply (proj1 (proj2 (C9_page_change_out_of_range_is_ignored
                           0 Samples.browse_view Samples.search_view Samples.world))
                 Samples.page_2_of_3 eq_refl).
    left. reflexivity.
Defined.

(** A toast at 10 s: on display at 12 s, gone at 13 s; a different toast
    shown at 11 s is still there at 13 s. *)
Lemma C10_witness :
  12000 < Store.now Samples.world + 3000
  /\ Store.notification
       (Store.store (Store.advance_to 12000
                       (Store.showNotification "Recipe saved" success
                                               Samples.world)))
     = Some (Notification.mk "Recipe saved" success)
  /\ Store.notification
       (Store.store (Store.advance_to 13000
                       (Store.showNotification "Recipe saved" success
                                               Samples.world)))
     = None
  /\ Store.notification
       (Store.store
          (Store.advance_to 13000
             (Store.showNotification "Comment deleted" info
                (Store.advance_to 11000
                   (Store.showNotification "Recipe saved" success
                                           Samples.world)))))
     = Some (Notification.mk "Comment deleted" info).
Proof.
  destruct (C10_notification_cleared_after_three_seconds
              Samples.world "Recipe saved" success)
    as [_ [Hgone [Hshown [_ [_ Hnewer]]]]].
  split; [reflexivity|]. split; [|split].
  - apply (Hshown 12000); [reflexivity|]. intros tm [].
  - exact Hgone.
  - apply (Hnewer 11000 "Comment deleted" info).
    + split; reflexivity.
    + discriminate.
    + intros tm [].
Defined.

(** * Further properties of the store *)

(** ** Actions without a token *)

(** X1. Without a token in the store, [submitRating], [postComment],
    [deleteComment], [saveRecipe], [unsaveRecipe] and [loadUserProfile]
    return their failure value and leave store, clock and timers exactly as
    they were, whatever the server would have answered: no request is made
    and nothing is shown. *)
Theorem X1_no_token_no_effect (w : Store.World) :
  Js.truthy_opt (Store.access_token (Store.store w)) = false ->
  (forall recipe_id rating resp,
      Store.submitRating recipe_id rating resp w = (false, w))
  /\ (forall recipe_id comment_text resp,
         Store.postComment recipe_id comment_text resp w = (None, w))
  /\ (forall comment_id resp, Store.deleteComment comment_id resp w = (false, w))
  /\ (forall recipe_id timestamp resp,
         Store.saveRecipe recipe_id timestamp resp w = (false, w))
  /\ (forall recipe_id resp, Store.unsaveRecipe recipe_id resp w = (false, w))
  /\ (forall resp, Store.loadUserProfile resp w = w).
Proof.
  intros Htoken.
  unfold Store.submitRating, Store.postComment, Store.deleteComment,
    Store.saveRecipe, Store.unsaveRecipe, Store.loadUserProfile.
  rewrite Htoken. simpl. repeat split.
Qed.

(** ** Saving and unsaving *)

Lemma existsb_id_map (id : Z) (f : RecipeSummary.t -> RecipeSummary.t)
      (l : list RecipeSummary.t) :
  (forall r, RecipeSummary.recipe_id (f r) = RecipeSummary.recipe_id r) ->
  existsb (fun r => RecipeSummary.recipe_id r =? id) (map f l)
  = existsb (fun r => RecipeSummary.recipe_id r =? id) l.
Proof.
  intros Hf. induction l as [|r l IH]; simpl; [reflexivity|].
  rewrite Hf, IH. reflexivity.
Qed.

Lemma stamp_keeps_id (id : Z) (timestamp : string) (r : RecipeSummary.t) :
  RecipeSummary.recipe_id
    (if RecipeSummary.recipe_id r =? id
     then RecipeSummary.set_saved_at (Some timestamp) r else r)
  = RecipeSummary.recipe_id r.
Proof. destruct (RecipeSummary.recipe_id r =? id); reflexivity. Qed.

Lemma filter_others_stamp (id : Z) (timestamp : string) (l : list RecipeSummary.t) :
  filter (fun r => negb (RecipeSummary.recipe_id r =? id))
         (map (fun r => if RecipeSummary.recipe_id r =? id
                        then RecipeSummary.set_saved_at (Some timestamp) r
                        else r) l)
  = filter (fun r => negb (RecipeSummary.recipe_id r =? id)) l.
Proof.
  induction l as [|r l IH]; simpl; [reflexivity|].
  destruct (RecipeSummary.recipe_id r =? id) eqn:Hid; simpl; rewrite Hid; simpl.
  - exact IH.
  - f_equal. exact IH.
Qed.

Lemma filter_absent (id : Z) (l : list RecipeSummary.t) :
  existsb (fun r => RecipeSummary.recipe_id r =? id) l = false ->
  filter (fun r => negb (RecipeSummary.recipe_id r =? id)) l = l.
Proof.
  induction l as [|r l IH]; simpl; [reflexivity|].
  intros H. apply orb_false_iff in H as [Hr Hl].
  rewrite Hr. simpl. f_equal. auto.
Qed.

(** The saved list after a successful [saveRecipe]. *)
Lemma saveRecipe_saved_recipes (recipe_id : Z) (timestamp : string)
      (message : option string) (w : Store.World) :
  Js.truthy_opt (Store.access_token (Store.store w)) = true ->
  Store.saved_recipes
    (Store.store (snd (Store.saveRecipe recipe_id timestamp
                                        (Store.Resolved message) w)))
  = let stamped :=
      map (fun r => if RecipeSummary.recipe_id r =? recipe_id
                    then RecipeSummary.set_saved_at (Some timestamp) r
                    else r)
          (Store.saved_recipes (Store.store w)) in
    if existsb (fun r => RecipeSummary.recipe_id r =? recipe_id)
               (Store.saved_recipes (Store.store w))
    then stamped
    else stamped ++ [Store.placeholder recipe_id
                       (Store.current_recipe_details (Store.store w)) timestamp].
Proof.
  intros Htoken. unfold Store.saveRecipe. rewrite Htoken. simpl.
  rewrite existsb_id_map by (intros r; apply stamp_keeps_id).
  destruct (existsb _ (Store.saved_recipes (Store.store w))); reflexivity.
Qed.

Lemma placeholder_id (recipe_id : Z) (d : option RecipeDetail.t) (timestamp : string) :
  RecipeSummary.recipe_id (Store.placeholder recipe_id d timestamp) = recipe_id
  /\ RecipeSummary.saved_at (Store.placeholder recipe_id d timestamp)
     = Some timestamp.
Proof. destruct d; split; reflexivity. Qed.

Lemma saveRecipe_others (recipe_id : Z) (timestamp : string)
      (message : option string) (w : Store.World) :
  Js.truthy_opt (Store.access_token (Store.store w)) = true ->
  filter (fun r => negb (RecipeSummary.recipe_id r =? recipe_id))
         (Store.saved_recipes
            (Store.store (snd (Store.saveRecipe recipe_id timestamp
                                                (Store.Resolved message) w))))
  = filter (fun r => negb (RecipeSummary.recipe_id r =? recipe_id))
           (Store.saved_recipes (Store.store w)).
Proof.
  intros Htoken. rewrite saveRecipe_saved_recipes by exact Htoken. simpl.
  destruct (existsb _ (Store.saved_recipes (Store.store w))).
  - apply filter_others_stamp.
  - rewrite filter_app, filter_others_stamp. simpl.
    rewrite (proj1 (placeholder_id _ _ _)), Z.eqb_refl. simpl. apply app_nil_r.
Qed.

(** X2. A successful [saveRecipe] returns true and leaves the recipe in
    [saved_recipes]: the ids of the list are the former ids, followed by
    the recipe's id if it was not among them (one entry is added, never a
    second one); every entry of that recipe carries the new time stamp,
    and the entries of other recipes are untouched. *)
Theorem X2_saveRecipe_success (recipe_id : Z) (timestamp : string)
        (message : option string) (w : Store.World) :
  Js.truthy_opt (Store.access_token (Store.store w)) = true ->
  let before := Store.saved_recipes (Store.store w) in
  let result := Store.saveRecipe recipe_id timestamp (Store.Resolved message) w in
  let after := Store.saved_recipes (Store.store (snd result)) in
  fst result = true
  /\ map RecipeSummary.recipe_id after
     = map RecipeSummary.recipe_id before
       ++ (if existsb (fun r => RecipeSummary.recipe_id r =? recipe_id) before
           then [] else [recipe_id])
  /\ existsb (fun r => RecipeSummary.recipe_id r =? recipe_id) after = true
  /\ (forall r, In r after -> RecipeSummary.recipe_id r = recipe_id ->
                RecipeSummary.saved_at r = Some timestamp)
  /\ filter (fun r => negb (RecipeSummary.recipe_id r =? recipe_id)) after
     = filter (fun r => negb (RecipeSummary.recipe_id r =? recipe_id)) before.
Proof.
  intros Htoken before result after.
  assert (Hafter : after
                   = let stamped :=
                       map (fun r => if RecipeSummary.recipe_id r =? recipe_id
                                     then RecipeSummary.set_saved_at (Some timestamp) r
                                     else r) before in
                     if existsb (fun r => RecipeSummary.recipe_id r =? recipe_id) before
                     then stamped
                     else stamped
                            ++ [Store.placeholder recipe_id
                                  (Store.current_recipe_details (Store.store w))
                                  timestamp]).
  { apply saveRecipe_saved_recipes. exact Htoken. }
  assert (Hids : forall l,
             map RecipeSummary.recipe_id
                 (map (fun r => if RecipeSummary.recipe_id r =? recipe_id
                                then RecipeSummary.set_saved_at (Some timestamp) r
                                else r) l)
             = map RecipeSummary.recipe_id l).
  { intros l. rewrite map_map. apply map_ext. intros r. apply stamp_keeps_id. }
  destruct (placeholder_id recipe_id
              (Store.current_recipe_details (Store.store w)) timestamp)
    as [Hpid Hpstamp].
  split.
  { subst result. unfold Store.saveRecipe. rewrite Htoken. reflexivity. }
  rewrite Hafter. simpl.
  destruct (existsb (fun r => RecipeSummary.recipe_id r =? recipe_id) before)
           eqn:Hpresent.
  - split; [rewrite Hids, app_nil_r; reflexivity|]. split.
    + rewrite existsb_id_map by (intros r; apply stamp_keeps_id). exact Hpresent.
    + split; [|apply filter_others_stamp].
      intros r Hin Hid. apply in_map_iff in Hin as [r0 [Hr0 Hin]].
      destruct (RecipeSummary.recipe_id r0 =? recipe_id) eqn:H0; subst r.
      * reflexivity.
      * apply Z.eqb_neq in H0. contradiction.
  - split; [rewrite map_app, Hids; simpl; rewrite Hpid; reflexivity|]. split.
    + rewrite existsb_app. simpl. rewrite Hpid, Z.eqb_refl.
      rewrite orb_true_r. reflexivity.
    + split.
      * intros r Hin Hid. apply in_app_or in Hin as [Hin|[Heq|[]]].
        -- apply in_map_iff in Hin as [r0 [Hr0 Hin]].
           destruct (RecipeSummary.recipe_id r0 =? recipe_id) eqn:H0; subst r.
           ++ reflexivity.
           ++ apply Z.eqb_neq in H0. contradiction.
        -- subst r. exact Hpstamp.
      * rewrite filter_app, filter_others_stamp. simpl.
        rewrite Hpid, Z.eqb_refl. simpl. apply app_nil_r.
Qed.

Lemma saveRecipe_keeps_token (recipe_id : Z) (timestamp : string)
      (resp : Store.Outcome (option string)) (w : Store.World) :
  Store.access_token
    (Store.store (snd (Store.saveRecipe recipe_id timestamp resp w)))
  = Store.access_token (Store.store w).
Proof.
  unfold Store.saveRecipe.
  destruct (negb (Js.truthy_opt (Store.access_token (Store.store w))));
    [reflexivity|]. destruct resp; reflexivity.
Qed.

Lemma unsaveRecipe_saved_recipes (recipe_id : Z) (message : option string)
      (w : Store.World) :
  Js.truthy_opt (Store.access_token (Store.store w)) = true ->
  Store.saved_recipes
    (Store.store (snd (Store.unsaveRecipe recipe_id (Store.Resolved message) w)))
  = filter (fun r => negb (RecipeSummary.recipe_id r =? recipe_id))
           (Store.saved_recipes (Store.store w)).
Proof.
  intros Htoken. unfold Store.unsaveRecipe. rewrite Htoken. reflexivity.
Qed.

(** X3. Saving a recipe that is not in [saved_recipes] and then unsaving
    it, both with success, gives the list back as it was; and after a
    successful [unsaveRecipe] no entry of the recipe is left, whether it was
    saved once, several times or not at all. *)
Theorem X3_save_then_unsave (recipe_id : Z) (timestamp : string)
        (m1 m2 : option string) (w : Store.World) :
  Js.truthy_opt (Store.access_token (Store.store w)) = true ->
  let saved := snd (Store.saveRecipe recipe_id timestamp (Store.Resolved m1) w) in
  let unsaved := snd (Store.unsaveRecipe recipe_id (Store.Resolved m2) saved) in
  existsb (fun r => RecipeSummary.recipe_id r =? recipe_id)
          (Store.saved_recipes (Store.store unsaved)) = false
  /\ Store.saved_recipes (Store.store unsaved)
     = filter (fun r => negb (RecipeSummary.recipe_id r =? recipe_id))
              (Store.saved_recipes (Store.store w))
  /\ (existsb (fun r => RecipeSummary.recipe_id r =? recipe_id)
              (Store.saved_recipes (Store.store w)) = false ->
      Store.saved_recipes (Store.store unsaved)
      = Store.saved_recipes (Store.store w)).
Proof.
  intros Htoken saved unsaved.
  assert (Htoken' : Js.truthy_opt (Store.access_token (Store.store saved)) = true).
  { subst saved. rewrite saveRecipe_keeps_token. exact Htoken. }
  assert (Hlist : Store.saved_recipes (Store.store unsaved)
                  = filter (fun r => negb (RecipeSummary.recipe_id r =? recipe_id))
                           (Store.saved_recipes (Store.store w))).
  { subst unsaved. rewrite unsaveRecipe_saved_recipes by exact Htoken'.
    subst saved. apply saveRecipe_others. exact Htoken. }
  split; [|split; [exact Hlist|]].
  - rewrite Hlist. apply not_true_is_false. intros Hex.
    apply existsb_exists in Hex as [r [Hin Hid]].
    apply filter_In in Hin as [_ Hne]. rewrite Hid in Hne. discriminate.
  - intros Habsent. rewrite Hlist. apply filter_absent. exact Habsent.
Qed.

(** ** Comments and ratings of the recipe on display *)

Lemma filter_fresh_comment (id : Z) (cs : list RecipeComment.t) :
  (forall c, In c cs -> RecipeComment.comment_id c <> id) ->
  filter (fun c => negb (RecipeComment.comment_id c =? id)) cs = cs.
Proof.
  induction cs as [|c cs IH]; simpl; intros Hfresh; [reflexivity|].
  assert (Hc : (RecipeComment.comment_id c =? id) = false).
  { apply Z.eqb_neq. apply Hfresh. now left. }
  rewrite Hc. simpl. f_equal. apply IH. intros c0 Hin. apply Hfresh. now right.
Qed.

(** X4. With a recipe on display, a successful [postComment] for that
    recipe returns the new comment and appends it to the recipe's comments;
    for another recipe the recipe on display is left alone.  A successful
    [deleteComment] drops the comments of that id and keeps the others in
    order, so posting a comment under a fresh id and deleting it again
    gives the comments back as they were. *)
Theorem X4_post_then_delete_comment
        (d : RecipeDetail.t) (recipe_id : Z) (comment_text : string)
        (newComment : RecipeComment.t) (message : option string) (w : Store.World) :
  Js.truthy_opt (Store.access_token (Store.store w)) = true ->
  Store.current_recipe_details (Store.store w) = Some d ->
  let posted := Store.postComment recipe_id comment_text
                                  (Store.Resolved newComment) w in
  let deleted := Store.deleteComment (RecipeComment.comment_id newComment)
                                     (Store.Resolved message) (snd posted) in
  fst posted = Some newComment
  /\ (RecipeDetail.recipe_id d = recipe_id ->
      Store.current_recipe_details (Store.store (snd posted))
      = Some (RecipeDetail.set_comments (RecipeDetail.comments d ++ [newComment]) d))
  /\ (RecipeDetail.recipe_id d <> recipe_id ->
      Store.current_recipe_details (Store.store (snd posted)) = Some d)
  /\ fst deleted = true
  /\ ((forall c, In c (RecipeDetail.comments d) ->
                 RecipeComment.comment_id c <> RecipeComment.comment_id newComment) ->
      option_map RecipeDetail.comments
                 (Store.current_recipe_details (Store.store (snd deleted)))
      = Some (RecipeDetail.comments d)).
Proof.
  intros Htoken Hd posted deleted. subst deleted posted.
  unfold Store.postComment, Store.deleteComment, Store.showNotification,
    Store.upd.
  rewrite Htoken. simpl. rewrite Hd.
  destruct (RecipeDetail.recipe_id d =? recipe_id) eqn:Hid; simpl;
    rewrite Htoken; simpl; rewrite ?Hd; simpl.
  - apply Z.eqb_eq in Hid. repeat split; try reflexivity.
    + intros Hne. contradiction.
    + intros Hfresh. rewrite filter_app, filter_fresh_comment by exact Hfresh.
      simpl. rewrite Z.eqb_refl. simpl. rewrite app_nil_r. reflexivity.
  - apply Z.eqb_neq in Hid. repeat split; try reflexivity.
    + intros Heq. contradiction.
    + intros Hfresh. rewrite filter_fresh_comment by exact Hfresh. reflexivity.
Qed.

(** X5. With a recipe on display, each successful [submitRating] for that
    recipe stores the average sent by the server and raises [rating_count]
    by exactly one (a count of 0 becomes 1), leaving every other field of
    the recipe; a rating for another recipe leaves the recipe on display
    alone.  The success notification is shown in both cases. *)
Theorem X5_submitRating_success
        (d : RecipeDetail.t) (recipe_id rating : Z)
        (data : Store.RatingResponse.t) (w : Store.World) :
  Js.truthy_opt (Store.access_token (Store.store w)) = true ->
  Store.current_recipe_details (Store.store w) = Some d ->
  let result := Store.submitRating recipe_id rating (Store.Resolved data) w in
  let s' := Store.store (snd result) in
  fst result = true
  /\ Store.notification s'
     = Some (Notification.mk
               (match Store.RatingResponse.message data with
                | Some (String c m) => String c m
                | _ => "Rating submitted"
                end) success)
  /\ (RecipeDetail.recipe_id d = recipe_id ->
      Store.current_recipe_details s'
      = Some (RecipeDetail.set_rating (Store.RatingResponse.average_rating data)
                                      (RecipeDetail.rating_count d + 1) d))
  /\ (RecipeDetail.recipe_id d <> recipe_id ->
      Store.current_recipe_details s' = Some d).
Proof.
  intros Htoken Hd result s'. subst s' result.
  unfold Store.submitRating. rewrite Htoken. simpl. rewrite Hd.
  split; [reflexivity|]. split.
  { destruct (RecipeDetail.recipe_id d =? recipe_id); simpl;
      destruct (Store.RatingResponse.message data) as [[|c m]|]; reflexivity. }
  destruct (RecipeDetail.recipe_id d =? recipe_id) eqn:Hid; simpl.
  - split; [|apply Z.eqb_eq in Hid; intros Hne; contradiction].
    intros _. destruct (RecipeDetail.rating_count d =? 0) eqn:Hc.
    + apply Z.eqb_eq in Hc. rewrite Hc. reflexivity.
    + reflexivity.
  - apply Z.eqb_neq in Hid. split; [intros Heq; contradiction|].
    intros _. exact Hd.
Qed.

(** ** Loading the saved recipes and the profile *)

(** X6. [fetchSavedRecipes] empties [saved_recipes] before its request, so
    after any failed fetch the list is empty and loading is off; unless the
    status was 401 the session (flag, token, summary) is kept and the error
    message recorded.  A successful fetch stores the list of the response,
    or the empty list when the response has none, and clears the error. *)
Theorem X6_fetchSavedRecipes (w : Store.World) :
  Js.truthy_opt (Store.access_token (Store.store w)) = true ->
  (forall e,
      let result := Store.fetchSavedRecipes (Store.Rejected e) w in
      let s' := Store.store (snd result) in
      fst result = false
      /\ Store.saved_recipes s' = []
      /\ Store.saved_recipes_loading s' = false
      /\ (Store.AxiosError.is_401 e = false ->
          Store.is_authenticated s' = Store.is_authenticated (Store.store w)
          /\ Store.access_token s' = Store.access_token (Store.store w)
          /\ Store.user_profile_summary s'
             = Store.user_profile_summary (Store.store w)
          /\ Store.profile_fetch_error s'
             = Some (Store.errorMessage e "Failed to load saved recipes")))
  /\ (forall recipes,
         let result := Store.fetchSavedRecipes (Store.Resolved recipes) w in
         let s' := Store.store (snd result) in
         fst result = true
         /\ Store.saved_recipes s'
            = match recipes with Some l => l | None => [] end
         /\ Store.saved_recipes_loading s' = false
         /\ Store.profile_fetch_error s' = None
         /\ Store.access_token s' = Store.access_token (Store.store w)).
Proof.
  intros Htoken. unfold Store.fetchSavedRecipes. rewrite Htoken. simpl. split.
  - intros e. destruct (Store.AxiosError.is_401 e); simpl; repeat split;
      discriminate.
  - intros recipes. repeat split.
Qed.

(** X7. A profile load that fails with a status other than 401 keeps the
    session: flag, token, summary, profile and saved recipes are what they
    were, the error message is recorded and loading is off.  A successful
    load stores the profile, and a summary that agrees with it on id, name
    and picture. *)
Theorem X7_loadUserProfile (w : Store.World) :
  Js.truthy_opt (Store.access_token (Store.store w)) = true ->
  (forall e,
      Store.AxiosError.is_401 e = false ->
      let s := Store.store w in
      let s' := Store.store (Store.loadUserProfile (Store.Rejected e) w) in
      Store.is_authenticated s' = Store.is_authenticated s
      /\ Store.access_token s' = Store.access_token s
      /\ Store.user_profile_summary s' = Store.user_profile_summary s
      /\ Store.current_user_profile s' = Store.current_user_profile s
      /\ Store.saved_recipes s' = Store.saved_recipes s
      /\ Store.profile_fetch_error s'
         = Some (Store.errorMessage e "Failed to load profile")
      /\ Store.loading_auth s' = false)
  /\ (forall profile,
         let s' := Store.store (Store.loadUserProfile (Store.Resolved profile) w) in
         Store.current_user_profile s' = Some profile
         /\ option_map UserSummary.user_id (Store.user_profile_summary s')
            = Some (UserProfile.user_id profile)
         /\ option_map UserSummary.username (Store.user_profile_summary s')
            = Some (UserProfile.username profile)
         /\ option_map UserSummary.profile_picture_url
                       (Store.user_profile_summary s')
            = Some (UserProfile.profile_picture_url profile)
         /\ Store.access_token s' = Store.access_token (Store.store w)
         /\ Store.is_authenticated s' = Store.is_authenticated (Store.store w)
         /\ Store.loading_auth s' = false).
Proof.
  intros Htoken. unfold Store.loadUserProfile. rewrite Htoken. simpl. split.
  - intros e H401. rewrite H401. simpl. repeat split.
  - intros profile. repeat split.
Qed.

(** ** A notification shown twice *)

(** X8. The timer of a notification clears any notification on display that
    carries the same message: when the same message is shown again before
    the first timer has run, the second notification is gone when the first
    timer is due, less than 3000 ms after it was shown (and whatever its
    type). *)
Theorem X8_same_message_cleared_by_first_timer
        (w : Store.World) (message : string) (type1 type2 : NotificationType)
        (t : Z) :
  Store.now w < t < Store.now w + 3000 ->
  (forall tm, In tm (Store.timers w) -> Store.closed_message tm <> message) ->
  let first := Store.showNotification message type1 w in
  let second := Store.showNotification message type2 (Store.advance_to t first) in
  Store.notification (Store.store second) = Some (Notification.mk message type2)
  /\ Store.notification
       (Store.store (Store.advance_to (Store.now w + 3000) second)) = None
  /\ Store.now w + 3000 < Store.now second + 3000.
Proof.
  intros Ht Hold first second. split; [reflexivity|]. split.
  - rewrite advance_to_store.
    apply (run_timers_clears _ _ (Store.mkTimer (Store.now w + 3000) message))
      with (n := Notification.mk message type2).
    + subst second. simpl. apply in_or_app. left.
      rewrite advance_to_timers.
      assert (Hkept : forall q s,
                 (forall tm, In tm q -> Store.due tm <= t ->
                             Store.closed_message tm <> message) ->
                 In (Store.mkTimer (Store.now w + 3000) message) q ->
                 In (Store.mkTimer (Store.now w + 3000) message)
                    (snd (Store.run_timers t q s))).
      { induction q as [|tm q IH]; intros s Hq Hin; simpl; [exact Hin|].
        destruct (Store.due tm <=? t) eqn:Hd.
        - destruct Hin as [Heq|Hin].
          + subst tm. simpl in Hd. apply Z.leb_le in Hd. lia.
          + apply IH; [|exact Hin]. intros tm0 H0. apply Hq. now right.
        - specialize (IH s).
          destruct (Store.run_timers t q s) as [s' rest]. simpl in *.
          destruct Hin as [Heq|Hin]; [now left|right].
          apply IH; [|exact Hin]. intros tm0 H0. apply Hq. now right. }
      apply Hkept.
      * intros tm Hin Hdue. subst first. simpl in Hin.
        apply in_app_or in Hin as [Hin|[Heq|[]]].
        -- apply Hold. exact Hin.
        -- subst tm. simpl in Hdue. unfold Store.NOTIFICATION_DELAY in Hdue. lia.
      * subst first. simpl. apply in_or_app. right. now left.
    + simpl. lia.
    + reflexivity.
    + reflexivity.
  - subst second. simpl. rewrite advance_to_now. subst first. simpl. lia.
Qed.

(** ** Signing in and registering *)

(** X9. A failed [login] returns false and leaves the store signed out: the
    flag is false, token and summary are null, loading is off and
    [auth_error] holds the message of the failure, whatever session was in
    the store before; no notification is shown.  A successful [login]
    returns true with the flag set and the token and user of the response
    stored; when that token is non-empty the profile load has been started
    ([loading_auth] is on), otherwise it has not; and if that profile load
    is then refused with 401, the store is signed out again. *)
Theorem X9_login (w : Store.World) :
  (forall e,
      let result := StoreAuth.login (Store.Rejected e) w in
      let s' := Store.store (snd result) in
      fst result = false
      /\ Store.is_authenticated s' = false
      /\ Store.access_token s' = None
      /\ Store.user_profile_summary s' = None
      /\ Store.loading_auth s' = false
      /\ Store.auth_error s' = Some (Store.errorMessage e "Login failed")
      /\ Store.notification s' = Store.notification (Store.store w)
      /\ Store.timers (snd result) = Store.timers w)
  /\ (forall data,
         let result := StoreAuth.login (Store.Resolved data) w in
         let s' := Store.store (snd result) in
         fst result = true
         /\ Store.is_authenticated s' = true
         /\ Store.access_token s' = StoreAuth.LoginResponse.access_token data
         /\ Store.user_profile_summary s' = StoreAuth.LoginResponse.user data
         /\ Store.auth_error s' = None
         /\ Store.loading_auth s'
            = Js.truthy_opt (StoreAuth.LoginResponse.access_token data)
         /\ (forall e,
                Js.truthy_opt (StoreAuth.LoginResponse.access_token data) = true ->
                Store.AxiosError.is_401 e = true ->
                logged_out
                  (Store.store (Store.loadUserProfile (Store.Rejected e)
                                                      (snd result))))).
Proof.
  split.
  - intros e. repeat split.
  - intros data. unfold StoreAuth.login, StoreAuth.loadUserProfile_begin. simpl.
    destruct (Js.truthy_opt (StoreAuth.LoginResponse.access_token data))
             eqn:Htoken; simpl.
    + repeat (split; [reflexivity|]). intros e _ H401.
      unfold Store.loadUserProfile. simpl. rewrite Htoken, H401.
      repeat split.
    + repeat (split; [reflexivity|]). intros e Hno. discriminate.
Qed.

(** ** Validation and editing of the recipe form *)

Lemma snd_check (cond : bool)
      (assign : UV_SubmitRecipe.FormErrors.t -> UV_SubmitRecipe.FormErrors.t)
      (st : UV_SubmitRecipe.FormErrors.t * bool) :
  snd (UV_SubmitRecipe.check cond assign st) = negb cond && snd st.
Proof. unfold UV_SubmitRecipe.check. destruct cond; reflexivity. Qed.

Lemma check_errors_agree (cond : bool)
      (assign : UV_SubmitRecipe.FormErrors.t -> UV_SubmitRecipe.FormErrors.t)
      (st : UV_SubmitRecipe.FormErrors.t * bool) :
  (forall e, assign e <> UV_SubmitRecipe.FormErrors.empty
             /\ UV_SubmitRecipe.FormErrors._form (assign e)
                = UV_SubmitRecipe.FormErrors._form e
             /\ UV_SubmitRecipe.FormErrors.difficulty_level (assign e)
                = UV_SubmitRecipe.FormErrors.difficulty_level e
             /\ UV_SubmitRecipe.FormErrors.tags (assign e)
                = UV_SubmitRecipe.FormErrors.tags e) ->
  UV_SubmitRecipeForm.errors_agree st -> UV_SubmitRecipeForm.errors_agree (UV_SubmitRecipe.check cond assign st).
Proof.
  intros Hassign [Hiff [Hf [Hd Ht]]]. unfold UV_SubmitRecipe.check.
  destruct cond; [|repeat split; tauto].
  destruct (Hassign (fst st)) as [Hne [Hf' [Hd' Ht']]].
  unfold UV_SubmitRecipeForm.errors_agree. simpl. rewrite Hf', Hd', Ht'.
  repeat split; try assumption; intros H; [contradiction|discriminate].
Qed.

Lemma filled_iff (s : string) :
  negb (Js.truthy (Js.trim s)) = false <-> UV_SubmitRecipeForm.filled s.
Proof.
  unfold UV_SubmitRecipeForm.filled. pose proof (trim_blank_iff s) as [H1 H2].
  destruct (Js.truthy (Js.trim s)), (Js.only_white_space s); simpl; split;
    intros H; try reflexivity; try discriminate;
    try discriminate (H1 eq_refl); discriminate (H2 eq_refl).
Qed.

Lemma positive_iff (x : UV_SubmitRecipe.FormNumber) :
  UV_SubmitRecipe.empty_or_not_positive x = false <-> UV_SubmitRecipeForm.positive x.
Proof.
  unfold UV_SubmitRecipeForm.positive. destruct x as [| |q]; simpl.
  - split; [discriminate|intros [q [H _]]; discriminate].
  - split; [discriminate|intros [q [H _]]; discriminate].
  - split.
    + intros H. exists q. split; [reflexivity|].
      apply Qnot_le_lt. intros Hle. apply Qle_bool_iff in Hle. congruence.
    + intros [q' [Hq Hpos]]. injection Hq as <-.
      destruct (Qle_bool q 0) eqn:Hb; [|reflexivity].
      apply Qle_bool_iff in Hb. exfalso. exact (Qlt_not_le _ _ Hpos Hb).
Qed.

Lemma not_negative_iff (x : UV_SubmitRecipe.FormNumber) :
  UV_SubmitRecipe.present_and_negative x = false
  <-> UV_SubmitRecipeForm.not_negative x.
Proof.
  unfold UV_SubmitRecipeForm.not_negative. destruct x as [| |q]; simpl.
  - split; [discriminate|reflexivity].
  - split; [discriminate|reflexivity].
  - rewrite negb_false_iff, Qle_bool_iff. split.
    + intros H q' Hq. injection Hq as <-. exact H.
    + intros H. apply H. reflexivity.
Qed.

Lemma cover_photo_iff (d : UV_SubmitRecipe.RecipeFormData.t) :
  negb (match UV_SubmitRecipe.RecipeFormData.cover_photo_file d with
        | Some _ => true
        | None => false
        end)
  && negb (Js.truthy_opt (UV_SubmitRecipe.RecipeFormData.cover_photo_url d))
  = false
  <-> (UV_SubmitRecipe.RecipeFormData.cover_photo_file d <> None
       \/ exists url, UV_SubmitRecipe.RecipeFormData.cover_photo_url d = Some url
                      /\ url <> "").
Proof.
  destruct (UV_SubmitRecipe.RecipeFormData.cover_photo_file d) as [f|];
    destruct (UV_SubmitRecipe.RecipeFormData.cover_photo_url d) as [[|c u]|];
    simpl; split; intros H; try reflexivity; try discriminate;
    try (left; discriminate);
    try (right; eexists; split; [reflexivity|discriminate]).
  - destruct H as [H|[url [H Hne]]]; [congruence|].
    injection H as <-. congruence.
  - destruct H as [H|[url [H Hne]]]; [congruence|discriminate].
Qed.

Lemma some_none_iff {A : Type} (p : A -> bool) (l : list A) :
  UV_SubmitRecipe.is_nil l || existsb p l = false
  <-> l <> [] /\ forall x, In x l -> p x = false.
Proof.
  rewrite orb_false_iff. split.
  - intros [Hnil Hex]. split; [intros ->; discriminate|].
    intros x Hx. destruct (p x) eqn:Hp; [|reflexivity].
    assert (existsb p l = true) by (apply existsb_exists; eauto). congruence.
  - intros [Hne Hall]. split; [destruct l; [congruence|reflexivity]|].
    destruct (existsb p l) eqn:Hex; [|reflexivity].
    apply existsb_exists in Hex. destruct Hex as [x [Hx Hp]].
    rewrite (Hall x Hx) in Hp. discriminate.
Qed.

Lemma bad_ingredient_iff (ing : UV_SubmitRecipe.FormIngredient.t) :
  UV_SubmitRecipe.bad_ingredient ing = false
  <-> UV_SubmitRecipeForm.filled (UV_SubmitRecipe.FormIngredient.name ing)
      /\ UV_SubmitRecipeForm.positive (UV_SubmitRecipe.FormIngredient.quantity ing).
Proof.
  unfold UV_SubmitRecipe.bad_ingredient.
  rewrite orb_false_iff, filled_iff, positive_iff. reflexivity.
Qed.

Lemma validate_recipe_form_valid (d : UV_SubmitRecipe.RecipeFormData.t) :
  snd (UV_SubmitRecipe.validate_recipe_form d) = true
  <-> UV_SubmitRecipeForm.complete d.
Proof.
  unfold UV_SubmitRecipe.validate_recipe_form, UV_SubmitRecipeForm.complete.
  cbv zeta. rewrite !snd_check. cbn [snd].
  rewrite !andb_true_iff, !negb_true_iff.
  rewrite !filled_iff, !positive_iff, !not_negative_iff, cover_photo_iff,
    !some_none_iff.
  assert (Hing : (forall x, In x (UV_SubmitRecipe.RecipeFormData.ingredients d) ->
                            UV_SubmitRecipe.bad_ingredient x = false)
                 <-> (forall ing, In ing (UV_SubmitRecipe.RecipeFormData.ingredients d) ->
                        UV_SubmitRecipeForm.filled (UV_SubmitRecipe.FormIngredient.name ing)
                        /\ UV_SubmitRecipeForm.positive
                             (UV_SubmitRecipe.FormIngredient.quantity ing))).
  { split; intros H x Hx; apply bad_ingredient_iff; auto. }
  assert (Hinst : (forall x, In x (UV_SubmitRecipe.RecipeFormData.instructions d) ->
                             UV_SubmitRecipe.bad_instruction x = false)
                  <-> (forall inst, In inst (UV_SubmitRecipe.RecipeFormData.instructions d) ->
                         UV_SubmitRecipeForm.filled
                           (UV_SubmitRecipe.FormInstruction.description inst))).
  { split; intros H x Hx; specialize (H x Hx);
      unfold UV_SubmitRecipe.bad_instruction in *; apply filled_iff; exact H. }
  rewrite Hing, Hinst. tauto.
Qed.

Lemma validate_recipe_form_errors_agree (d : UV_SubmitRecipe.RecipeFormData.t) :
  UV_SubmitRecipeForm.errors_agree (UV_SubmitRecipe.validate_recipe_form d).
Proof.
  unfold UV_SubmitRecipe.validate_recipe_form. cbv zeta.
  repeat (apply check_errors_agree;
          [intros e; repeat split; try reflexivity; discriminate|]).
  unfold UV_SubmitRecipeForm.errors_agree. simpl. tauto.
Qed.

(** X10. The validation of the recipe form accepts exactly the complete
    forms: title and description hold more than white space, there is a
    cover photo (a file or a non-empty address), the two times and the
    servings are positive numbers, there is at least one ingredient and
    every ingredient has a name and a positive quantity, there is at least
    one step and every step has a description, and no nutrition figure is
    negative.  The form is reported valid exactly when no error key was
    assigned, and the keys [_form], [difficulty_level] and [tags] are never
    assigned. *)
Theorem X10_validate_recipe_form_accepts_complete_forms
        (d : UV_SubmitRecipe.RecipeFormData.t) :
  let (errors, isValid) := UV_SubmitRecipe.validate_recipe_form d in
  (isValid = true <-> UV_SubmitRecipeForm.complete d)
  /\ (errors = UV_SubmitRecipe.FormErrors.empty <-> isValid = true)
  /\ UV_SubmitRecipe.FormErrors._form errors = None
  /\ UV_SubmitRecipe.FormErrors.difficulty_level errors = None
  /\ UV_SubmitRecipe.FormErrors.tags errors = None.
Proof.
  pose proof (validate_recipe_form_valid d) as Hv.
  pose proof (validate_recipe_form_errors_agree d) as Ha.
  destruct (UV_SubmitRecipe.validate_recipe_form d) as [errors isValid].
  unfold UV_SubmitRecipeForm.errors_agree in Ha. simpl in Hv, Ha. tauto.
Qed.

(** X11. A submission starts the mutation exactly when the form that the
    validation reads is complete, and then with the form data of the view;
    either way the errors of the view are replaced by those of this
    validation (an earlier [_form] error is gone), and nothing else of the
    view changes. *)
Theorem X11_handle_recipe_submit
        (closure : UV_SubmitRecipe.RecipeFormData.t) (v : UV_SubmitRecipe.View) :
  let (v', started) := UV_SubmitRecipe.handle_recipe_submit closure v in
  (UV_SubmitRecipeForm.complete closure ->
   started = Some (UV_SubmitRecipe.recipe_form_data v)
   /\ UV_SubmitRecipe.form_errors v' = UV_SubmitRecipe.FormErrors.empty)
  /\ (~ UV_SubmitRecipeForm.complete closure ->
      started = None
      /\ UV_SubmitRecipe.form_errors v' <> UV_SubmitRecipe.FormErrors.empty)
  /\ UV_SubmitRecipe.FormErrors._form (UV_SubmitRecipe.form_errors v') = None
  /\ UV_SubmitRecipe.recipe_form_data v' = UV_SubmitRecipe.recipe_form_data v
  /\ UV_SubmitRecipe.is_submitting v' = UV_SubmitRecipe.is_submitting v
  /\ UV_SubmitRecipe.is_editing v' = UV_SubmitRecipe.is_editing v
  /\ UV_SubmitRecipe.current_recipe_id v' = UV_SubmitRecipe.current_recipe_id v.
Proof.
  pose proof (validate_recipe_form_valid closure) as Hv.
  pose proof (validate_recipe_form_errors_agree closure) as Ha.
  unfold UV_SubmitRecipe.handle_recipe_submit.
  destruct (UV_SubmitRecipe.validate_recipe_form closure) as [errors isValid].
  unfold UV_SubmitRecipeForm.errors_agree in Ha. simpl in Hv, Ha.
  destruct Ha as [Hiff [Hf _]].
  destruct isValid; simpl; (split; [|split; [|repeat split; assumption]]).
  - intros _. split; [reflexivity|]. apply Hiff. reflexivity.
  - intros Hn. exfalso. apply Hn, Hv. reflexivity.
  - intros Hc. apply Hv in Hc. discriminate.
  - intros _. split; [reflexivity|]. intros He. apply Hiff in He. discriminate.
Qed.

(** ** Editing the lists of the recipe form *)

Lemma remove_at_before {A : Type} (index i : Z) (l : list A) :
  index < i -> UV_SubmitRecipeForm.remove_at index i l = l.
Proof.
  revert i. induction l as [|x l IH]; intros i Hlt; simpl; [reflexivity|].
  destruct (Z.eqb_spec i index); [lia|]. rewrite IH by lia. reflexivity.
Qed.

Lemma remove_at_split {A : Type} (index i : Z) (l : list A) :
  i <= index ->
  UV_SubmitRecipeForm.remove_at index i l
  = firstn (Z.to_nat (index - i)) l ++ skipn (S (Z.to_nat (index - i))) l.
Proof.
  revert i. induction l as [|x l IH]; intros i Hle; simpl.
  - rewrite firstn_nil. reflexivity.
  - destruct (Z.eqb_spec i index) as [->|Hne].
    + rewrite Z.sub_diag. simpl. apply remove_at_before. lia.
    + rewrite IH by lia.
      replace (Z.to_nat (index - i)) with (S (Z.to_nat (index - (i + 1)))) by lia.
      reflexivity.
Qed.

Lemma remove_at_beyond {A : Type} (index : Z) (l : list A) :
  Z.of_nat (List.length l) <= index ->
  UV_SubmitRecipeForm.remove_at index 0 l = l.
Proof.
  intros Hle. destruct (Z_lt_le_dec index 0) as [Hneg|Hpos].
  - apply remove_at_before. exact Hneg.
  - rewrite remove_at_split by exact Hpos. rewrite Z.sub_0_r.
    rewrite firstn_all2 by lia. rewrite skipn_all2 by lia. apply app_nil_r.
Qed.

Lemma remove_at_length {A : Type} (index : Z) (l : list A) :
  0 <= index < Z.of_nat (List.length l) ->
  S (List.length (UV_SubmitRecipeForm.remove_at index 0 l)) = List.length l.
Proof.
  intros [H0 Hlt]. rewrite remove_at_split by exact H0. rewrite Z.sub_0_r.
  rewrite length_app, length_firstn, length_skipn. lia.
Qed.

(** X12. Adding a step or an ingredient appends a blank entry and touches
    nothing else.  The form starts with its steps numbered 1, 2, ..., and
    adding a step keeps them so: the new step comes last and takes the next
    number.  With the blank entry in it the form does not pass the
    validation, whatever else it holds. *)
Theorem X12_adding_a_step_or_an_ingredient
        (d : UV_SubmitRecipe.RecipeFormData.t) :
  UV_SubmitRecipeForm.numbered
    (UV_SubmitRecipe.RecipeFormData.instructions UV_SubmitRecipe.RecipeFormData.initial)
  /\ (UV_SubmitRecipeForm.numbered (UV_SubmitRecipe.RecipeFormData.instructions d) ->
      UV_SubmitRecipeForm.numbered
        (UV_SubmitRecipe.RecipeFormData.instructions
           (UV_SubmitRecipeForm.add_instruction_step d)))
  /\ (exists step,
         UV_SubmitRecipe.RecipeFormData.instructions
           (UV_SubmitRecipeForm.add_instruction_step d)
         = UV_SubmitRecipe.RecipeFormData.instructions d ++ [step]
         /\ UV_SubmitRecipe.FormInstruction.description step = ""
         /\ UV_SubmitRecipe.FormInstruction.step_number step
            = Z.of_nat (List.length (UV_SubmitRecipe.RecipeFormData.instructions d)) + 1)
  /\ (exists ing,
         UV_SubmitRecipe.RecipeFormData.ingredients
           (UV_SubmitRecipeForm.add_ingredient d)
         = UV_SubmitRecipe.RecipeFormData.ingredients d ++ [ing]
         /\ UV_SubmitRecipe.FormIngredient.name ing = ""
         /\ UV_SubmitRecipe.FormIngredient.quantity ing = UV_SubmitRecipe.Empty)
  /\ UV_SubmitRecipeForm.with_instructions
       (UV_SubmitRecipe.RecipeFormData.instructions d)
       (UV_SubmitRecipeForm.add_instruction_step d) = d
  /\ UV_SubmitRecipeForm.with_ingredients
       (UV_SubmitRecipe.RecipeFormData.ingredients d)
       (UV_SubmitRecipeForm.add_ingredient d) = d
  /\ snd (UV_SubmitRecipe.validate_recipe_form
            (UV_SubmitRecipeForm.add_instruction_step d)) = false
  /\ snd (UV_SubmitRecipe.validate_recipe_form
            (UV_SubmitRecipeForm.add_ingredient d)) = false.
Proof.
  split; [reflexivity|]. split; [|split; [|split; [|split; [|split; [|split]]]]].
  - unfold UV_SubmitRecipeForm.numbered, UV_SubmitRecipeForm.add_instruction_step.
    simpl. intros Hn. rewrite map_app, length_app, Hn. simpl.
    rewrite seq_app, map_app. simpl. do 2 f_equal. lia.
  - eexists. split; [reflexivity|]. split; reflexivity.
  - eexists. split; [reflexivity|]. split; reflexivity.
  - destruct d; reflexivity.
  - destruct d; reflexivity.
  - destruct (snd (UV_SubmitRecipe.validate_recipe_form
                     (UV_SubmitRecipeForm.add_instruction_step d))) eqn:Hv;
      [|reflexivity].
    apply validate_recipe_form_valid in Hv.
    destruct Hv as [_ [_ [_ [_ [_ [_ [_ [[_ Hsteps] _]]]]]]]].
    specialize (Hsteps (UV_SubmitRecipe.FormInstruction.mk
                          None
                          (Z.of_nat (List.length
                                       (UV_SubmitRecipe.RecipeFormData.instructions d))
                           + 1) "")).
    simpl in Hsteps. rewrite in_app_iff in Hsteps.
    discriminate Hsteps. right. left. reflexivity.
  - destruct (snd (UV_SubmitRecipe.validate_recipe_form
                     (UV_SubmitRecipeForm.add_ingredient d))) eqn:Hv;
      [|reflexivity].
    apply validate_recipe_form_valid in Hv.
    destruct Hv as [_ [_ [_ [_ [_ [_ [[_ Hings] _]]]]]]].
    specialize (Hings (UV_SubmitRecipe.FormIngredient.mk
                         None UV_SubmitRecipe.Empty None "")).
    simpl in Hings. rewrite in_app_iff in Hings.
    destruct Hings as [Hname _]; [right; left; reflexivity|]. discriminate Hname.
Qed.

(** X13. Removing by position: a position outside the list leaves the form
    as it is; a position inside takes out that one entry and keeps the
    others in order.  Ingredients and steps are removed independently of
    each other. *)
Theorem X13_remove_by_position
        (index : Z) (d : UV_SubmitRecipe.RecipeFormData.t) :
  let ingredients := UV_SubmitRecipe.RecipeFormData.ingredients d in
  let instructions := UV_SubmitRecipe.RecipeFormData.instructions d in
  (index < 0 \/ Z.of_nat (List.length ingredients) <= index ->
   UV_SubmitRecipeForm.remove_ingredient index d = d)
  /\ (index < 0 \/ Z.of_nat (List.length instructions) <= index ->
      UV_SubmitRecipeForm.remove_instruction_step index d = d)
  /\ (0 <= index < Z.of_nat (List.length ingredients) ->
      UV_SubmitRecipe.RecipeFormData.ingredients
        (UV_SubmitRecipeForm.remove_ingredient index d)
      = firstn (Z.to_nat index) ingredients
        ++ skipn (S (Z.to_nat index)) ingredients
      /\ S (List.length (UV_SubmitRecipe.RecipeFormData.ingredients
                           (UV_SubmitRecipeForm.remove_ingredient index d)))
         = List.length ingredients)
  /\ (0 <= index < Z.of_nat (List.length instructions) ->
      UV_SubmitRecipe.RecipeFormData.instructions
        (UV_SubmitRecipeForm.remove_instruction_step index d)
      = firstn (Z.to_nat index) instructions
        ++ skipn (S (Z.to_nat index)) instructions
      /\ S (List.length (UV_SubmitRecipe.RecipeFormData.instructions
                           (UV_SubmitRecipeForm.remove_instruction_step index d)))
         = List.length instructions)
  /\ UV_SubmitRecipe.RecipeFormData.instructions
       (UV_SubmitRecipeForm.remove_ingredient index d) = instructions
  /\ UV_SubmitRecipe.RecipeFormData.ingredients
       (UV_SubmitRecipeForm.remove_instruction_step index d) = ingredients.
Proof.
  cbv zeta. repeat split.
  - intros [Hneg|Hbig]; unfold UV_SubmitRecipeForm.remove_ingredient;
      [rewrite remove_at_before by lia|rewrite remove_at_beyond by lia];
      destruct d; reflexivity.
  - intros [Hneg|Hbig]; unfold UV_SubmitRecipeForm.remove_instruction_step;
      [rewrite remove_at_before by lia|rewrite remove_at_beyond by lia];
      destruct d; reflexivity.
  - simpl. rewrite remove_at_split by lia. rewrite Z.sub_0_r. reflexivity.
  - simpl. apply remove_at_length. assumption.
  - simpl. rewrite remove_at_split by lia. rewrite Z.sub_0_r. reflexivity.
  - simpl. apply remove_at_length. assumption.
Qed.

Lemma last_number_stays (n k : nat) :
  (k < n)%nat -> In (Z.of_nat n) (skipn k (map Z.of_nat (seq 1 n))).
Proof.
  intros Hlt. rewrite skipn_map, skipn_seq. apply in_map, in_seq. lia.
Qed.

(** X14. When the steps are numbered 1, 2, ..., n and a step other than the
    last is removed, the step added next takes the number n a second time:
    the numbers held by the form are no longer distinct.  The request built
    from such a form still numbers the steps by position. *)
Theorem X14_remove_then_add_repeats_a_step_number
        (index : Z) (d : UV_SubmitRecipe.RecipeFormData.t)
        (v : UV_SubmitRecipe.View) :
  UV_SubmitRecipeForm.numbered (UV_SubmitRecipe.RecipeFormData.instructions d) ->
  0 <= index
  < Z.of_nat (List.length (UV_SubmitRecipe.RecipeFormData.instructions d)) - 1 ->
  let d' := UV_SubmitRecipeForm.add_instruction_step
              (UV_SubmitRecipeForm.remove_instruction_step index d) in
  ~ NoDup (map UV_SubmitRecipe.FormInstruction.step_number
               (UV_SubmitRecipe.RecipeFormData.instructions d'))
  /\ ~ UV_SubmitRecipeForm.numbered (UV_SubmitRecipe.RecipeFormData.instructions d')
  /\ map UV_SubmitRecipe.FormInstruction.step_number
         (UV_SubmitRecipe.payload_instructions (UV_SubmitRecipe.mutationFn v d'))
     = map Z.of_nat
           (seq 1 (List.length (UV_SubmitRecipe.RecipeFormData.instructions d))).
Proof.
  intros Hn Hidx d'.
  set (l := UV_SubmitRecipe.RecipeFormData.instructions d) in *.
  assert (Hlen : S (List.length (UV_SubmitRecipeForm.remove_at index 0 l))
                 = List.length l) by (apply remove_at_length; lia).
  assert (Hd' : UV_SubmitRecipe.RecipeFormData.instructions d'
                = UV_SubmitRecipeForm.remove_at index 0 l
                  ++ [UV_SubmitRecipe.FormInstruction.mk
                        None (Z.of_nat (List.length l)) ""]).
  { unfold d', UV_SubmitRecipeForm.add_instruction_step. simpl. fold l.
    do 3 f_equal. lia. }
  assert (Hdup : ~ NoDup (map UV_SubmitRecipe.FormInstruction.step_number
                              (UV_SubmitRecipe.RecipeFormData.instructions d'))).
  { rewrite Hd', map_app. simpl. intros Hnd.
    apply NoDup_remove_2 in Hnd. apply Hnd. rewrite app_nil_r.
    rewrite remove_at_split by lia. rewrite Z.sub_0_r, map_app.
    apply in_or_app. right. rewrite <- skipn_map. unfold UV_SubmitRecipeForm.numbered in Hn.
    rewrite Hn. apply last_number_stays. lia. }
  split; [exact Hdup|]. split.
  - intros Hnum. apply Hdup. unfold UV_SubmitRecipeForm.numbered in Hnum.
    rewrite Hnum. apply NoDup_map_NoDup_ForallPairs; [|apply seq_NoDup].
    intros a b _ _ H. lia.
  - rewrite payload_instructions_mutationFn, step_numbers_map_index, Hd'.
    rewrite length_app. simpl.
    replace (List.length (UV_SubmitRecipeForm.remove_at index 0 l) + 1)%nat
      with (List.length l) by lia.
    apply map_ext. intros k. lia.
Qed.

(** ** Tags of the recipe form *)

Lemma includes_In (x : string) (xs : list string) :
  Items.includes x xs = true <-> In x xs.
Proof.
  unfold Items.includes. rewrite existsb_exists. split.
  - intros [t [Ht Heq]]. apply String.eqb_eq in Heq. subst. exact Ht.
  - intros Hin. exists x. split; [exact Hin|apply String.eqb_refl].
Qed.

Lemma filter_other_items (x : string) (xs : list string) :
  ~ In x xs -> filter (fun t => negb (String.eqb t x)) xs = xs.
Proof.
  induction xs as [|t xs IH]; intros Hnot; simpl; [reflexivity|].
  destruct (String.eqb_spec t x) as [->|Hne]; simpl.
  - exfalso. apply Hnot. left. reflexivity.
  - rewrite IH; [reflexivity|]. intros Hin. apply Hnot. right. exact Hin.
Qed.

(** Toggling an item changes the membership of that item and of no other,
    keeps distinct items distinct, and undoes the addition of an item. *)
Lemma toggle_spec (x : string) (xs : list string) :
  (In x (Items.toggle x xs) <-> ~ In x xs)
  /\ (forall t, t <> x -> (In t (Items.toggle x xs) <-> In t xs))
  /\ (NoDup xs -> NoDup (Items.toggle x xs))
  /\ (~ In x xs -> Items.toggle x (Items.toggle x xs) = xs).
Proof.
  unfold Items.toggle at 1 2 3 4.
  destruct (Items.includes x xs) eqn:Hinc.
  - apply includes_In in Hinc. repeat split.
    + intros Hin. apply filter_In in Hin. destruct Hin as [_ Hne].
      rewrite String.eqb_refl in Hne. discriminate.
    + intros Hnot. contradiction.
    + intros Hin. apply filter_In in Hin. tauto.
    + intros Hin. apply filter_In. split; [exact Hin|].
      destruct (String.eqb_spec t x); [contradiction|reflexivity].
    + intros Hnd. apply NoDup_filter. exact Hnd.
    + intros Hnot. contradiction.
  - assert (Hnot : ~ In x xs).
    { intros Hin. apply includes_In in Hin. congruence. }
    repeat split.
    + intros _. exact Hnot.
    + intros _. apply in_or_app. right. left. reflexivity.
    + intros Hin. apply in_app_or in Hin. destruct Hin as [Hin|[Heq|[]]];
        [exact Hin|congruence].
    + intros Hin. apply in_or_app. left. exact Hin.
    + intros Hnd. apply NoDup_snoc; assumption.
    + intros _. unfold Items.toggle.
      assert (Hinc' : Items.includes x (xs ++ [x]) = true).
      { apply includes_In, in_or_app. right. left. reflexivity. }
      rewrite Hinc, Hinc'. rewrite filter_app, filter_other_items by exact Hnot.
      simpl. rewrite String.eqb_refl. simpl. apply app_nil_r.
Qed.

(** X15. Choosing a tag toggles it and nothing else: afterwards the tag is
    among the tags of the form exactly when it was not before, every other
    tag is there exactly when it was before, tags that were distinct stay
    distinct, and choosing a tag that was not there twice in a row gives
    back the form as it was. *)
Theorem X15_handleTagChange_toggles
        (tag : string) (d : UV_SubmitRecipe.RecipeFormData.t) :
  let tags := UV_SubmitRecipe.RecipeFormData.tags d in
  let tags' := UV_SubmitRecipe.RecipeFormData.tags
                 (UV_SubmitRecipeForm.handleTagChange tag d) in
  (In tag tags' <-> ~ In tag tags)
  /\ (forall t, t <> tag -> (In t tags' <-> In t tags))
  /\ (NoDup tags -> NoDup tags')
  /\ (~ In tag tags ->
      UV_SubmitRecipeForm.handleTagChange
        tag (UV_SubmitRecipeForm.handleTagChange tag d) = d).
Proof.
  cbv zeta. unfold UV_SubmitRecipeForm.handleTagChange. simpl.
  destruct (toggle_spec tag (UV_SubmitRecipe.RecipeFormData.tags d))
    as [H1 [H2 [H3 H4]]].
  repeat split; try apply H1; try apply H2; try assumption.
  intros Hnot. rewrite (H4 Hnot). destruct d; reflexivity.
Qed.

(** ** The cover photo of the recipe form *)

(** X16. A file that is not an image, or is larger than 5 MB, is refused:
    the form data keep the photo they had, the key [cover_photo] gets an
    error and an error notification is shown.  A file that passes both
    checks becomes the photo of the form, with its preview address, and
    the error is cleared; the validation of the component, which reads the
    form of the first render, still asks for a photo when the form is
    submitted, and no request is started.  Cancelling the choice drops the
    file; outside of editing it drops the address as well. *)
Theorem X16_handle_cover_photo_change
        (f : UV_SubmitRecipe.File.t) (objectURL : string)
        (v : UV_SubmitRecipe.View) (w : Store.World) :
  let accepted := String.prefix "image/" (UV_SubmitRecipe.File.type f)
                  && (UV_SubmitRecipe.File.size f <=? 5242880) in
  let picked := UV_SubmitRecipeForm.handle_cover_photo_change (Some f) objectURL (v, w) in
  let cancelled := UV_SubmitRecipeForm.handle_cover_photo_change None objectURL (v, w) in
  (accepted = false ->
   UV_SubmitRecipe.recipe_form_data (fst picked) = UV_SubmitRecipe.recipe_form_data v
   /\ UV_SubmitRecipe.FormErrors.cover_photo (UV_SubmitRecipe.form_errors (fst picked))
      <> None
   /\ exists message, notifies message w (snd picked))
  /\ (accepted = true ->
      UV_SubmitRecipe.RecipeFormData.cover_photo_file
        (UV_SubmitRecipe.recipe_form_data (fst picked)) = Some f
      /\ UV_SubmitRecipe.RecipeFormData.cover_photo_url
           (UV_SubmitRecipe.recipe_form_data (fst picked)) = Some objectURL
      /\ UV_SubmitRecipe.FormErrors.cover_photo (UV_SubmitRecipe.form_errors (fst picked))
         = None
      /\ snd picked = w
      /\ (let submitted := UV_SubmitRecipe.handle_recipe_submit
                             UV_SubmitRecipe.validation_closure (fst picked) in
          UV_SubmitRecipe.FormErrors.cover_photo
            (UV_SubmitRecipe.form_errors (fst submitted))
          = Some "Recipe cover photo is required."
          /\ snd submitted = None))
  /\ UV_SubmitRecipe.RecipeFormData.cover_photo_file
       (UV_SubmitRecipe.recipe_form_data (fst cancelled)) = None
  /\ snd cancelled = w
  /\ (UV_SubmitRecipe.is_editing v = false ->
      UV_SubmitRecipe.RecipeFormData.cover_photo_url
        (UV_SubmitRecipe.recipe_form_data (fst cancelled)) = None).
Proof.
  cbv zeta. unfold UV_SubmitRecipeForm.handle_cover_photo_change,
              UV_SubmitRecipeForm.MAX_FILE_SIZE.
  rewrite Z.gtb_ltb, Z.ltb_antisym. change (5 * 1024 * 1024) with 5242880.
  split; [|split; [|split; [|split]]].
  - intros Hacc.
    destruct (String.prefix "image/" (UV_SubmitRecipe.File.type f)); simpl in *.
    + rewrite Hacc. simpl. split; [reflexivity|]. split; [discriminate|].
      eexists. split; reflexivity.
    + split; [reflexivity|]. split; [discriminate|].
      eexists. split; reflexivity.
  - intros Hacc. apply andb_true_iff in Hacc. destruct Hacc as [Hp Hs].
    rewrite Hp, Hs. simpl. repeat split.
  - reflexivity.
  - reflexivity.
  - intros He. rewrite He. reflexivity.
Qed.

(** ** The search-results view *)

(** X17. In the search-results view, [handleSortChange] writes the new sort
    order to the local state, to the store and to the URL's [sort_by] (also
    when the order is 'newest'), and resets the page to 1 in all three;
    [handlePageChange], for a page the results offer, writes the page to
    the local state, to the store and to the URL's [page].  The other URL
    parameters, the search text [q] among them, stay as they were. *)
Theorem X17_search_handlers_update_url_and_store
        (v : UV_SearchResults.View) (w : Store.World) :
  (forall newSortOrder : string,
      let after := UV_SearchResults.handleSortChange newSortOrder (v, w) in
      let url := UV_SearchResults.searchParams (fst after) in
      Store.sort_order (Store.store (snd after)) = newSortOrder
      /\ UV_SearchResults.local_sort_order (fst after) = newSortOrder
      /\ UV_SearchResults.local_page (fst after) = 1
      /\ PaginationInfo.current_page
           (PaginatedRecipesResponse.pagination
              (Store.paginated_recipes (Store.store (snd after)))) = 1
      /\ URLSearchParams.getAll "sort_by" url = [newSortOrder]
      /\ URLSearchParams.getAll "page" url = ["1"]
      /\ (forall k, String.eqb "sort_by" k = false -> String.eqb "page" k = false ->
                    URLSearchParams.getAll k url
                    = URLSearchParams.getAll k (UV_SearchResults.searchParams v))
      /\ URLSearchParams.get "q" url
         = URLSearchParams.get "q" (UV_SearchResults.searchParams v))
  /\ (forall (pageNumber : Z) (results : PaginatedRecipesResponse.t),
         UV_SearchResults.searchResults v = Some results ->
         1 <= pageNumber
         <= PaginationInfo.total_pages (PaginatedRecipesResponse.pagination results) ->
         let after := UV_SearchResults.handlePageChange pageNumber (v, w) in
         let url := UV_SearchResults.searchParams (fst after) in
         UV_SearchResults.local_page (fst after) = pageNumber
         /\ PaginationInfo.current_page
              (PaginatedRecipesResponse.pagination
                 (Store.paginated_recipes (Store.store (snd after)))) = pageNumber
         /\ Store.sort_order (Store.store (snd after)) = Store.sort_order (Store.store w)
         /\ URLSearchParams.getAll "page" url = [Js.String_of pageNumber]
         /\ (forall k, String.eqb "page" k = false ->
                       URLSearchParams.getAll k url
                       = URLSearchParams.getAll k (UV_SearchResults.searchParams v))
         /\ URLSearchParams.get "q" url
            = URLSearchParams.get "q" (UV_SearchResults.searchParams v)).
Proof.
  split.
  - intros newSortOrder. cbv zeta. simpl.
    repeat split.
    + rewrite getAll_set_other by reflexivity. apply getAll_set_same.
    + apply getAll_set_same.
    + intros k Hs Hp. rewrite getAll_set_other by exact Hp.
      apply getAll_set_other. exact Hs.
    + rewrite !get_getAll. rewrite !getAll_set_other by reflexivity. reflexivity.
  - intros pageNumber results Hresults [Hlow Hhigh]. cbv zeta.
    unfold UV_SearchResults.handlePageChange. rewrite Hresults.
    replace (pageNumber >? 0) with true by (symmetry; apply Z.gtb_lt; lia).
    replace (pageNumber
             <=? PaginationInfo.total_pages
                   (PaginatedRecipesResponse.pagination results))
      with true by (symmetry; apply Z.leb_le; lia).
    simpl. repeat split.
    + apply getAll_set_same.
    + intros k Hp. apply getAll_set_other. exact Hp.
    + rewrite !get_getAll. rewrite getAll_set_other by reflexivity. reflexivity.
Qed.

(** X18. Clearing the filters of the search-results view resets the
    filters, the sort order and the page, in the local state and in the
    store; in the URL the five filter parameters are gone, [sort_by] is
    'newest' and [page] is 1, while the search text [q] and any other
    parameter stay.  The store's search text and recipes are not touched. *)
Theorem X18_search_handleClearFilters
        (v : UV_SearchResults.View) (w : Store.World) :
  let after := UV_SearchResultsFilters.handleClearFilters (v, w) in
  let url := UV_SearchResults.searchParams (fst after) in
  UV_SearchResults.local_filter_params (fst after) = FilterParams.default
  /\ UV_SearchResults.local_sort_order (fst after) = "newest"
  /\ UV_SearchResults.local_page (fst after) = 1
  /\ Store.filter_params (Store.store (snd after)) = FilterParams.default
  /\ Store.sort_order (Store.store (snd after)) = "newest"
  /\ PaginationInfo.current_page
       (PaginatedRecipesResponse.pagination
          (Store.paginated_recipes (Store.store (snd after)))) = 1
  /\ Store.search_query (Store.store (snd after)) = Store.search_query (Store.store w)
  /\ PaginatedRecipesResponse.recipes
       (Store.paginated_recipes (Store.store (snd after)))
     = PaginatedRecipesResponse.recipes (Store.paginated_recipes (Store.store w))
  /\ (forall k, In k ["tags"; "difficulty"; "max_prep_time"; "max_cook_time";
                      "min_rating"] ->
                URLSearchParams.getAll k url = [])
  /\ URLSearchParams.getAll "sort_by" url = ["newest"]
  /\ URLSearchParams.getAll "page" url = ["1"]
  /\ (forall k, ~ In k ["tags"; "difficulty"; "max_prep_time"; "max_cook_time";
                        "min_rating"; "sort_by"; "page"] ->
                URLSearchParams.getAll k url
                = URLSearchParams.getAll k (UV_SearchResults.searchParams v))
  /\ URLSearchParams.get "q" url
     = URLSearchParams.get "q" (UV_SearchResults.searchParams v).
Proof.
  cbv zeta. simpl.
  assert (Hkeep : forall k,
             ~ In k ["tags"; "difficulty"; "max_prep_time"; "max_cook_time";
                     "min_rating"; "sort_by"; "page"] ->
             URLSearchParams.getAll
               k (URLSearchParams.set "page" "1"
                    (URLSearchParams.set "sort_by" "newest"
                       (URLSearchParams.delete "min_rating"
                          (URLSearchParams.delete "max_cook_time"
                             (URLSearchParams.delete "max_prep_time"
                                (URLSearchParams.delete "difficulty"
                                   (URLSearchParams.delete "tags"
                                      (UV_SearchResults.searchParams v))))))))
             = URLSearchParams.getAll k (UV_SearchResults.searchParams v)).
  { intros k Hk.
    assert (Hne : forall k', In k' ["tags"; "difficulty"; "max_prep_time";
                                    "max_cook_time"; "min_rating"; "sort_by"; "page"] ->
                             String.eqb k' k = false).
    { intros k' Hin. destruct (String.eqb_spec k' k) as [->|]; [contradiction|reflexivity]. }
    rewrite !getAll_set_other by (apply Hne; simpl; tauto).
    rewrite !getAll_delete_other by (apply Hne; simpl; tauto).
    reflexivity. }
  repeat split.
  - intros k Hk. rewrite !getAll_set_other
      by (simpl in Hk; decompose [or] Hk; subst; try reflexivity; contradiction).
    simpl in Hk. decompose [or] Hk; subst; try contradiction;
      repeat first [apply getAll_delete_same
                   |rewrite getAll_delete_other by reflexivity].
  - rewrite getAll_set_other by reflexivity. apply getAll_set_same.
  - apply getAll_set_same.
  - exact Hkeep.
  - rewrite !get_getAll. rewrite Hkeep; [reflexivity|].
    simpl. intros H. decompose [or] H; try discriminate; contradiction.
Qed.

(** X19. A search with an empty text sends no request and yields an empty
    page; with a text, the request carries [q] followed by exactly the
    parameters the browse view sends for the same filters, order, page and
    limit.  The view's query takes the text from the URL and the rest from
    its local state.  Page and limit are safe integers, which print in
    plain decimal; the filters are any numbers. *)
Theorem X19_fetch_search_results
        (query : string) (filters : FilterParams.t) (sort : string)
        (page limit : Z) (v : UV_SearchResults.View) :
  (query = "" ->
   UV_SearchResultsFilters.fetch_search_results query filters sort page limit
   = UV_SearchResultsFilters.Returned
       (PaginatedRecipesResponse.mk [] (PaginationInfo.mk 0 0 1 limit)))
  /\ (query <> "" ->
      JsNumber.safe_integer page ->
      JsNumber.safe_integer limit ->
      UV_SearchResultsFilters.fetch_search_results query filters sort page limit
      = UV_SearchResultsFilters.Requested
          (("q", query) :: UV_BrowseRecipes.fetchRecipesFn filters sort page limit))
  /\ (forall text,
         URLSearchParams.get "q" (UV_SearchResults.searchParams v) = Some text ->
         text <> "" ->
         JsNumber.safe_integer (UV_SearchResults.local_page v) ->
         exists queryParams,
           UV_SearchResultsFilters.queryFn v
           = UV_SearchResultsFilters.Requested queryParams
           /\ URLSearchParams.getAll "q" queryParams = [text]
           /\ URLSearchParams.getAll "sort_by" queryParams
              = [UV_SearchResults.local_sort_order v]
           /\ URLSearchParams.getAll "page" queryParams
              = [Js.String_of (UV_SearchResults.local_page v)])
  /\ (URLSearchParams.get "q" (UV_SearchResults.searchParams v) = None
      \/ URLSearchParams.get "q" (UV_SearchResults.searchParams v) = Some "" ->
      UV_SearchResultsFilters.queryFn v
      = UV_SearchResultsFilters.Returned
          (PaginatedRecipesResponse.mk [] (PaginationInfo.mk 0 0 1 10))).
Proof.
  assert (Hreq : forall q f s p l, q <> "" ->
             UV_SearchResultsFilters.fetch_search_results q f s p l
             = UV_SearchResultsFilters.Requested
                 (("q", q) :: UV_BrowseRecipes.fetchRecipesFn f s p l)).
  { intros q f s p l Hq. unfold UV_SearchResultsFilters.fetch_search_results.
    destruct q as [|c q]; [congruence|]. simpl.
    unfold UV_BrowseRecipes.fetchRecipesFn.
    destruct f as [tags difficulty prep cook rating]. simpl.
    destruct tags, difficulty, prep, cook, rating; reflexivity. }
  split; [|split; [|split]].
  - intros ->. reflexivity.
  - intros Hq _ _. apply Hreq. exact Hq.
  - intros text Hget Hne _. unfold UV_SearchResultsFilters.queryFn,
      UV_SearchResultsFilters.current_search_query_from_url.
    rewrite Hget. destruct text as [|c text]; [congruence|]. simpl Js.or_else.
    simpl Js.truthy. simpl negb. cbv iota.
    rewrite Hreq by discriminate. eexists. split; [reflexivity|].
    change ((?a, ?b) :: ?l) with ([(a, b)] ++ l).
    pose proof (queryFn_sort_and_page
                  (UV_BrowseRecipes.mkView
                     (UV_SearchResults.local_filter_params v)
                     (UV_SearchResults.local_sort_order v)
                     (UV_SearchResults.local_page v)
                     (UV_SearchResultsFilters.limit v) [] None)) as [Hs Hp].
    unfold UV_BrowseRecipes.queryFn in Hs, Hp. simpl in Hs, Hp.
    change (("q", String c text)
              :: UV_BrowseRecipes.fetchRecipesFn
                   (UV_SearchResults.local_filter_params v)
                   (UV_SearchResults.local_sort_order v)
                   (UV_SearchResults.local_page v)
                   (UV_SearchResultsFilters.limit v))
      with ([("q", String c text)]
              ++ UV_BrowseRecipes.fetchRecipesFn
                   (UV_SearchResults.local_filter_params v)
                   (UV_SearchResults.local_sort_order v)
                   (UV_SearchResults.local_page v)
                   (UV_SearchResultsFilters.limit v)).
    rewrite !getAll_app, Hs, Hp. repeat split.
    unfold UV_BrowseRecipes.fetchRecipesFn.
    destruct (UV_SearchResults.local_filter_params v)
      as [tags difficulty prep cook rating]. simpl.
    destruct tags, difficulty, prep, cook, rating; reflexivity.
  - intros Hget. unfold UV_SearchResultsFilters.queryFn,
      UV_SearchResultsFilters.current_search_query_from_url.
    destruct Hget as [-> | ->]; reflexivity.
Qed.

Lemma to_partial_spread (f g : FilterParams.t) :
  FilterParams.spread f (FilterParams.to_partial g) = g.
Proof. destruct g; reflexivity. Qed.

(** X20. A filter change in the search-results view puts the new value in
    the local filters and makes the store's filters equal to the local
    ones, resets the page to 1 in the local state, the store and the URL,
    and writes the filter to the URL: a list as one parameter with its
    items joined by commas, a number as [String] prints it, while an empty
    list or no number removes the parameter.  The other URL parameters
    stay as they were. *)
Theorem X20_search_handleFilterChange
        (c : UV_SearchResultsFilters.FilterChange)
        (v : UV_SearchResults.View) (w : Store.World) :
  let after := UV_SearchResultsFilters.handleFilterChange c (v, w) in
  let url := UV_SearchResults.searchParams (fst after) in
  let name := UV_SearchResultsFilters.filterName c in
  UV_SearchResults.local_filter_params (fst after)
  = UV_SearchResultsFilters.assign c (UV_SearchResults.local_filter_params v)
  /\ Store.filter_params (Store.store (snd after))
     = UV_SearchResults.local_filter_params (fst after)
  /\ UV_SearchResults.local_page (fst after) = 1
  /\ PaginationInfo.current_page
       (PaginatedRecipesResponse.pagination
          (Store.paginated_recipes (Store.store (snd after)))) = 1
  /\ URLSearchParams.getAll name url
     = match UV_SearchResultsFilters.written c with
       | Some text => [text]
       | None => []
       end
  /\ URLSearchParams.getAll "page" url = ["1"]
  /\ (forall k, String.eqb name k = false -> String.eqb "page" k = false ->
                URLSearchParams.getAll k url
                = URLSearchParams.getAll k (UV_SearchResults.searchParams v)).
Proof.
  cbv zeta. unfold UV_SearchResultsFilters.handleFilterChange.
  cbn [fst snd].
  assert (Hname : String.eqb "page" (UV_SearchResultsFilters.filterName c) = false)
    by (destruct c; reflexivity).
  split; [reflexivity|]. split.
  { simpl. apply to_partial_spread. }
  split; [reflexivity|]. split; [reflexivity|].
  simpl UV_SearchResults.searchParams.
  destruct (UV_SearchResultsFilters.written c) as [text|]; repeat split.
  - rewrite getAll_set_other by exact Hname. apply getAll_set_same.
  - apply getAll_set_same.
  - intros k Hk Hp. rewrite getAll_set_other by exact Hp.
    apply getAll_set_other. exact Hk.
  - rewrite getAll_set_other by exact Hname. apply getAll_delete_same.
  - apply getAll_set_same.
  - intros k Hk Hp. rewrite getAll_set_other by exact Hp.
    apply getAll_delete_other. exact Hk.
Qed.

Lemma split_commas_app (x rest : string) :
  UV_SearchResultsFilters.comma_free x = true ->
  UV_SearchResultsFilters.split_commas (x ++ "," ++ rest)%string
  = x :: UV_SearchResultsFilters.split_commas rest.
Proof.
  induction x as [|c x IH]; intros Hfree; simpl.
  - reflexivity.
  - simpl in Hfree. apply andb_true_iff in Hfree. destruct Hfree as [Hc Hx].
    apply negb_true_iff in Hc.
    change (Ascii.eqb c ",") with (Ascii.eqb c ","%char) in Hc.
    rewrite Hc. simpl in IH. rewrite (IH Hx). reflexivity.
Qed.

Lemma split_commas_one (x : string) :
  UV_SearchResultsFilters.comma_free x = true ->
  UV_SearchResultsFilters.split_commas x = [x].
Proof.
  induction x as [|c x IH]; intros Hfree; simpl; [reflexivity|].
  simpl in Hfree. apply andb_true_iff in Hfree. destruct Hfree as [Hc Hx].
  apply negb_true_iff in Hc. rewrite Hc, (IH Hx). reflexivity.
Qed.

Lemma split_commas_join (xs : list string) :
  xs <> [] ->
  Forall (fun x => UV_SearchResultsFilters.comma_free x = true) xs ->
  UV_SearchResultsFilters.split_commas (Js.join "," xs) = xs.
Proof.
  induction xs as [|x xs IH]; intros Hne Hall; [congruence|].
  inversion Hall as [|? ? Hx Hxs]; subst.
  destruct xs as [|y xs].
  - simpl. apply split_commas_one. exact Hx.
  - change (Js.join "," (x :: y :: xs))
      with (x ++ "," ++ Js.join "," (y :: xs))%string.
    rewrite split_commas_app by exact Hx. f_equal. apply IH; [discriminate|exact Hxs].
Qed.

Lemma join_truthy (x : string) (xs : list string) :
  x <> "" -> Js.truthy (Js.join "," (x :: xs)) = true.
Proof.
  intros Hx. destruct x as [|c x]; [congruence|]. destruct xs; reflexivity.
Qed.

(** X21. The tags the search-results view writes to the URL are the tags
    it reads back from the URL on its first render, provided no tag is
    empty or contains a comma; the same holds for the difficulty levels. *)
Theorem X21_search_list_filters_round_trip
        (value : list string) (v : UV_SearchResults.View) (w : Store.World) :
  Forall (fun x => x <> "" /\ UV_SearchResultsFilters.comma_free x = true) value ->
  UV_SearchResultsFilters.list_of_param
    (URLSearchParams.get
       "tags"
       (UV_SearchResults.searchParams
          (fst (UV_SearchResultsFilters.handleFilterChange
                  (UV_SearchResultsFilters.tags value) (v, w))))) = value
  /\ UV_SearchResultsFilters.list_of_param
       (URLSearchParams.get
          "difficulty"
          (UV_SearchResults.searchParams
             (fst (UV_SearchResultsFilters.handleFilterChange
                     (UV_SearchResultsFilters.difficulty value) (v, w))))) = value.
Proof.
  intros Hall.
  assert (Hread : forall name,
             String.eqb "page" name = false ->
             UV_SearchResultsFilters.list_of_param
               (URLSearchParams.get
                  name
                  (URLSearchParams.set
                     "page" "1"
                     match value with
                     | [] => URLSearchParams.delete name (UV_SearchResults.searchParams v)
                     | _ :: _ =>
                         URLSearchParams.set name (Js.join "," value)
                                             (UV_SearchResults.searchParams v)
                     end)) = value).
  { intros name Hname. rewrite get_getAll, getAll_set_other by exact Hname.
    destruct value as [|x xs].
    - rewrite getAll_delete_same. reflexivity.
    - rewrite getAll_set_same. cbn [hd_error].
      unfold UV_SearchResultsFilters.list_of_param.
      inversion Hall as [|? ? [Hx Hfree] Hxs]; subst.
      rewrite join_truthy by exact Hx.
      apply split_commas_join; [discriminate|].
      constructor; [exact Hfree|].
      eapply Forall_impl; [|exact Hxs]. intros a [_ Ha]. exact Ha. }
  split.
  - specialize (Hread "tags" eq_refl).
    unfold UV_SearchResultsFilters.handleFilterChange. simpl.
    destruct value; exact Hread.
  - specialize (Hread "difficulty" eq_refl).
    unfold UV_SearchResultsFilters.handleFilterChange. simpl.
    destruct value; exact Hread.
Qed.

(** ** The browse view: clearing and choosing filters *)

(** X22. Clearing the filters of the browse view resets the local filters,
    sort order and page; in the store it resets filters, sort order, search
    text and the page of recipes; the URL is left with [page=1] alone, and
    the next fetch asks for the first page in the order 'newest' with no
    filter. *)
Theorem X22_browse_handleClearFilters
        (v : UV_BrowseRecipes.View) (w : Store.World) :
  let after := UV_BrowseRecipes.handleClearFilters (v, w) in
  UV_BrowseRecipes.localFilterParams (fst after) = FilterParams.default
  /\ UV_BrowseRecipes.localSortOrder (fst after) = "newest"
  /\ UV_BrowseRecipes.currentPage (fst after) = 1
  /\ UV_BrowseRecipes.searchParams (fst after) = [("page", "1")]
  /\ Store.filter_params (Store.store (snd after)) = FilterParams.default
  /\ Store.sort_order (Store.store (snd after)) = "newest"
  /\ Store.search_query (Store.store (snd after)) = ""
  /\ Store.paginated_recipes (Store.store (snd after))
     = PaginatedRecipesResponse.mk [] (PaginationInfo.mk 0 0 1 10)
  /\ Store.access_token (Store.store (snd after)) = Store.access_token (Store.store w)
  /\ Store.saved_recipes (Store.store (snd after)) = Store.saved_recipes (Store.store w)
  /\ UV_BrowseRecipes.queryFn (fst after)
     = [("sort_by", "newest"); ("page", "1");
        ("limit", Js.String_of (UV_BrowseRecipes.itemsPerPage v))].
Proof.
  cbv zeta. repeat split.
Qed.

(** X23. The state update requested by choosing a tag or a difficulty in
    the browse view toggles it in the local filters only: the new list is
    the old one with the item taken out or put at the end, the item is in
    it exactly when it was not before, and the URL, the page, the sort
    order and the other filters are as they were.  (What the component's
    effect does with that state afterwards is not stated.) *)
Theorem X23_browse_filter_toggles
        (item : string) (v : UV_BrowseRecipes.View) :
  let f := UV_BrowseRecipes.localFilterParams v in
  let byTag := UV_BrowseRecipesFilters.handleTagFilterToggle item v in
  let byDifficulty := UV_BrowseRecipesFilters.handleDifficultyFilterFilterToggle item v in
  (In item (FilterParams.tags (UV_BrowseRecipes.localFilterParams byTag))
   <-> ~ In item (FilterParams.tags f))
  /\ (In item (FilterParams.difficulty (UV_BrowseRecipes.localFilterParams byDifficulty))
      <-> ~ In item (FilterParams.difficulty f))
  /\ FilterParams.difficulty (UV_BrowseRecipes.localFilterParams byTag)
     = FilterParams.difficulty f
  /\ FilterParams.tags (UV_BrowseRecipes.localFilterParams byDifficulty)
     = FilterParams.tags f
  /\ UV_BrowseRecipes.searchParams byTag = UV_BrowseRecipes.searchParams v
  /\ UV_BrowseRecipes.searchParams byDifficulty = UV_BrowseRecipes.searchParams v
  /\ UV_BrowseRecipes.currentPage byTag = UV_BrowseRecipes.currentPage v
  /\ UV_BrowseRecipes.localSortOrder byTag = UV_BrowseRecipes.localSortOrder v
  /\ FilterParams.tags (UV_BrowseRecipes.localFilterParams byTag)
     = Items.toggle item (FilterParams.tags f)
  /\ FilterParams.difficulty (UV_BrowseRecipes.localFilterParams byDifficulty)
     = Items.toggle item (FilterParams.difficulty f).
Proof.
  cbv zeta. split; [|split].
  - apply toggle_spec.
  - apply toggle_spec.
  - repeat split.
Qed.

(** ** The recipe view: saving and unsaving *)




(** ** The recipe view: comments *)

(** X25. Commenting from the recipe view, signed in.  A comment of white
    space only is turned down in the view: the error 'Comment cannot be
    empty' is set and the store is left alone, whatever [postComment] would
    do.  Otherwise, when the request succeeds the comment is returned, the
    input is emptied and, the recipe on display being the one commented,
    the comment is the last of its comments; when the request is rejected
    the input keeps its text and the store's error message is on display.
    Either way the view is no longer posting and has no comment error.
    Deleting a comment that the user does not confirm changes nothing. *)
Theorem X25_comment_mutations
        (id : Z) (comment_text : string)
        (l : UV_RecipeView.RecipeViewLocalState) (w : Store.World)
        (d : RecipeDetail.t) :
  Js.truthy_opt (Store.access_token (Store.store w)) = true ->
  Store.current_recipe_details (Store.store w) = Some d ->
  RecipeDetail.recipe_id d = id ->
  (Js.only_white_space comment_text = true ->
   forall postComment,
     UV_RecipeViewActions.commentMutation postComment true (Some id) comment_text (l, w)
     = (None, (UV_RecipeViewActions.set_comment_error
                 (Some "Comment cannot be empty") l, w)))
  /\ (Js.only_white_space comment_text = false ->
      (forall c,
          let result :=
            UV_RecipeViewActions.commentMutation
              (fun id text w => Store.postComment id text (Store.Resolved c) w)
              true (Some id) comment_text (l, w) in
          fst result = Some c
          /\ UV_RecipeView.comment_input (fst (snd result)) = ""
          /\ UV_RecipeView.is_posting_comment (fst (snd result)) = false
          /\ UV_RecipeView.comment_error (fst (snd result)) = None
          /\ option_map RecipeDetail.comments
                        (Store.current_recipe_details (Store.store (snd (snd result))))
             = Some (RecipeDetail.comments d ++ [c]))
      /\ (forall e,
             let result :=
               UV_RecipeViewActions.commentMutation
                 (fun id text w => Store.postComment id text (Store.Rejected e) w)
                 true (Some id) comment_text (l, w) in
             fst result = None
             /\ UV_RecipeView.comment_input (fst (snd result))
                = UV_RecipeView.comment_input l
             /\ UV_RecipeView.is_posting_comment (fst (snd result)) = false
             /\ UV_RecipeView.comment_error (fst (snd result)) = None
             /\ notifies (Store.errorMessage e "Failed to post comment") w
                         (snd (snd result))))
  /\ (forall deleteComment comment_id,
         UV_RecipeViewActions.deleteCommentMutation deleteComment true false
                                                    comment_id w
         = (false, w)).
Proof.
  intros Htoken Hd Hid. split; [|split].
  - intros Hblank postComment. apply trim_blank_iff in Hblank.
    unfold UV_RecipeViewActions.commentMutation. rewrite Hblank. reflexivity.
  - intros Hfilled.
    assert (Htext : Js.truthy (Js.trim comment_text) = true).
    { destruct (Js.truthy (Js.trim comment_text)) eqn:Ht; [reflexivity|].
      apply trim_blank_iff in Ht. congruence. }
    split.
    + intros c result. subst result.
      unfold UV_RecipeViewActions.commentMutation, Store.postComment.
      rewrite Htext, Htoken. simpl. unfold Store.upd. simpl.
      rewrite Hd, Hid, Z.eqb_refl. simpl. repeat split.
    + intros e result. subst result.
      unfold UV_RecipeViewActions.commentMutation, Store.postComment.
      rewrite Htext, Htoken. simpl. repeat split.
  - intros deleteComment comment_id. reflexivity.
Qed.

(** X26. Clicking a tag of a recipe makes that tag the only tag filter of
    the store, empties the search text and navigates to the browse page;
    the other filters of the store, the sort order and the session are not
    touched. *)
Theorem X26_handleTagClick (tag : string) (w : Store.World) :
  let after := fst (UV_RecipeViewActions.handleTagClick tag w) in
  let before := Store.filter_params (Store.store w) in
  snd (UV_RecipeViewActions.handleTagClick tag w) = "/browse"
  /\ FilterParams.tags (Store.filter_params (Store.store after)) = [tag]
  /\ FilterParams.difficulty (Store.filter_params (Store.store after))
     = FilterParams.difficulty before
  /\ FilterParams.max_prep_time (Store.filter_params (Store.store after))
     = FilterParams.max_prep_time before
  /\ FilterParams.max_cook_time (Store.filter_params (Store.store after))
     = FilterParams.max_cook_time before
  /\ FilterParams.min_rating (Store.filter_params (Store.store after))
     = FilterParams.min_rating before
  /\ Store.search_query (Store.store after) = ""
  /\ Store.sort_order (Store.store after) = Store.sort_order (Store.store w)
  /\ Store.access_token (Store.store after) = Store.access_token (Store.store w)
  /\ Store.timers after = Store.timers w.
Proof.
  cbv zeta. repeat split.
Qed.

(** ** The saved-recipes view: its query *)

(** X27. The query of the saved-recipes page never writes [saved_recipes]:
    its callbacks call [setSavedRecipes], which the store does not define.
    [onSuccess] throws at once and leaves the store as it is, the recipes
    of the response not stored; [onError] shows its notification and then
    throws, the list not emptied.  Whatever the request answers, the list
    is afterwards what it was. *)
Theorem X27_saved_recipes_query_never_writes_the_list
        (resp : Store.Outcome savedRecipesQuery.PaginatedSavedRecipesResponse)
        (w : Store.World) :
  let r := UV_UserSavedRecipes.render w in
  let thrown := UV_UserSavedRecipes.TypeError "setSavedRecipes" in
  (forall data,
      savedRecipesQuery.onSuccess r data w = (Store.Rejected thrown, w))
  /\ (forall e,
         savedRecipesQuery.onError r e w
         = (Store.Rejected thrown,
            Store.showNotification
              (Js.or_str (Store.AxiosError.message e)
                         "Could not load saved recipes.") error w))
  /\ Store.saved_recipes (Store.store (snd (savedRecipesQuery.settle r resp w)))
     = Store.saved_recipes (Store.store w)
  /\ Store.access_token (Store.store (snd (savedRecipesQuery.settle r resp w)))
     = Store.access_token (Store.store w).
Proof.
  cbv zeta. split; [reflexivity|]. split; [reflexivity|].
  unfold savedRecipesQuery.settle, savedRecipesQuery.fetchSavedRecipes,
    UV_UserSavedRecipes.render.
  cbn [UV_UserSavedRecipes.accessToken].
  destruct (Js.truthy_opt (Store.access_token (Store.store w)));
    [|split; reflexivity].
  cbn [negb]. destruct resp; split; reflexivity.
Qed.

(** ** The password-reset view *)

Lemma allowed_not_line_terminator (c : ascii) :
  UV_PasswordReset.allowed c = true -> UV_PasswordReset.line_terminator c = false.
Proof.
  destruct c as [b0 b1 b2 b3 b4 b5 b6 b7].
  destruct b0, b1, b2, b3, b4, b5, b6, b7; vm_compute; congruence.
Qed.

Lemma ahead_occurs (class : ascii -> bool) (s : string) :
  UV_PasswordReset.all UV_PasswordReset.allowed s = true ->
  UV_PasswordReset.ahead class s = UV_PasswordReset.occurs class s.
Proof.
  induction s as [|c s IH]; simpl; [reflexivity|].
  intros Hall. apply andb_true_iff in Hall. destruct Hall as [Hc Hs].
  rewrite (allowed_not_line_terminator c Hc), (IH Hs). reflexivity.
Qed.

Lemma PASSWORD_REGEX_test_iff (s : string) :
  UV_PasswordReset.PASSWORD_REGEX_test s = true
  <-> (8 <= Z.of_nat (String.length s)
       /\ UV_PasswordReset.all UV_PasswordReset.allowed s = true
       /\ UV_PasswordReset.occurs UV_PasswordReset.lower s = true
       /\ UV_PasswordReset.occurs UV_PasswordReset.upper s = true
       /\ UV_PasswordReset.occurs UV_PasswordReset.digit s = true
       /\ UV_PasswordReset.occurs UV_PasswordReset.special s = true).
Proof.
  unfold UV_PasswordReset.PASSWORD_REGEX_test.
  rewrite !andb_true_iff, Z.leb_le. split.
  - intros [[[[[Hl Hu] Hd] Hs] Hall] Hlen].
    rewrite !ahead_occurs in * by exact Hall. tauto.
  - intros [Hlen [Hall [Hl [Hu [Hd Hs]]]]].
    rewrite !ahead_occurs by exact Hall. tauto.
Qed.

(** X28. The password-reset form is valid exactly when the new password
    has at least eight characters, all of them letters, digits or one of
    @$!%*?&, with a lower-case letter, an upper-case letter, a digit and one
    of the special characters among them, and the confirmation repeats it;
    and then, and only then, every error text is empty.  A password of
    eight or more characters one of which is outside those classes is
    turned down with the text about the four kinds of character, whatever
    it contains. *)
Theorem X28_validate_password_inputs (data : UV_PasswordReset.PasswordResetData.t) :
  let new_password := UV_PasswordReset.PasswordResetData.new_password data in
  let confirm_password := UV_PasswordReset.PasswordResetData.confirm_password data in
  let (errors, isValid) := UV_PasswordReset.validate_password_inputs data in
  (isValid = true
   <-> (8 <= Z.of_nat (String.length new_password)
        /\ UV_PasswordReset.all UV_PasswordReset.allowed new_password = true
        /\ UV_PasswordReset.occurs UV_PasswordReset.lower new_password = true
        /\ UV_PasswordReset.occurs UV_PasswordReset.upper new_password = true
        /\ UV_PasswordReset.occurs UV_PasswordReset.digit new_password = true
        /\ UV_PasswordReset.occurs UV_PasswordReset.special new_password = true
        /\ confirm_password = new_password))
  /\ (isValid = true <-> errors = UV_PasswordReset.FormErrors.mk "" "" "")
  /\ (8 <= Z.of_nat (String.length new_password) ->
      UV_PasswordReset.all UV_PasswordReset.allowed new_password = false ->
      UV_PasswordReset.FormErrors.new_password errors
      = "Password must contain uppercase, lowercase, number, and special character.").
Proof.
  destruct data as [new_password confirm_password]. cbv zeta.
  unfold UV_PasswordReset.validate_password_inputs,
    UV_PasswordReset.MIN_PASSWORD_LENGTH.
  cbn [UV_PasswordReset.PasswordResetData.new_password
         UV_PasswordReset.PasswordResetData.confirm_password].
  pose proof (PASSWORD_REGEX_test_iff new_password) as Hre.
  assert (Hlen0 : new_password = "" -> ~ 8 <= Z.of_nat (String.length new_password))
    by (intros ->; simpl; lia).
  destruct (Js.truthy new_password) eqn:Hnew; cbn [negb].
  - destruct (Z.ltb_spec (Z.of_nat (String.length new_password)) 8) as [Hshort|Hlong].
    + destruct (Js.truthy confirm_password) eqn:Hconf; cbn [negb];
        [destruct (String.eqb_spec new_password confirm_password); cbn [negb]|];
        (split; [split; [discriminate|intros [H _]; lia]|]);
        (split; [split; discriminate|intros H; lia]).
    + destruct (UV_PasswordReset.PASSWORD_REGEX_test new_password) eqn:Htest;
        cbn [negb].
      * assert (Hok : 8 <= Z.of_nat (String.length new_password)
                      /\ UV_PasswordReset.all UV_PasswordReset.allowed new_password
                         = true
                      /\ UV_PasswordReset.occurs UV_PasswordReset.lower new_password
                         = true
                      /\ UV_PasswordReset.occurs UV_PasswordReset.upper new_password
                         = true
                      /\ UV_PasswordReset.occurs UV_PasswordReset.digit new_password
                         = true
                      /\ UV_PasswordReset.occurs UV_PasswordReset.special new_password
                         = true) by (apply Hre; reflexivity).
        destruct (Js.truthy confirm_password) eqn:Hconf; cbn [negb].
        -- destruct (String.eqb_spec new_password confirm_password) as [Heq|Hne];
             cbn [negb andb].
           ++ split; [split; [intros _; subst; tauto|reflexivity]|].
              split; [split; reflexivity|].
              intros _ Hbad. destruct Hok as [_ [Hall _]]. congruence.
           ++ split; [split; [discriminate|intros H; exfalso; apply Hne; symmetry; tauto]|].
              split; [split; discriminate|].
              intros _ Hbad. destruct Hok as [_ [Hall _]]. congruence.
        -- cbn [andb].
           split; [split; [discriminate|]|].
           { intros H. destruct H as [_ [_ [_ [_ [_ [_ Heq]]]]]].
             subst confirm_password. congruence. }
           split; [split; discriminate|].
           intros _ Hbad. destruct Hok as [_ [Hall _]]. congruence.
      * assert (Hno : ~ (8 <= Z.of_nat (String.length new_password)
                         /\ UV_PasswordReset.all UV_PasswordReset.allowed new_password
                            = true
                         /\ UV_PasswordReset.occurs UV_PasswordReset.lower new_password
                            = true
                         /\ UV_PasswordReset.occurs UV_PasswordReset.upper new_password
                            = true
                         /\ UV_PasswordReset.occurs UV_PasswordReset.digit new_password
                            = true
                         /\ UV_PasswordReset.occurs UV_PasswordReset.special new_password
                            = true)).
        { intros H. apply Hre in H. discriminate. }
        destruct (Js.truthy confirm_password) eqn:Hconf; cbn [negb];
          [destruct (String.eqb_spec new_password confirm_password); cbn [negb]|];
          cbn [andb];
          (split; [split; [discriminate|intros H; exfalso; apply Hno; tauto]|]);
          (split; [split; discriminate|reflexivity]).
  - assert (Hempty : new_password = "") by (destruct new_password; [reflexivity|discriminate]).
    specialize (Hlen0 Hempty).
    destruct (Js.truthy confirm_password) eqn:Hconf; cbn [negb];
      [destruct (String.eqb_spec new_password confirm_password); cbn [negb]|];
      (split; [split; [discriminate|intros [H _]; contradiction]|]);
      (split; [split; discriminate|intros H; contradiction]).
Qed.

(** X29. The password-reset form sends a request only when the URL carries
    a reset token, the token has not been found invalid and the form is
    valid, and it always sends one then; the request carries that token and
    the new password, twice.  Without a token nothing is sent, the form is
    marked as having no valid token and the general error says so, the
    passwords typed being left as they are. *)
Theorem X29_password_reset_handle_submit
        (reset_token : option string) (v : UV_PasswordReset.View) :
  let data := UV_PasswordReset.password_reset_data v in
  let result := UV_PasswordReset.handle_submit reset_token v in
  (forall request,
      snd result = Some request ->
      reset_token = Some (UV_PasswordReset.reset_token request)
      /\ UV_PasswordReset.reset_token request <> ""
      /\ UV_PasswordReset.is_token_valid v = true
      /\ snd (UV_PasswordReset.validate_password_inputs data) = true
      /\ UV_PasswordReset.new_password request
         = UV_PasswordReset.PasswordResetData.new_password data
      /\ UV_PasswordReset.confirm_password request
         = UV_PasswordReset.PasswordResetData.new_password data)
  /\ (Js.truthy_opt reset_token = true ->
      UV_PasswordReset.is_token_valid v = true ->
      snd (UV_PasswordReset.validate_password_inputs data) = true ->
      snd result <> None)
  /\ (Js.truthy_opt reset_token = false ->
      snd result = None
      /\ UV_PasswordReset.is_token_valid (fst result) = false
      /\ UV_PasswordReset.FormErrors.general
           (UV_PasswordReset.form_errors (fst result))
         = "Invalid request: Missing reset token.")
  /\ UV_PasswordReset.password_reset_data (fst result) = data.
Proof.
  cbv zeta. unfold UV_PasswordReset.handle_submit.
  destruct reset_token as [[|c token]|]; simpl.
  - repeat split; try discriminate.
  - destruct (UV_PasswordReset.validate_password_inputs
                (UV_PasswordReset.password_reset_data v)) as [errors ok].
    destruct ok, (UV_PasswordReset.is_token_valid v); simpl;
      (split; [intros request Hreq; try discriminate;
               injection Hreq as <-; repeat split; discriminate|]);
      repeat split; try discriminate; congruence.
  - repeat split; try discriminate.
Qed.

(** ** The database: references and cascades *)

Lemma has_user_In (user_id : Z) (db : Database.t) :
  Database.has_user user_id db = true <-> In user_id (Database.user_ids db).
Proof.
  unfold Database.has_user, Database.user_ids.
  rewrite existsb_exists, in_map_iff. split.
  - intros [u [Hin Heq]]. apply Z.eqb_eq in Heq. eauto.
  - intros [u [Heq Hin]]. exists u. split; [exact Hin|]. apply Z.eqb_eq. exact Heq.
Qed.

Lemma has_recipe_In (recipe_id : Z) (db : Database.t) :
  Database.has_recipe recipe_id db = true <-> In recipe_id (Database.recipe_ids db).
Proof.
  unfold Database.has_recipe, Database.recipe_ids.
  rewrite existsb_exists, in_map_iff. split.
  - intros [r [Hin Heq]]. apply Z.eqb_eq in Heq. eauto.
  - intros [r [Heq Hin]]. exists r. split; [exact Hin|]. apply Z.eqb_eq. exact Heq.
Qed.

Lemma among_In (gone : list Z) (recipe_id : Z) :
  Database.among gone recipe_id = true <-> In recipe_id gone.
Proof.
  unfold Database.among. rewrite existsb_exists. split.
  - intros [x [Hin Heq]]. apply Z.eqb_eq in Heq. subst. exact Hin.
  - intros Hin. exists recipe_id. split; [exact Hin|apply Z.eqb_refl].
Qed.

(** The recipes left by a cascade are those that were not deleted. *)
Lemma recipe_ids_cascade (gone : list Z) (db : Database.t) (recipe_id : Z) :
  In recipe_id (Database.recipe_ids (Database.cascade_recipes gone db))
  <-> In recipe_id (Database.recipe_ids db) /\ ~ In recipe_id gone.
Proof.
  unfold Database.recipe_ids, Database.cascade_recipes. simpl.
  rewrite !in_map_iff. split.
  - intros [r [Heq Hin]]. apply filter_In in Hin as [Hin Hkeep].
    apply negb_true_iff in Hkeep. subst recipe_id. split; [eauto|].
    intros Hgone. apply among_In in Hgone. congruence.
  - intros [[r [Heq Hin]] Hnot]. exists r. split; [exact Heq|].
    apply filter_In. split; [exact Hin|]. apply negb_true_iff.
    destruct (Database.among gone (Database.recipes.recipe_id r)) eqn:Hg;
      [|reflexivity].
    apply among_In in Hg. subst recipe_id. contradiction.
Qed.

Lemma kept_not_among (gone : list Z) (recipe_id : Z) :
  negb (Database.among gone recipe_id) = true -> ~ In recipe_id gone.
Proof.
  intros Hkeep Hin. apply among_In in Hin. rewrite Hin in Hkeep. discriminate.
Qed.

Lemma cascade_recipes_references (gone : list Z) (db : Database.t) :
  Database.references_hold db ->
  Database.references_hold (Database.cascade_recipes gone db).
Proof.
  unfold Database.references_hold. rewrite !Forall_forall.
  intros [Hrec [Hing [Hins [Htag [Hrat [Hcom Hsav]]]]]].
  assert (Hkeep : forall id, In id (Database.recipe_ids db) ->
                             negb (Database.among gone id) = true ->
                             In id (Database.recipe_ids
                                      (Database.cascade_recipes gone db))).
  { intros id Hin Hk. apply recipe_ids_cascade. split; [exact Hin|].
    apply kept_not_among. exact Hk. }
  split; [|split; [|split; [|split; [|split; [|split]]]]];
    intros r Hin; simpl in Hin; apply filter_In in Hin as [Hin Hk].
  - apply Hrec. exact Hin.
  - apply Hkeep; [apply Hing; exact Hin|exact Hk].
  - apply Hkeep; [apply Hins; exact Hin|exact Hk].
  - apply Hkeep; [apply Htag; exact Hin|exact Hk].
  - split; [apply Hkeep; [apply Hrat; exact Hin|exact Hk]|apply Hrat; exact Hin].
  - split; [apply Hkeep; [apply Hcom; exact Hin|exact Hk]|apply Hcom; exact Hin].
  - split; [apply Hkeep; [apply Hsav; exact Hin|exact Hk]|apply Hsav; exact Hin].
Qed.

Lemma user_ids_delete_user (user_id other : Z) (db : Database.t) :
  In other (Database.user_ids (Database.delete_user user_id db))
  <-> In other (Database.user_ids db) /\ other <> user_id.
Proof.
  unfold Database.user_ids, Database.delete_user. simpl.
  rewrite !in_map_iff. split.
  - intros [u [Heq Hin]]. apply filter_In in Hin as [Hin Hkeep].
    apply negb_true_iff, Z.eqb_neq in Hkeep. subst other. split; [eauto|exact Hkeep].
  - intros [[u [Heq Hin]] Hne]. exists u. split; [exact Heq|].
    apply filter_In. split; [exact Hin|]. apply negb_true_iff, Z.eqb_neq.
    subst other. exact Hne.
Qed.

(** After the cascade no recipe of the user is left. *)
Lemma no_recipe_of_user (user_id : Z) (db : Database.t) (r : Database.recipes.row) :
  In r (Database.recipes_rows
          (Database.cascade_recipes (Database.recipes_of user_id db) db)) ->
  Database.recipes.user_id r <> user_id.
Proof.
  simpl. intros Hin Hu. apply filter_In in Hin as [Hin Hkeep].
  apply kept_not_among in Hkeep. apply Hkeep.
  unfold Database.recipes_of. apply in_map, filter_In.
  split; [exact Hin|]. apply Z.eqb_eq. exact Hu.
Qed.

Lemma delete_user_references (user_id : Z) (db : Database.t) :
  Database.references_hold db ->
  Database.references_hold (Database.delete_user user_id db).
Proof.
  intros Hrefs.
  pose proof (cascade_recipes_references (Database.recipes_of user_id db) db Hrefs)
    as Hc.
  pose proof (no_recipe_of_user user_id db) as Hnone.
  unfold Database.references_hold in *. rewrite !Forall_forall in *.
  destruct Hc as [Hrec [Hing [Hins [Htag [Hrat [Hcom Hsav]]]]]].
  assert (Huser : forall other,
             In other (Database.user_ids
                         (Database.cascade_recipes
                            (Database.recipes_of user_id db) db)) ->
             other <> user_id ->
             In other (Database.user_ids (Database.delete_user user_id db))).
  { intros other Hin Hne. apply user_ids_delete_user. split; assumption. }
  split; [|split; [exact Hing|split; [exact Hins|split; [exact Htag|]]]].
  - intros r Hin. apply Huser; [apply Hrec; exact Hin|]. apply Hnone. exact Hin.
  - split; [|split]; intros r Hin; simpl in Hin;
      apply filter_In in Hin as [Hin Hk];
      apply negb_true_iff, Z.eqb_neq in Hk.
    + split; [apply Hrat; exact Hin|]. apply Huser; [apply Hrat; exact Hin|exact Hk].
    + split; [apply Hcom; exact Hin|]. apply Huser; [apply Hcom; exact Hin|exact Hk].
    + split; [apply Hsav; exact Hin|]. apply Huser; [apply Hsav; exact Hin|exact Hk].
Qed.

Lemma exec_references (st : Database.statement) (db : Database.t) :
  Database.references_hold db -> Database.references_hold (Database.exec st db).
Proof.
  intros Hrefs.
  destruct st as [n e|u title|r n o|r n d|r tag|r u v|r u text|u r|u r|r|u];
    simpl;
    try (apply cascade_recipes_references; exact Hrefs);
    try (apply delete_user_references; exact Hrefs);
    destruct Hrefs as [Hrec [Hing [Hins [Htag [Hrat [Hcom Hsav]]]]]];
    unfold Database.references_hold.
  - unfold Database.insert_user.
    destruct (negb (Database.username_taken n db)
              && negb (Database.email_taken e db)); simpl;
      repeat split; first [assumption|still_refers Hrec|still_refers Hrat
                          |still_refers Hcom|still_refers Hsav].
  - unfold Database.insert_recipe.
    destruct (Database.has_user u db) eqn:Hu; simpl.
    + apply has_user_In in Hu.
      repeat split; try assumption;
        first [still_refers Hing|still_refers Hins|still_refers Htag
              |still_refers Hrat|still_refers Hcom|still_refers Hsav|idtac].
      apply Forall_app. split; [exact Hrec|].
      constructor; [exact Hu|constructor].
    + repeat split; assumption.
  - unfold Database.insert_ingredient.
    destruct (Database.has_recipe r db) eqn:Hr; simpl.
    + apply has_recipe_In in Hr. repeat split; try assumption.
      apply Forall_app. split; [exact Hing|]. constructor; [exact Hr|constructor].
    + repeat split; assumption.
  - unfold Database.insert_instruction.
    destruct (Database.has_recipe r db) eqn:Hr; simpl.
    + apply has_recipe_In in Hr. unfold Schema.instructions.insert.
      destruct (Schema.instructions.unique
                  r n (Schema.instructions.rows (Database.instructions_table db)));
        simpl; repeat split; try assumption.
      apply Forall_app. split; [exact Hins|]. constructor; [exact Hr|constructor].
    + repeat split; assumption.
  - unfold Database.insert_tag.
    destruct (Database.has_recipe r db) eqn:Hr; simpl.
    + apply has_recipe_In in Hr.
      destruct (negb (Database.tagged r tag db)); simpl;
        repeat split; try assumption.
      apply Forall_app. split; [exact Htag|]. constructor; [exact Hr|constructor].
    + repeat split; assumption.
  - unfold Database.insert_rating.
    destruct (Database.has_recipe r db) eqn:Hr; simpl.
    + destruct (Database.has_user u db) eqn:Hu; simpl.
      * apply has_recipe_In in Hr. apply has_user_In in Hu.
        unfold Schema.ratings.insert.
        destruct (Schema.ratings.check v
                  && Schema.ratings.unique
                       r u (Schema.ratings.rows (Database.ratings_table db)));
          simpl; repeat split; try assumption.
        apply Forall_app. split; [exact Hrat|].
        constructor; [split; assumption|constructor].
      * repeat split; assumption.
    + repeat split; assumption.
  - unfold Database.insert_comment.
    destruct (Database.has_recipe r db) eqn:Hr; simpl.
    + destruct (Database.has_user u db) eqn:Hu; simpl.
      * apply has_recipe_In in Hr. apply has_user_In in Hu.
        repeat split; try assumption.
        apply Forall_app. split; [exact Hcom|].
        constructor; [split; assumption|constructor].
      * repeat split; assumption.
    + repeat split; assumption.
  - unfold Database.insert_saved.
    destruct (Database.has_user u db) eqn:Hu; simpl.
    + destruct (Database.has_recipe r db) eqn:Hr; simpl.
      * apply has_recipe_In in Hr. apply has_user_In in Hu.
        destruct (negb (Database.saved u r db)); simpl;
          repeat split; try assumption.
        apply Forall_app. split; [exact Hsav|].
        constructor; [split; assumption|constructor].
      * repeat split; assumption.
    + repeat split; assumption.
  - repeat split; try assumption. simpl.
    rewrite Forall_forall in *. intros x Hin. apply filter_In in Hin as [Hin _].
    apply Hsav. exact Hin.
Qed.

(** Rows that are kept have the keys they had. *)
Lemma kept_rows_distinct {A K : Type} (key : A -> K) (keep : A -> bool)
      (rows : list A) :
  NoDup (map key rows) -> NoDup (map key (filter keep rows)).
Proof.
  induction rows as [|r rows IH]; simpl; intros Hnd; [constructor|].
  inversion Hnd as [|k ks Hfresh Hrest]; subst.
  destruct (keep r); simpl; [|exact (IH Hrest)].
  constructor; [|exact (IH Hrest)].
  intros Hin. apply Hfresh. apply in_map_iff in Hin as [r' [Hk Hin]].
  apply filter_In in Hin as [Hin _]. apply in_map_iff. eauto.
Qed.

Lemma kept_rows_below {A : Type} (P : A -> Prop) (keep : A -> bool) (rows : list A) :
  Forall P rows -> Forall P (filter keep rows).
Proof.
  rewrite !Forall_forall. intros H r Hin. apply filter_In in Hin as [Hin _]. auto.
Qed.

(** A key that no stored row passes the test for is a new key. *)
Lemma untested_key_is_new {A K : Type} (key : A -> K) (test : A -> bool) (k : K)
      (rows : list A) :
  (forall r, key r = k -> test r = true) ->
  existsb test rows = false -> ~ In k (map key rows).
Proof.
  intros Htest Hnone Hin. apply in_map_iff in Hin as [r [Hk Hin]].
  assert (existsb test rows = true) by (apply existsb_exists; eauto).
  congruence.
Qed.

Lemma below_seq_is_new {A : Type} (key : A -> Z) (seq : Z) (rows : list A) :
  Forall (fun r => key r < seq) rows -> ~ In seq (map key rows).
Proof.
  rewrite Forall_forall. intros Hlt Hin. apply in_map_iff in Hin as [r [Hk Hin]].
  specialize (Hlt r Hin). lia.
Qed.

Lemma below_next_seq {A : Type} (key : A -> Z) (seq : Z) (rows : list A) :
  Forall (fun r => key r < seq) rows -> Forall (fun r => key r < seq + 1) rows.
Proof.
  intros H. eapply Forall_impl; [|exact H]. simpl. intros r Hr. lia.
Qed.

Lemma cascade_recipes_keys (gone : list Z) (db : Database.t) :
  Database.keys_distinct db ->
  Database.keys_distinct (Database.cascade_recipes gone db).
Proof.
  unfold Database.keys_distinct, Database.user_ids, Database.recipe_ids.
  intros [Hu [Hus [Hn [He [Hr [Hrs [Ht Hs]]]]]]]. simpl.
  repeat split; try assumption;
    first [apply kept_rows_distinct; assumption|apply kept_rows_below; assumption].
Qed.

Lemma exec_keys (st : Database.statement) (db : Database.t) :
  Database.keys_distinct db -> Database.keys_distinct (Database.exec st db).
Proof.
  intros Hkeys.
  destruct st as [n e|u title|r n o|r n d|r tag|r u v|r u text|u r|u r|r|u];
    simpl; try (apply cascade_recipes_keys; exact Hkeys).
  - unfold Database.insert_user.
    destruct Hkeys as [Hu [Hus [Hn [He [Hr [Hrs [Ht Hs]]]]]]].
    unfold Database.keys_distinct, Database.user_ids in *.
    destruct (Database.username_taken n db) eqn:Hname; simpl;
      [repeat split; try assumption; apply below_next_seq; assumption|].
    destruct (Database.email_taken e db) eqn:Hmail; simpl;
      [repeat split; try assumption; apply below_next_seq; assumption|].
    rewrite !map_app. simpl. repeat split; try assumption.
    + apply NoDup_snoc; [assumption|]. apply below_seq_is_new. assumption.
    + apply Forall_app. split; [apply below_next_seq; assumption|].
      constructor; [simpl; lia|constructor].
    + apply NoDup_snoc; [assumption|].
      apply (untested_key_is_new
               Database.users.username
               (fun u => String.eqb (Database.users.username u) n));
        [|exact Hname].
      intros r0 ->. apply String.eqb_refl.
    + apply NoDup_snoc; [assumption|].
      apply (untested_key_is_new
               Database.users.email
               (fun u => String.eqb (Database.users.email u) e));
        [|exact Hmail].
      intros r0 ->. apply String.eqb_refl.
  - unfold Database.insert_recipe.
    destruct Hkeys as [Hu [Hus [Hn [He [Hr [Hrs [Ht Hs]]]]]]].
    unfold Database.keys_distinct, Database.recipe_ids in *.
    destruct (Database.has_user u db); simpl;
      [|repeat split; try assumption; apply below_next_seq; assumption].
    rewrite !map_app. simpl. repeat split; try assumption.
    + apply NoDup_snoc; [assumption|]. apply below_seq_is_new. assumption.
    + apply Forall_app. split; [apply below_next_seq; assumption|].
      constructor; [simpl; lia|constructor].
  - unfold Database.insert_ingredient.
    destruct (Database.has_recipe r db); exact Hkeys.
  - unfold Database.insert_instruction.
    destruct (if Database.has_recipe r db then _ else _). exact Hkeys.
  - unfold Database.insert_tag.
    destruct (Database.has_recipe r db); [|exact Hkeys].
    destruct (Database.tagged r tag db) eqn:Htagged; [exact Hkeys|]. simpl.
    destruct Hkeys as [Hu [Hus [Hn [He [Hr [Hrs [Ht Hs]]]]]]].
    unfold Database.keys_distinct in *. simpl.
    repeat split; try assumption.
    rewrite map_app. simpl. apply NoDup_snoc; [assumption|].
    apply (untested_key_is_new
             (fun x => (Database.recipe_tags.recipe_id x,
                        Database.recipe_tags.tag_name x))
             (fun x => (Database.recipe_tags.recipe_id x =? r)
                       && String.eqb (Database.recipe_tags.tag_name x) tag));
      [|exact Htagged].
    intros x Hx. injection Hx as -> ->. rewrite Z.eqb_refl, String.eqb_refl.
    reflexivity.
  - unfold Database.insert_rating.
    destruct (if Database.has_recipe r db && Database.has_user u db
              then _ else _). exact Hkeys.
  - unfold Database.insert_comment.
    destruct (Database.has_recipe r db && Database.has_user u db); exact Hkeys.
  - unfold Database.insert_saved.
    destruct (Database.has_user u db && Database.has_recipe r db); [|exact Hkeys].
    destruct (Database.saved u r db) eqn:Hsaved; [exact Hkeys|]. simpl.
    destruct Hkeys as [Hu [Hus [Hn [He [Hr [Hrs [Ht Hs]]]]]]].
    unfold Database.keys_distinct in *. simpl.
    repeat split; try assumption.
    rewrite map_app. simpl. apply NoDup_snoc; [assumption|].
    apply (untested_key_is_new
             (fun x => (Database.saved_recipes.user_id x,
                        Database.saved_recipes.recipe_id x))
             (fun x => (Database.saved_recipes.user_id x =? u)
                       && (Database.saved_recipes.recipe_id x =? r)));
      [|exact Hsaved].
    intros x Hx. injection Hx as -> ->. rewrite !Z.eqb_refl. reflexivity.
  - destruct Hkeys as [Hu [Hus [Hn [He [Hr [Hrs [Ht Hs]]]]]]].
    unfold Database.keys_distinct in *. simpl.
    repeat split; try assumption. apply kept_rows_distinct. assumption.
  - pose proof (cascade_recipes_keys (Database.recipes_of u db) db Hkeys) as Hc.
    destruct Hc as [Hu [Hus [Hn [He [Hr [Hrs [Ht Hs]]]]]]].
    unfold Database.keys_distinct, Database.user_ids, Database.recipe_ids in *.
    unfold Database.delete_user.
    cbn [Database.users_rows Database.users_seq Database.recipes_rows
           Database.recipes_seq Database.recipe_tags_rows
           Database.saved_recipes_rows].
    repeat split; try assumption;
      first [apply kept_rows_distinct; assumption|apply kept_rows_below; assumption].
Qed.

Lemma exec_ratings_valid (st : Database.statement) (db : Database.t) :
  ratings_valid (Database.ratings_table db) ->
  ratings_valid (Database.ratings_table (Database.exec st db)).
Proof.
  intros Hv.
  destruct st as [n e|u title|r n o|r n d|r tag|r u v|r u text|u r|u r|r|u];
    simpl.
  - unfold Database.insert_user.
    destruct (negb (Database.username_taken n db)
              && negb (Database.email_taken e db)); exact Hv.
  - unfold Database.insert_recipe. destruct (Database.has_user u db); exact Hv.
  - unfold Database.insert_ingredient. destruct (Database.has_recipe r db); exact Hv.
  - unfold Database.insert_instruction.
    destruct (if Database.has_recipe r db then _ else _). exact Hv.
  - unfold Database.insert_tag.
    destruct (Database.has_recipe r db && negb (Database.tagged r tag db)); exact Hv.
  - unfold Database.insert_rating.
    destruct (Database.has_recipe r db && Database.has_user u db).
    + pose proof (exec_valid (Schema.ratings.Insert r u v)
                             (Database.ratings_table db) Hv) as Hi.
      simpl in Hi.
      destruct (Schema.ratings.insert r u v (Database.ratings_table db)).
      exact Hi.
    + simpl. destruct Hv as [Hrange Hkeys]. split; assumption.
  - unfold Database.insert_comment.
    destruct (Database.has_recipe r db && Database.has_user u db); exact Hv.
  - unfold Database.insert_saved.
    destruct (Database.has_user u db && Database.has_recipe r db
              && negb (Database.saved u r db)); exact Hv.
  - exact Hv.
  - apply filter_valid. exact Hv.
  - unfold Database.delete_user.
    cbn [Database.ratings_table].
    apply (exec_valid (Schema.ratings.CascadeUser u)).
    apply (filter_valid
             (fun r0 => negb (Database.among (Database.recipes_of u db)
                                             (Schema.ratings.recipe_id r0)))).
    exact Hv.
Qed.

Lemma delete_user_gone (user_id : Z) (db : Database.t) :
  Database.user_gone user_id (Database.delete_user user_id db).
Proof.
  unfold Database.user_gone. split; [|split; [|split; [|split]]].
  - intros Hin. apply user_ids_delete_user in Hin. tauto.
  - intros r Hin. apply (no_recipe_of_user user_id db). exact Hin.
  - intros r Hin. simpl in Hin. apply filter_In in Hin as [_ Hk].
    apply negb_true_iff, Z.eqb_neq in Hk. exact Hk.
  - intros r Hin. simpl in Hin. apply filter_In in Hin as [_ Hk].
    apply negb_true_iff, Z.eqb_neq in Hk. exact Hk.
  - intros r Hin. simpl in Hin. apply filter_In in Hin as [_ Hk].
    apply negb_true_iff, Z.eqb_neq in Hk. exact Hk.
Qed.

Lemma cascade_recipes_gone (gone : list Z) (recipe_id : Z) (db : Database.t) :
  In recipe_id gone ->
  Database.recipe_gone recipe_id (Database.cascade_recipes gone db).
Proof.
  intros Hgone. unfold Database.recipe_gone.
  split; [intros Hin; apply recipe_ids_cascade in Hin; tauto|].
  repeat split; intros r Hin Heq; simpl in Hin;
    apply filter_In in Hin as [_ Hk]; apply kept_not_among in Hk;
    apply Hk; rewrite Heq; exact Hgone.
Qed.

(** X30. Whatever statements are run on the database, every foreign key
    refers to a stored row, the keys of users and recipes are distinct, and
    so are user names, e-mail addresses, the tags of a recipe, the saved
    recipes of a user and the ratings of a recipe by a user.  After a user
    is deleted no row mentions the user, and none mentions a recipe the
    user had submitted; after a recipe is deleted no row mentions it.  An
    insert that refers to a user or a recipe that is not stored is refused
    and stores nothing. *)
Theorem X30_database_references_and_cascades :
  (forall sts : list Database.statement,
      let db := Database.run sts Database.empty in
      Database.references_hold db
      /\ Database.keys_distinct db
      /\ ratings_valid (Database.ratings_table db))
  /\ (forall (db : Database.t) (user_id recipe_id : Z),
         Database.user_gone user_id (Database.delete_user user_id db)
         /\ (In recipe_id (Database.recipes_of user_id db) ->
             Database.recipe_gone recipe_id (Database.delete_user user_id db))
         /\ Database.recipe_gone recipe_id (Database.delete_recipe recipe_id db))
  /\ (forall (db : Database.t) (user_id recipe_id rating : Z) (text : string),
         Database.has_user user_id db = false
         \/ Database.has_recipe recipe_id db = false ->
         fst (Database.insert_rating recipe_id user_id rating db) = false
         /\ Schema.ratings.rows
              (Database.ratings_table
                 (snd (Database.insert_rating recipe_id user_id rating db)))
            = Schema.ratings.rows (Database.ratings_table db)
         /\ Database.insert_comment recipe_id user_id text db = (false, db)
         /\ Database.insert_saved user_id recipe_id db = (false, db)).
Proof.
  split; [|split].
  - intros sts.
    assert (Hinv : forall db,
               Database.references_hold db
               /\ Database.keys_distinct db
               /\ ratings_valid (Database.ratings_table db) ->
               Database.references_hold (Database.run sts db)
               /\ Database.keys_distinct (Database.run sts db)
               /\ ratings_valid (Database.ratings_table (Database.run sts db))).
    { induction sts as [|st sts IH]; intros db [Hr [Hk Hv]]; simpl.
      - auto.
      - apply IH. split; [apply exec_references; exact Hr|].
        split; [apply exec_keys; exact Hk|apply exec_ratings_valid; exact Hv]. }
    apply Hinv. split; [|split].
    + unfold Database.references_hold. simpl. repeat split; constructor.
    + unfold Database.keys_distinct. simpl. repeat split; constructor.
    + split; constructor.
  - intros db user_id recipe_id. split; [apply delete_user_gone|]. split.
    + intros Howned.
      pose proof (cascade_recipes_gone (Database.recipes_of user_id db)
                                       recipe_id db Howned)
        as [Hid [Hing [Hins [Htag [Hrat [Hcom Hsav]]]]]].
      unfold Database.recipe_gone. split; [exact Hid|].
      split; [exact Hing|]. split; [exact Hins|]. split; [exact Htag|].
      split; [|split]; intros r Hin; simpl in Hin;
        apply filter_In in Hin as [Hin _]; auto.
    + apply cascade_recipes_gone. left. reflexivity.
  - intros db user_id recipe_id rating text Hmissing.
    unfold Database.insert_rating, Database.insert_comment, Database.insert_saved.
    destruct Hmissing as [-> | ->]; rewrite ?andb_false_r; simpl;
      repeat split.
Qed.

(** ** Instances *)

(** Signed out, an unsave of recipe 4 answers false and changes nothing,
    though its request would have succeeded. *)
Lemma X1_witness :
  Js.truthy_opt (Store.access_token (Store.store Examples.signed_out)) = false
  /\ Store.unsaveRecipe 4 (Store.Resolved None) Examples.signed_out
     = (false, Examples.signed_out).
Proof.
  split; [reflexivity|].
  destruct (X1_no_token_no_effect Examples.signed_out eq_refl)
    as [_ [_ [_ [_ [Hunsave _]]]]].
  apply Hunsave.
Defined.

(** Saving recipe 9, which is not among the two saved ones, adds it at the
    end. *)
Lemma X2_witness :
  Js.truthy_opt (Store.access_token (Store.store Samples.world)) = true
  /\ map RecipeSummary.recipe_id
         (Store.saved_recipes
            (Store.store
               (snd (Store.saveRecipe 9 "2024-02-01T18:30:00Z"
                                      (Store.Resolved None) Samples.world))))
     = [1; 4; 9].
Proof.
  split; [reflexivity|].
  destruct (X2_saveRecipe_success 9 "2024-02-01T18:30:00Z" None Samples.world
                                  eq_refl) as [_ [Hids _]].
  exact Hids.
Defined.

(** Saving recipe 9 and unsaving it again gives back the two saved
    recipes. *)
Lemma X3_witness :
  Js.truthy_opt (Store.access_token (Store.store Samples.world)) = true
  /\ Store.saved_recipes
       (Store.store
          (snd (Store.unsaveRecipe
                  9 (Store.Resolved None)
                  (snd (Store.saveRecipe 9 "2024-02-01T18:30:00Z"
                                         (Store.Resolved None) Samples.world)))))
     = [Samples.stir_fry; Samples.brownies].
Proof.
  split; [reflexivity|].
  destruct (X3_save_then_unsave 9 "2024-02-01T18:30:00Z" None None Samples.world
                                eq_refl) as [_ [_ Hback]].
  apply Hback. reflexivity.
Defined.

(** A comment posted on the stir-fry and deleted again leaves its one
    earlier comment. *)
Lemma X4_witness :
  Store.current_recipe_details (Store.store Examples.world_with_recipe)
  = Some Examples.stir_fry_details
  /\ option_map
       RecipeDetail.comments
       (Store.current_recipe_details
          (Store.store
             (snd (Store.deleteComment
                     12 (Store.Resolved None)
                     (snd (Store.postComment 1 "Added more ginger."
                                             (Store.Resolved Examples.new_comment)
                                             Examples.world_with_recipe))))))
     = Some [Examples.first_comment].
Proof.
  split; [reflexivity|].
  destruct (X4_post_then_delete_comment
              Examples.stir_fry_details 1 "Added more ginger."
              Examples.new_comment None Examples.world_with_recipe
              eq_refl eq_refl) as [_ [_ [_ [_ Hback]]]].
  apply Hback. intros c [<-|[]]. discriminate.
Defined.

(** A fifth rating of the stir-fry: the count goes from 4 to 5. *)
Lemma X5_witness :
  option_map
    RecipeDetail.rating_count
    (Store.current_recipe_details
       (Store.store
          (snd (Store.submitRating
                  1 5 (Store.Resolved (Store.RatingResponse.mk None (Some (23 # 5))))
                  Examples.world_with_recipe))))
  = Some 5.
Proof.
  destruct (X5_submitRating_success
              Examples.stir_fry_details 1 5
              (Store.RatingResponse.mk None (Some (23 # 5)))
              Examples.world_with_recipe eq_refl eq_refl) as [_ [_ [Hsame _]]].
  rewrite (Hsame eq_refl). reflexivity.
Defined.

(** A fetch of the saved recipes that fails with status 500 empties the
    list and keeps the token. *)
Lemma X6_witness :
  Store.saved_recipes
    (Store.store (snd (Store.fetchSavedRecipes (Store.Rejected Examples.error_500)
                                               Samples.world))) = []
  /\ Store.access_token
       (Store.store (snd (Store.fetchSavedRecipes (Store.Rejected Examples.error_500)
                                                  Samples.world)))
     = Some "token-alex".
Proof.
  destruct (X6_fetchSavedRecipes Samples.world eq_refl) as [Hfail _].
  destruct (Hfail Examples.error_500) as [_ [Hempty [_ Hkept]]].
  split; [exact Hempty|].
  destruct (Hkept eq_refl) as [_ [Htoken _]]. exact Htoken.
Defined.

(** A profile load that fails with status 500 keeps the two saved recipes
    and the token. *)
Lemma X7_witness :
  Store.saved_recipes
    (Store.store (Store.loadUserProfile (Store.Rejected Examples.error_500)
                                        Samples.world))
  = [Samples.stir_fry; Samples.brownies]
  /\ option_map UserSummary.username
                (Store.user_profile_summary
                   (Store.store (Store.loadUserProfile
                                   (Store.Resolved Examples.alex_profile)
                                   Samples.world)))
     = Some "alex_runner".
Proof.
  destruct (X7_loadUserProfile Samples.world eq_refl) as [Hfail Hok].
  destruct (Hfail Examples.error_500 eq_refl) as [_ [_ [_ [_ [Hsaved _]]]]].
  destruct (Hok Examples.alex_profile) as [_ [_ [Hname _]]].
  split; [exact Hsaved|exact Hname].
Defined.

(** 'Saved' shown at 10000 and again at 11000: at 13000 the second
    notification is gone, 2000 ms after it was shown. *)
Lemma X8_witness :
  let first := Store.showNotification "Saved" success Samples.world in
  let second := Store.showNotification "Saved" info (Store.advance_to 11000 first) in
  Store.now second = 11000
  /\ Store.notification (Store.store (Store.advance_to 13000 second)) = None.
Proof.
  split; [reflexivity|].
  destruct (X8_same_message_cleared_by_first_timer
              Samples.world "Saved" success info 11000)
    as [_ [Hgone _]].
  - simpl. lia.
  - intros tm [].
  - exact Hgone.
Defined.

(** A login that succeeds with a token starts the profile load; when that
    load is refused with 401 the store is signed out again. *)
Lemma X9_witness :
  let data := StoreAuth.LoginResponse.mk (Some "token-alex") (Some Samples.alex) in
  let w := snd (StoreAuth.login (Store.Resolved data) Examples.signed_out) in
  Store.loading_auth (Store.store w) = true
  /\ logged_out (Store.store (Store.loadUserProfile
                                (Store.Rejected Samples.error_401) w)).
Proof.
  intros data w.
  destruct (X9_login Examples.signed_out) as [_ Hok].
  destruct (Hok data) as [_ [_ [_ [_ [_ [Hloading H401]]]]]].
  split; [exact Hloading|]. apply H401; reflexivity.
Defined.

(** The sample form is complete. *)
Lemma X10_witness : UV_SubmitRecipeForm.complete Examples.complete_form.
Proof.
  pose proof (X10_validate_recipe_form_accepts_complete_forms Examples.complete_form)
    as H.
  change (UV_SubmitRecipe.validate_recipe_form Examples.complete_form)
    with (UV_SubmitRecipe.FormErrors.empty, true) in H.
  destruct H as [[Hcomplete _] _]. apply Hcomplete. reflexivity.
Defined.

(** Submitting the complete form starts the mutation with it and clears the
    error left by an earlier failure. *)
Lemma X11_witness :
  snd (UV_SubmitRecipe.handle_recipe_submit Examples.complete_form
                                            Examples.complete_view)
  = Some Examples.complete_form
  /\ UV_SubmitRecipe.form_errors
       (fst (UV_SubmitRecipe.handle_recipe_submit Examples.complete_form
                                                  Examples.complete_view))
     = UV_SubmitRecipe.FormErrors.empty.
Proof.
  pose proof (X11_handle_recipe_submit Examples.complete_form Examples.complete_view)
    as H.
  destruct (UV_SubmitRecipe.handle_recipe_submit Examples.complete_form
                                                 Examples.complete_view)
    as [v' started].
  destruct H as [Hvalid _]. apply Hvalid.
  apply validate_recipe_form_valid. reflexivity.
Defined.

(** The three steps of the sample form are numbered 1, 2, 3; with a fourth
    step added the numbers are 1, 2, 3, 4. *)
Lemma X12_witness :
  UV_SubmitRecipeForm.numbered
    (UV_SubmitRecipe.RecipeFormData.instructions Examples.complete_form)
  /\ UV_SubmitRecipeForm.numbered
       (UV_SubmitRecipe.RecipeFormData.instructions
          (UV_SubmitRecipeForm.add_instruction_step Examples.complete_form)).
Proof.
  assert (Hn : UV_SubmitRecipeForm.numbered
                 (UV_SubmitRecipe.RecipeFormData.instructions Examples.complete_form))
    by reflexivity.
  split; [exact Hn|].
  destruct (X12_adding_a_step_or_an_ingredient Examples.complete_form)
    as [_ [Hkeeps _]].
  apply Hkeeps. exact Hn.
Defined.

(** Removing the second of the three steps leaves the first and the third;
    removing a sixth ingredient leaves the form as it is. *)
Lemma X13_witness :
  UV_SubmitRecipe.RecipeFormData.instructions
    (UV_SubmitRecipeForm.remove_instruction_step 1 Examples.complete_form)
  = [Samples.step 1 "Boil the eggs."; Samples.step 3 "Mix."]
  /\ UV_SubmitRecipeForm.remove_ingredient 5 Examples.complete_form
     = Examples.complete_form.
Proof.
  destruct (X13_remove_by_position 1 Examples.complete_form)
    as [_ [_ [_ [Hinside _]]]].
  destruct (X13_remove_by_position 5 Examples.complete_form) as [Houtside _].
  split.
  - destruct Hinside as [Hrows _]; [simpl; lia|]. rewrite Hrows. reflexivity.
  - apply Houtside. right. simpl. lia.
Defined.

(** With the first of the three steps removed and a step added, the form
    holds the numbers 2, 3, 3. *)
Lemma X14_witness :
  let d' := UV_SubmitRecipeForm.add_instruction_step
              (UV_SubmitRecipeForm.remove_instruction_step 0 Examples.complete_form) in
  map UV_SubmitRecipe.FormInstruction.step_number
      (UV_SubmitRecipe.RecipeFormData.instructions d') = [2; 3; 3]
  /\ ~ NoDup (map UV_SubmitRecipe.FormInstruction.step_number
                  (UV_SubmitRecipe.RecipeFormData.instructions d')).
Proof.
  split; [reflexivity|].
  destruct (X14_remove_then_add_repeats_a_step_number
              0 Examples.complete_form Examples.complete_view)
    as [Hrepeats _].
  - reflexivity.
  - simpl. lia.
  - exact Hrepeats.
Defined.

(** 'Dinner', chosen and chosen again, leaves the sample form as it was. *)
Lemma X15_witness :
  UV_SubmitRecipeForm.handleTagChange
    "Dinner" (UV_SubmitRecipeForm.handleTagChange "Dinner" Examples.complete_form)
  = Examples.complete_form.
Proof.
  destruct (X15_handleTagChange_toggles "Dinner" Examples.complete_form)
    as [_ [_ [_ Hback]]].
  apply Hback. simpl. intros [H|[]]. discriminate.
Defined.

(** A PNG of 200 kB becomes the photo of the form; a PDF of that size is
    refused and the form keeps the address it had. *)
Lemma X16_witness :
  UV_SubmitRecipe.RecipeFormData.cover_photo_file
    (UV_SubmitRecipe.recipe_form_data
       (fst (UV_SubmitRecipeForm.handle_cover_photo_change
               (Some Examples.photo) "blob:preview"
               (Examples.complete_view, Samples.world))))
  = Some Examples.photo
  /\ UV_SubmitRecipe.recipe_form_data
       (fst (UV_SubmitRecipeForm.handle_cover_photo_change
               (Some Examples.document) "blob:preview"
               (Examples.complete_view, Samples.world)))
     = Examples.complete_form.
Proof.
  destruct (X16_handle_cover_photo_change
              Examples.photo "blob:preview" Examples.complete_view Samples.world)
    as [_ [Haccepted _]].
  destruct (X16_handle_cover_photo_change
              Examples.document "blob:preview" Examples.complete_view Samples.world)
    as [Hrefused _].
  split.
  - destruct (Haccepted eq_refl) as [Hfile _]. exact Hfile.
  - destruct (Hrefused eq_refl) as [Hkept _]. exact Hkept.
Defined.

(** From page 2 of 3 of the results for 'pizza', page 3 is written to the
    view and to the URL, which keeps its search text. *)
Lemma X17_witness :
  let after := UV_SearchResults.handlePageChange 3 (Samples.search_view,
                                                    Samples.world) in
  UV_SearchResults.local_page (fst after) = 3
  /\ URLSearchParams.getAll "page" (UV_SearchResults.searchParams (fst after)) = ["3"]
  /\ URLSearchParams.get "q" (UV_SearchResults.searchParams (fst after))
     = Some "pizza".
Proof.
  destruct (X17_search_handlers_update_url_and_store Samples.search_view
                                                     Samples.world)
    as [_ Hpage].
  destruct (Hpage 3 Samples.page_2_of_3 eq_refl) as [Hlocal [_ [_ [Hurl [_ Hq]]]]].
  - simpl. lia.
  - split; [exact Hlocal|]. split; [exact Hurl|exact Hq].
Defined.

(** Clearing the filters of the search for 'pizza' keeps the search text in
    the URL. *)
Lemma X18_witness :
  URLSearchParams.get
    "q"
    (UV_SearchResults.searchParams
       (fst (UV_SearchResultsFilters.handleClearFilters (Samples.search_view,
                                                         Samples.world))))
  = Some "pizza".
Proof.
  pose proof (X18_search_handleClearFilters Samples.search_view Samples.world)
    as H.
  cbv zeta in H. decompose [and] H. assumption.
Defined.

(** The search for 'pizza' on its second page asks for [q=pizza] and
    [page=2]. *)
Lemma X19_witness :
  exists queryParams,
    UV_SearchResultsFilters.queryFn Samples.search_view
    = UV_SearchResultsFilters.Requested queryParams
    /\ URLSearchParams.getAll "q" queryParams = ["pizza"]
    /\ URLSearchParams.getAll "page" queryParams = ["2"].
Proof.
  destruct (X19_fetch_search_results "" FilterParams.default "newest" 1 10
                                     Samples.search_view)
    as [_ [_ [Hquery _]]].
  destruct (Hquery "pizza" eq_refl) as [queryParams [Hrun [Hq [_ Hpage]]]];
    [discriminate|unfold JsNumber.safe_integer; simpl; lia|].
  exists queryParams. split; [exact Hrun|]. split; [exact Hq|exact Hpage].
Defined.

(** Two tags chosen in the search view are written to the URL as one
    parameter; a minimum rating of 3.5 is written as such. *)
Lemma X20_witness :
  URLSearchParams.getAll
    "tags"
    (UV_SearchResults.searchParams
       (fst (UV_SearchResultsFilters.handleFilterChange
               (UV_SearchResultsFilters.tags ["Keto"; "Lunch"])
               (Samples.search_view, Samples.world))))
  = ["Keto,Lunch"]
  /\ URLSearchParams.getAll
       "min_rating"
       (UV_SearchResults.searchParams
          (fst (UV_SearchResultsFilters.handleFilterChange
                  (UV_SearchResultsFilters.min_rating (Some (JsNumber.mk "3.5")))
                  (Samples.search_view, Samples.world))))
     = ["3.5"].
Proof.
  split.
  - pose proof (X20_search_handleFilterChange
                  (UV_SearchResultsFilters.tags ["Keto"; "Lunch"])
                  Samples.search_view Samples.world) as H.
    cbv zeta in H. destruct H as [_ [_ [_ [_ [Hurl _]]]]]. exact Hurl.
  - pose proof (X20_search_handleFilterChange
                  (UV_SearchResultsFilters.min_rating (Some (JsNumber.mk "3.5")))
                  Samples.search_view Samples.world) as H.
    cbv zeta in H. destruct H as [_ [_ [_ [_ [Hurl _]]]]]. exact Hurl.
Defined.

(** The tags 'Keto' and 'Lunch' are read back from the URL they were
    written to. *)
Lemma X21_witness :
  UV_SearchResultsFilters.list_of_param
    (URLSearchParams.get
       "tags"
       (UV_SearchResults.searchParams
          (fst (UV_SearchResultsFilters.handleFilterChange
                  (UV_SearchResultsFilters.tags ["Keto"; "Lunch"])
                  (Samples.search_view, Samples.world)))))
  = ["Keto"; "Lunch"].
Proof.
  destruct (X21_search_list_filters_round_trip
              ["Keto"; "Lunch"] Samples.search_view Samples.world) as [Htags _].
  - repeat constructor; discriminate.
  - exact Htags.
Defined.

(** In the browse view filtered by 'Keto' and 'Breakfast', choosing 'Keto'
    leaves 'Breakfast' in the local filters. *)
Lemma X23_witness :
  FilterParams.tags
    (UV_BrowseRecipes.localFilterParams
       (UV_BrowseRecipesFilters.handleTagFilterToggle "Keto" Samples.browse_view))
  = ["Breakfast"].
Proof.
  pose proof (X23_browse_filter_toggles "Keto" Samples.browse_view) as H.
  cbv zeta in H. destruct H as [_ [_ [_ [_ [_ [_ [_ [_ [Htags _]]]]]]]]].
  rewrite Htags. reflexivity.
Defined.


(** A comment of two spaces on the stir-fry is turned down in the view,
    though the request would have succeeded. *)
Lemma X25_witness :
  UV_RecipeViewActions.commentMutation
    (fun id text w => Store.postComment id text (Store.Resolved Examples.new_comment) w)
    true (Some 1) "  " (Examples.recipe_view, Examples.world_with_recipe)
  = (None,
     (UV_RecipeViewActions.set_comment_error (Some "Comment cannot be empty")
                                             Examples.recipe_view,
      Examples.world_with_recipe)).
Proof.
  destruct (X25_comment_mutations 1 "  " Examples.recipe_view
                                  Examples.world_with_recipe
                                  Examples.stir_fry_details
                                  eq_refl eq_refl eq_refl) as [Hblank _].
  apply Hblank. reflexivity.
Defined.

(** 'Str0ng!Pass', typed twice, is accepted. *)
Lemma X28_witness :
  snd (UV_PasswordReset.validate_password_inputs Examples.good_passwords) = true.
Proof.
  pose proof (X28_validate_password_inputs Examples.good_passwords) as H.
  cbv zeta in H.
  destruct (UV_PasswordReset.validate_password_inputs Examples.good_passwords)
    as [errors isValid].
  destruct H as [[_ Hvalid] _]. apply Hvalid.
  repeat split; vm_compute; congruence.
Defined.

(** With the token 'abc' in the URL the accepted password is sent, twice. *)
Lemma X29_witness :
  exists request,
    snd (UV_PasswordReset.handle_submit (Some "abc") Examples.password_view)
    = Some request
    /\ UV_PasswordReset.reset_token request = "abc"
    /\ UV_PasswordReset.new_password request = "Str0ng!Pass"
    /\ UV_PasswordReset.confirm_password request = "Str0ng!Pass".
Proof.
  destruct (X29_password_reset_handle_submit (Some "abc") Examples.password_view)
    as [Hsent [Hsends _]].
  destruct (snd (UV_PasswordReset.handle_submit (Some "abc") Examples.password_view))
    as [request|].
  - exists request. destruct (Hsent request eq_refl) as [Htoken [_ [_ [_ [Hnew Hconf]]]]].
    split; [reflexivity|]. split; [congruence|]. split; [exact Hnew|exact Hconf].
  - exfalso. apply Hsends; reflexivity.
Defined.

(** After the sample statements, deleting the first user leaves no row
    that mentions the user or the user's recipe. *)
Lemma X30_witness :
  let db := Database.run Examples.statements Database.empty in
  Database.recipes_of 1 db = [1]
  /\ Database.references_hold db
  /\ Database.user_gone 1 (Database.delete_user 1 db)
  /\ Database.recipe_gone 1 (Database.delete_user 1 db).
Proof.
  intros db.
  destruct X30_database_references_and_cascades as [Hrun [Hdelete _]].
  destruct (Hrun Examples.statements) as [Hrefs _].
  destruct (Hdelete db 1 1) as [Huser [Hrecipe _]].
  split; [reflexivity|]. split; [exact Hrefs|]. split; [exact Huser|].
  apply Hrecipe. left. reflexivity.
Defined.
